(** * gulag: [objects/score.py]

    A shallow embedding of the score object of the gulag server and of
    its methods [from_sql], [from_submission], [calc_lb_placement],
    [calc_diff], [calc_status] and [calc_accuracy], followed by the
    properties of the submission and ranking pipeline.

    Conventions of the embedding.
    - A Python [int] is a [Z].
    - A Python [float] is an IEEE-754 binary64 value: [spec_float] with
      precision 53 and maximal exponent 1024, with the operations of
      [SpecFloat] (round to nearest, ties to even).  The conversion of
      an [int] that is too large raises [OverflowError], as in Python.
    - A Python [str] is the list of its code points, so that a
      plaintext may hold any character the UTF-8 decoder yields; the
      decimal digits and the white space are those of the Unicode
      database of the interpreter (version 14.0, CPython 3.11), and
      [int] refuses more than 4300 digits, as that interpreter does.
      Names of tables and messages of the log, which the module writes
      itself, are kept as [string]s.
    - An [async] method is a computation in the monad [M]: it reads the
      answers of the collaborators (store, beatmap and player
      registries, performance engine, clock) from a [World], records
      every call in a trace of [event]s, and returns a value or raises.
    - The store is a family of tables; a table maps the primary key
      [id] to a row. *)

From Stdlib Require Import ZArith NArith Zpower String Ascii List Bool Lia.
From Stdlib Require Import Floats.SpecFloat.
From stdpp Require Import base option gmap.

Import ListNotations.
#[local] Set Warnings "-register-all".
Local Open Scope string_scope.
Local Open Scope list_scope.
Local Open Scope Z_scope.

(** ** Results *)

Inductive exn : Type :=
| AttributeError   (* attribute access on [None] *)
| ValueError       (* a value outside an enumeration, a text [int] refuses *)
| OverflowError    (* int too large to convert to float *)
| EngineError.     (* the performance engine failed *)

Inductive result (A : Type) : Type :=
| Ok (a : A)
| Raise (e : exn).
Arguments Ok {A} a.
Arguments Raise {A} e.

(** ** Python text *)

Module PyStr.

(** A [str]: its code points, in order. *)
Definition str : Type := list N.

(** [ord(c)] for a character of a literal. *)
Definition ord (c : ascii) : N := N_of_ascii c.

(** The [str] a literal of this development stands for. *)
Definition of_string (s : string) : str :=
  List.map N_of_ascii (list_ascii_of_string s).

(** [s == t] *)
Fixpoint eqb (s t : str) : bool :=
  match s, t with
  | [], [] => true
  | c :: s', d :: t' => N.eqb c d && eqb s' t'
  | _, _ => false
  end.

(** [str.split(sep)] for a one-character separator: one more field
    than there are separators, the empty text giving one empty
    field. *)
Fixpoint split (sep : N) (s : str) : list str :=
  match s with
  | [] => [[]]
  | c :: s' =>
      if N.eqb c sep then [] :: split sep s'
      else match split sep s' with
           | [] => [[c]]
           | f :: fs => (c :: f) :: fs
           end
  end.

(** The code points [str.isspace()] holds of, which [str.rstrip()]
    removes. *)
Definition whitespace : list N :=
  [9; 10; 11; 12; 13; 28; 29; 30; 31; 32;
   133; 160; 5760; 8192; 8193; 8194; 8195; 8196; 8197; 8198;
   8199; 8200; 8201; 8202; 8232; 8233; 8239; 8287; 12288]%N.

Definition isspace (c : N) : bool := existsb (N.eqb c) whitespace.

Fixpoint rstrip (s : str) : str :=
  match s with
  | [] => []
  | c :: s' =>
      match rstrip s' with
      | [] => if isspace c then [] else [c]
      | r => c :: r
      end
  end.

(** The decimal digits come in runs of ten, from the digit zero of a
    script to its digit nine: the code points of the 66 zeros. *)
Definition decimal_zeros : list N :=
  [48; 1632; 1776; 1984; 2406; 2534; 2662; 2790; 2918; 3046;
   3174; 3302; 3430; 3558; 3664; 3792; 3872; 4160; 4240; 6112;
   6160; 6470; 6608; 6784; 6800; 6992; 7088; 7232; 7248; 42528;
   43216; 43264; 43472; 43504; 43600; 44016; 65296; 66720; 68912; 69734;
   69872; 69942; 70096; 70384; 70736; 70864; 71248; 71360; 71472; 71904;
   72016; 72784; 73040; 73120; 92768; 92864; 93008; 120782; 120792; 120802;
   120812; 120822; 123200; 123632; 125264; 130032]%N.

(** [unicodedata.decimal(c)], when [c] is a decimal digit. *)
Definition digit_value (c : N) : option Z :=
  match List.find (fun z => (z <=? c) && (c <? z + 10))%N decimal_zeros with
  | Some z => Some (Z.of_N (c - z))
  | None => None
  end.

Definition is_digit (c : N) : bool :=
  match digit_value c with
  | Some _ => true
  | None => false
  end.

Fixpoint all_digits (s : str) : bool :=
  match s with
  | [] => true
  | c :: s' => is_digit c && all_digits s'
  end.

(** [str.isdecimal()]: at least one character, and only decimal
    digits. *)
Definition isdecimal (s : str) : bool :=
  match s with
  | [] => false
  | _ => all_digits s
  end.

Fixpoint int_acc (s : str) (acc : Z) : Z :=
  match s with
  | [] => acc
  | c :: s' =>
      int_acc s' (10 * acc + match digit_value c with
                             | Some d => d
                             | None => 0
                             end)
  end.

(** The number a text of decimal digits denotes. *)
Definition int_value (s : str) : Z := int_acc s 0.

(** [sys.get_int_max_str_digits()] *)
Definition int_max_str_digits : nat := 4300.

(** [int(s)] on a text of decimal digits, the only texts the module
    converts: [ValueError] when it has more digits than the
    interpreter accepts. *)
Definition int (s : str) : result Z :=
  if Nat.ltb int_max_str_digits (length s) then Raise ValueError
  else Ok (int_value s).

(** [s.count(c)] for one character. *)
Fixpoint count (c : N) (s : str) : Z :=
  match s with
  | [] => 0
  | c' :: s' => (if N.eqb c' c then 1 else 0) + count c s'
  end.

End PyStr.

Abbreviation str := PyStr.str.

Coercion PyStr.of_string : string >-> PyStr.str.

(** ** Python floats *)

Module PyFloat.

Definition prec : Z := 53.
Definition emax : Z := 1024.

Definition float : Type := spec_float.

Definition mul : float -> float -> float := SFmul prec emax.
Definition add : float -> float -> float := SFadd prec emax.
Definition div : float -> float -> float := SFdiv prec emax.
Definition ltb : float -> float -> bool := SFltb.
Definition leb : float -> float -> bool := SFleb.

(** The double nearest to an integer; an infinity when the integer is
    out of range. *)
Definition of_Z (n : Z) : float := binary_normalize prec emax n 0 false.

(** A literal such as [300.0]. *)
Definition lit (n : Z) : float := of_Z n.

Definition zero : float := S754_zero false.

End PyFloat.

Abbreviation float := PyFloat.float.

(** ** Doubles that are integers

    A natural number [n] below [2 ^ 53] is a double: its mantissa is
    [n] shifted to 53 binary digits. *)
Definition mant (n : Z) : positive := Z.to_pos (n * 2 ^ (53 - Zdigits2 n)).
Definition expo (n : Z) : Z := Zdigits2 n - 53.

(** The last step of [binary_round_aux]. *)
Definition round_finish (s : bool) (q e : Z) : spec_float :=
  let '(mrs, e') := shr_fexp PyFloat.prec PyFloat.emax q e loc_Exact in
  match shr_m mrs with
  | Z0 => S754_zero s
  | Zpos m =>
      if e' <=? PyFloat.emax - PyFloat.prec
      then S754_finite s m e' else S754_infinity s
  | _ => S754_nan
  end.

(** A finite double that does not exceed 100. *)
Definition at_most_100 (x : spec_float) : Prop :=
  exists m e, x = S754_finite false m e
              /\ (e < -46 \/ (e = -46 /\ Zpos m <= 100 * 2 ^ 46)).

(** ** Results and effects *)

(** [int * float], [float(int)]: the conversion of the integer operand. *)
Definition float_of_int (n : Z) : result float :=
  match PyFloat.of_Z n with
  | S754_infinity _ => Raise OverflowError
  | x => Ok x
  end.

(** ** Enumerations *)

Inductive Rank : Type := XH | SH | X | S_ | A | B | C | D | F | N.

Definition Rank_value (r : Rank) : Z :=
  match r with
  | XH => 0 | SH => 1 | X => 2 | S_ => 3 | A => 4
  | B => 5 | C => 6 | D => 7 | F => 8 | N => 9
  end.

(** [Rank.__str__]; the dictionary has no entry for [N]. *)
Definition Rank_str (r : Rank) : option string :=
  match r with
  | XH | SH => Some "SS"
  | X | S_ => Some "S"
  | A => Some "A"
  | B => Some "B"
  | C => Some "C"
  | D => Some "D"
  | F => Some "F"
  | N => None
  end.

Inductive SubmissionStatus : Type := FAILED | SUBMITTED | BEST.

Definition SubmissionStatus_value (st : SubmissionStatus) : Z :=
  match st with FAILED => 0 | SUBMITTED => 1 | BEST => 2 end.

(** [SubmissionStatus(n)]: [ValueError] outside 0, 1, 2. *)
Definition SubmissionStatus_of (n : Z) : result SubmissionStatus :=
  match n with
  | 0 => Ok FAILED
  | 1 => Ok SUBMITTED
  | 2 => Ok BEST
  | _ => Raise ValueError
  end.

Definition SubmissionStatus_repr (st : SubmissionStatus) : string :=
  match st with
  | FAILED => "Failed" | SUBMITTED => "Submitted" | BEST => "Best"
  end.

(** The [grade] slot holds [Rank.F] in a new object and a text after
    decoding or reconstruction. *)
Inductive Grade : Type :=
| GradeRank (r : Rank)
| GradeStr (s : str).

(** ** Collaborators' objects

    [objects.beatmap.Beatmap] and [objects.player.Player] are used
    through the attributes below only. *)

Record Beatmap : Type := { bmap_id : Z; bmap_md5 : str }.
Record Player : Type := { player_id : Z }.

(** ** What the module imports

    [constants.gamemodes.GameMode], [constants.mods.Mods],
    [constants.clientflags.ClientFlags], the cipher of [py3rijndael]
    and [base64] are used by the module and defined elsewhere; the
    embedding takes them as an interface.  [GameMode] is an [IntEnum]:
    its members are compared through their values.  The flags [Mods]
    and [ClientFlags] are kept as the integers they wrap.  The cipher
    is taken on the submissions it decodes: [cbc_decrypt] gives the
    plaintext of such a submission, and what [from_submission] does
    with a text that is not base64 or a plaintext that is not UTF-8,
    where the libraries raise before any line of the module's own
    runs, is not described. *)

Class Imports : Type := {
  GameMode : Type;
  GameMode_value : GameMode -> Z;
  vn_std : GameMode;
  rx_std : GameMode;
  (** [GameMode.from_params(mode_vn, mods)]; [None] when it raises. *)
  GameMode_from_params : Z -> Z -> option GameMode;
  (** [mode.sql_table] *)
  sql_table : GameMode -> string;
  (** [mode.as_vanilla] *)
  as_vanilla : GameMode -> Z;
  (** [Mods.NOMOD] and [ClientFlags.Clean] *)
  NOMOD : Z;
  Clean : Z;
  (** [base64.b64decode(x).decode('latin_1')] *)
  b64decode : str -> str;
  (** [RijndaelCbc(key, iv, ZeroPadding(32), 32).decrypt(data).decode()] *)
  cbc_decrypt : str -> str -> str -> str
}.

Section Score.

Context {I : Imports}.

(** ** The score object *)

Inductive Score : Type := mkScore {
  id : Z;
  bmap : option Beatmap;
  player : option Player;
  pp : float;
  score : Z;
  max_combo : Z;
  mods : Z;
  acc : float;
  n300 : Z;
  n100 : Z;
  n50 : Z;
  nmiss : Z;
  ngeki : Z;
  nkatu : Z;
  grade : Grade;
  rank : Z;
  passed : bool;
  perfect : bool;
  status : SubmissionStatus;
  mode : GameMode;
  play_time : Z;
  time_elapsed : Z;
  client_flags : Z;
  prev_best : option Score
}.

(** [Score.__init__] *)
Definition new_score : Score :=
  {| id := 0; bmap := None; player := None;
     pp := PyFloat.zero; score := 0; max_combo := 0; mods := NOMOD;
     acc := PyFloat.zero;
     n300 := 0; n100 := 0; n50 := 0; nmiss := 0; ngeki := 0; nkatu := 0;
     grade := GradeRank F;
     rank := 0; passed := false; perfect := false; status := FAILED;
     mode := vn_std; play_time := 0; time_elapsed := 0;
     client_flags := Clean; prev_best := None |}.

(** Attribute assignments. *)
Definition set_bmap (v : option Beatmap) (s : Score) : Score :=
  mkScore (id s) v (player s) (pp s) (score s) (max_combo s) (mods s)
    (acc s) (n300 s) (n100 s) (n50 s) (nmiss s) (ngeki s) (nkatu s)
    (grade s) (rank s) (passed s) (perfect s) (status s) (mode s)
    (play_time s) (time_elapsed s) (client_flags s) (prev_best s).

Definition set_player (v : option Player) (s : Score) : Score :=
  mkScore (id s) (bmap s) v (pp s) (score s) (max_combo s) (mods s)
    (acc s) (n300 s) (n100 s) (n50 s) (nmiss s) (ngeki s) (nkatu s)
    (grade s) (rank s) (passed s) (perfect s) (status s) (mode s)
    (play_time s) (time_elapsed s) (client_flags s) (prev_best s).

Definition set_pp (v : float) (s : Score) : Score :=
  mkScore (id s) (bmap s) (player s) v (score s) (max_combo s) (mods s)
    (acc s) (n300 s) (n100 s) (n50 s) (nmiss s) (ngeki s) (nkatu s)
    (grade s) (rank s) (passed s) (perfect s) (status s) (mode s)
    (play_time s) (time_elapsed s) (client_flags s) (prev_best s).

Definition set_acc (v : float) (s : Score) : Score :=
  mkScore (id s) (bmap s) (player s) (pp s) (score s) (max_combo s) (mods s)
    v (n300 s) (n100 s) (n50 s) (nmiss s) (ngeki s) (nkatu s)
    (grade s) (rank s) (passed s) (perfect s) (status s) (mode s)
    (play_time s) (time_elapsed s) (client_flags s) (prev_best s).

Definition set_rank (v : Z) (s : Score) : Score :=
  mkScore (id s) (bmap s) (player s) (pp s) (score s) (max_combo s) (mods s)
    (acc s) (n300 s) (n100 s) (n50 s) (nmiss s) (ngeki s) (nkatu s)
    (grade s) v (passed s) (perfect s) (status s) (mode s)
    (play_time s) (time_elapsed s) (client_flags s) (prev_best s).

Definition set_status (v : SubmissionStatus) (s : Score) : Score :=
  mkScore (id s) (bmap s) (player s) (pp s) (score s) (max_combo s) (mods s)
    (acc s) (n300 s) (n100 s) (n50 s) (nmiss s) (ngeki s) (nkatu s)
    (grade s) (rank s) (passed s) (perfect s) v (mode s)
    (play_time s) (time_elapsed s) (client_flags s) (prev_best s).

Definition set_prev_best (v : option Score) (s : Score) : Score :=
  mkScore (id s) (bmap s) (player s) (pp s) (score s) (max_combo s) (mods s)
    (acc s) (n300 s) (n100 s) (n50 s) (nmiss s) (ngeki s) (nkatu s)
    (grade s) (rank s) (passed s) (perfect s) (status s) (mode s)
    (play_time s) (time_elapsed s) (client_flags s) v.

(** ** The store *)

(** The columns [from_sql] selects, but [id], which is the key. *)
Record Row : Type := {
  row_map_md5 : str;
  row_userid : Z;
  row_pp : float;
  row_score : Z;
  row_max_combo : Z;
  row_mods : Z;
  row_acc : float;
  row_n300 : Z;
  row_n100 : Z;
  row_n50 : Z;
  row_nmiss : Z;
  row_ngeki : Z;
  row_nkatu : Z;
  row_grade : str;
  row_perfect : bool;
  row_status : Z;
  row_mode : Z;
  row_play_time : Z;
  row_time_elapsed : Z;
  row_client_flags : Z
}.

Abbreviation Table := (gmap Z Row).

(** The column a leaderboard is ordered by, and the value it is
    compared with. *)
Inductive Scoring : Type :=
| ByPP (value : float)     (* [scoring = 'pp'], [score = self.pp] *)
| ByScore (value : Z).     (* [scoring = 'score'], [score = self.score] *)

Inductive Query : Type :=
| SelectScore (scoreid : Z)
| SelectBest (userid : Z) (map_md5 : str) (mode_vn : Z)
| CountBetter (map_md5 : str) (mode_vn : Z) (scoring : Scoring).

(** [WHERE userid = %s AND map_md5 = %s AND mode = %s AND status = 2] *)
Definition is_best_of (userid : Z) (map_md5 : str) (mode_vn : Z)
    (r : Row) : bool :=
  Z.eqb (row_userid r) userid && PyStr.eqb (row_map_md5 r) map_md5
  && Z.eqb (row_mode r) mode_vn && Z.eqb (row_status r) 2.

(** [{s} > %s] *)
Definition exceeds (sc : Scoring) (r : Row) : bool :=
  match sc with
  | ByPP v => PyFloat.ltb v (row_pp r)
  | ByScore v => Z.ltb v (row_score r)
  end.

(** [WHERE map_md5 = %s AND mode = %s AND status = 2 AND {s} > %s] *)
Definition is_better_on (map_md5 : str) (mode_vn : Z) (sc : Scoring)
    (r : Row) : bool :=
  PyStr.eqb (row_map_md5 r) map_md5 && Z.eqb (row_mode r) mode_vn
  && Z.eqb (row_status r) 2 && exceeds sc r.

(** The first row a [SELECT] yields, in the order the table lists its
    rows. *)
Definition select_first (P : Row -> bool) (t : Table) : option (Z * Row) :=
  List.find (fun kr => P (snd kr)) (map_to_list t).

(** [SELECT COUNT( * )] *)
Definition select_count (P : Row -> bool) (t : Table) : Z :=
  Z.of_nat (length (List.filter (fun kr => P (snd kr)) (map_to_list t))).

(** ** The world and the monad of [async] methods *)

(** The parameters [calc_diff] hands to the performance engine. *)
Record PPParams : Type := {
  pp_mods : Z; pp_combo : Z; pp_nmiss : Z; pp_mode : Z; pp_acc : float
}.

Inductive event : Type :=
| EvLog (msg : string)                        (* [plog] *)
| EvFetch (table : string) (q : Query)        (* [glob.db.fetch] *)
| EvMapFromMd5 (md5 : str)                    (* [Beatmap.from_md5] *)
| EvGetLogin (name phash : str)               (* [glob.players.get_login] *)
| EvGetById (userid : Z)                      (* [glob.players.get_by_id] *)
| EvOwoppai (map_id : Z) (params : PPParams)  (* [Owoppai] *)
| EvTime.                                     (* [time.time] *)

Record World : Type := {
  db : string -> Table;
  beatmaps : str -> option Beatmap;
  logins : str -> str -> option Player;
  players : Z -> option Player;
  (** the engine's [(pp, stars)], or its failure *)
  engine : Z -> PPParams -> option (float * float);
  now : Z
}.

Definition M (A : Type) : Type := World -> list event * result A.

Definition ret {A} (a : A) : M A := fun _ => ([], Ok a).

Definition bind {A B} (m : M A) (k : A -> M B) : M B :=
  fun w =>
    match m w with
    | (t1, Ok a) => let (t2, r) := k a w in (t1 ++ t2, r)
    | (t1, Raise e) => (t1, Raise e)
    end.

Definition raise {A} (e : exn) : M A := fun _ => ([], Raise e).

Definition lift {A} (r : result A) : M A := fun _ => ([], r).

Definition ask {A} (ev : event) (f : World -> A) : M A :=
  fun w => ([ev], Ok (f w)).

(** [obj.attr] where [obj] may be [None]. *)
Definition attr {A B} (o : option A) (f : A -> B) : M B :=
  match o with
  | Some a => ret (f a)
  | None => raise AttributeError
  end.

End Score.

Notation "'let*' x ':=' m 'in' k" := (bind m (fun x => k))
  (at level 10, x pattern, m at level 100, k at level 200).

(** [let+]: sequencing of computations that may raise and do nothing
    else. *)
Definition rbind {A B} (r : result A) (k : A -> result B) : result B :=
  match r with
  | Ok a => k a
  | Raise e => Raise e
  end.

Notation "'let+' x ':=' r 'in' k" := (rbind r (fun x => k))
  (at level 10, x pattern, r at level 100, k at level 200).

(** ** The methods *)

Section Methods.

Context {I : Imports}.

(** *** Calls to the collaborators *)

Definition plog (msg : string) : M unit := ask (EvLog msg) (fun _ => tt).

Definition Beatmap_from_md5 (md5 : str) : M (option Beatmap) :=
  ask (EvMapFromMd5 md5) (fun w => beatmaps w md5).

Definition get_login (name phash : str) : M (option Player) :=
  ask (EvGetLogin name phash) (fun w => logins w name phash).

Definition get_by_id (userid : Z) : M (option Player) :=
  ask (EvGetById userid) (fun w => players w userid).

Definition time : M Z := ask EvTime now.

(** [SELECT id, map_md5, ... FROM {sql_table} WHERE id = %s] *)
Definition fetch_score (table : string) (scoreid : Z) : M (option Row) :=
  ask (EvFetch table (SelectScore scoreid)) (fun w => db w table !! scoreid).

(** [SELECT id, pp FROM {table} WHERE userid = %s AND map_md5 = %s
    AND mode = %s AND status = 2] *)
Definition fetch_best (table : string) (userid : Z) (map_md5 : str)
    (mode_vn : Z) : M (option (Z * float)) :=
  ask (EvFetch table (SelectBest userid map_md5 mode_vn))
      (fun w =>
         match select_first (is_best_of userid map_md5 mode_vn) (db w table) with
         | Some (k, r) => Some (k, row_pp r)
         | None => None
         end).

(** [SELECT COUNT( * ) AS c FROM {t} WHERE map_md5 = %s AND mode = %s
    AND status = 2 AND {s} > %s]: always one row, holding the count. *)
Definition fetch_count (table : string) (map_md5 : str) (mode_vn : Z)
    (sc : Scoring) : M (option Z) :=
  ask (EvFetch table (CountBetter map_md5 mode_vn sc))
      (fun w => Some (select_count (is_better_on map_md5 mode_vn sc) (db w table))).

Definition owoppai (map_id : Z) (params : PPParams) : M (float * float) :=
  fun w =>
    ([EvOwoppai map_id params],
     match engine w map_id params with
     | Some r => Ok r
     | None => Raise EngineError
     end).

Definition from_params (mode_vn mods : Z) : M GameMode :=
  match GameMode_from_params mode_vn mods with
  | Some m => ret m
  | None => raise ValueError
  end.

(** *** [Score.calc_lb_placement] *)

Definition lb_scoring (s : Score) : Scoring :=
  if GameMode_value (mode s) <=? GameMode_value rx_std
  then ByPP (pp s)
  else ByScore (score s).

Definition calc_lb_placement (s : Score) : M Z :=
  let table := sql_table (mode s) in
  let sc := lb_scoring s in
  let* md5 := attr (bmap s) bmap_md5 in
  let* res := fetch_count table md5 (as_vanilla (mode s)) sc in
  ret (match res with Some c => c + 1 | None => 1 end).

(** *** [Score.from_sql] *)

Definition from_sql (scoreid : Z) (table : string) : M (option Score) :=
  let* res := fetch_score table scoreid in
  match res with
  | None => ret None
  | Some r =>
      let* bm := Beatmap_from_md5 (row_map_md5 r) in
      let* pl := get_by_id (row_userid r) in
      let passed_ := negb (row_status r =? 0) in
      let* st := lift (SubmissionStatus_of (row_status r)) in
      let* md := from_params (row_mode r) (row_mods r) in
      let s :=
        {| id := scoreid; bmap := bm; player := pl;
           pp := row_pp r; score := row_score r;
           max_combo := row_max_combo r; mods := row_mods r;
           acc := row_acc r;
           n300 := row_n300 r; n100 := row_n100 r; n50 := row_n50 r;
           nmiss := row_nmiss r; ngeki := row_ngeki r; nkatu := row_nkatu r;
           grade := GradeStr (row_grade r);
           rank := 0; passed := passed_; perfect := row_perfect r;
           status := st; mode := md;
           play_time := row_play_time r;
           time_elapsed := row_time_elapsed r;
           client_flags := row_client_flags r; prev_best := None |} in
      match bm with
      | Some _ =>
          let* rk := calc_lb_placement s in
          ret (Some (set_rank rk s))
      | None => ret (Some s)
      end
  end.

(** *** [Score.calc_diff] *)

Definition calc_diff (s : Score) : M (float * float) :=
  let mode_vn := as_vanilla (mode s) in
  if negb ((mode_vn =? 0) || (mode_vn =? 1)) then
    ret (PyFloat.zero, PyFloat.zero)
  else
    let pp_params :=
      {| pp_mods := mods s; pp_combo := max_combo s; pp_nmiss := nmiss s;
         pp_mode := mode_vn; pp_acc := acc s |} in
    let* map_id := attr (bmap s) bmap_id in
    owoppai map_id pp_params.

(** *** [Score.calc_status] *)

Definition calc_status (s : Score) : M Score :=
  if negb (passed s) then ret (set_status FAILED s)
  else
    let table := sql_table (mode s) in
    let* userid := attr (player s) player_id in
    let* md5 := attr (bmap s) bmap_md5 in
    let* res := fetch_best table userid md5 (as_vanilla (mode s)) in
    match res with
    | Some (res_id, res_pp) =>
        let* pb := from_sql res_id table in
        let s := set_prev_best pb s in
        if PyFloat.ltb res_pp (pp s) then
          let s := set_status BEST s in
          match pb with
          | Some p => ret (set_prev_best (Some (set_status SUBMITTED p)) s)
          | None => raise AttributeError
          end
        else ret (set_status SUBMITTED s)
    | None => ret (set_status BEST s)
    end.

(** *** [Score.calc_accuracy] *)

(** [n * x] for an [int] [n] and a [float] [x]. *)
Definition int_mul_float (n : Z) (x : float) : result float :=
  let+ y := float_of_int n in Ok (PyFloat.mul y x).

(** [sum(xs)] for a tuple of floats: the additions start from the
    integer [0]. *)
Definition sum_floats (xs : list float) : float :=
  fold_left PyFloat.add xs (PyFloat.of_Z 0).

Definition calc_accuracy (s : Score) : result Score :=
  let mode_vn := as_vanilla (mode s) in
  if mode_vn =? 0 then
    let total := n300 s + n100 s + n50 s + nmiss s in
    if total =? 0 then Ok (set_acc PyFloat.zero s)
    else
      let+ a := int_mul_float (n50 s) (PyFloat.lit 50) in
      let+ b := int_mul_float (n100 s) (PyFloat.lit 100) in
      let+ c := int_mul_float (n300 s) (PyFloat.lit 300) in
      let+ t := int_mul_float total (PyFloat.lit 300) in
      Ok (set_acc
            (PyFloat.div (PyFloat.mul (PyFloat.lit 100) (sum_floats [a; b; c])) t)
            s)
  else if mode_vn =? 1 then
    let total := n300 s + n100 s + nmiss s in
    if total =? 0 then Ok (set_acc PyFloat.zero s)
    else
      let+ a := int_mul_float (n100 s) (PyFloat.lit 150) in
      let+ b := int_mul_float (n300 s) (PyFloat.lit 300) in
      let+ t := int_mul_float total (PyFloat.lit 300) in
      Ok (set_acc
            (PyFloat.div (PyFloat.mul (PyFloat.lit 100) (sum_floats [a; b])) t)
            s)
  else if mode_vn =? 2 then Ok s   (* [NotImplemented], an expression *)
  else if mode_vn =? 3 then Ok s   (* [NotImplemented], an expression *)
  else Ok s.

(** *** [Score.from_submission] *)

(** The fields [data[3:11] + [data[13], data[15]]]. *)
Definition int_fields (data : list str) : list str :=
  (firstn 8 (skipn 3 data) ++ [nth 13 data ""; nth 15 data ""])%list.

(** The decrypted plaintext, split at the colons. *)
Definition submission_fields (data_enc iv osu_ver : str) : list str :=
  let key := PyStr.of_string "osu!-scoreburgr---------" ++ osu_ver in
  PyStr.split (PyStr.ord ":") (cbc_decrypt key (b64decode iv) (b64decode data_enc)).

(** [(int(i) for i in fields)], consumed from left to right. *)
Fixpoint ints (fields : list str) : result (list Z) :=
  match fields with
  | [] => Ok []
  | f :: fs =>
      let+ n := PyStr.int f in
      let+ ns := ints fs in
      Ok (n :: ns)
  end.

Definition from_submission (data_enc iv osu_ver phash : str)
    : M (option Score) :=
  let data := submission_fields data_enc iv osu_ver in
  if negb (Nat.eqb (length data) 18) then
    let* _ := plog "Received an invalid score submission." in
    ret None
  else
    let s := new_score in
    let map_md5 := nth 0 data "" in
    if negb (Nat.eqb (length map_md5) 32) then ret None
    else
      let pname := PyStr.rstrip (nth 1 data "") in
      let* bm := Beatmap_from_md5 map_md5 in
      let s := set_bmap bm s in
      let* pl := get_login pname phash in
      let s := set_player pl s in
      match pl with
      | None => ret (Some s)
      | Some _ =>
          if negb (forallb PyStr.isdecimal (int_fields data)) then
            let* _ := plog "Invalid parameter passed into submit-modular." in
            ret None
          else
            let* counts := lift (ints (firstn 8 (skipn 3 data))) in
            let perfect_ := PyStr.eqb (nth 11 data "") "1" in
            let _grade := nth 12 data "" in
            let* mods_ := lift (PyStr.int (nth 13 data "")) in
            let passed_ := PyStr.eqb (nth 14 data "") "True" in
            let* mode_vn := lift (PyStr.int (nth 15 data "")) in
            let* mode_ := from_params mode_vn mods_ in
            let* now_ := time in
            let s :=
              {| id := id s; bmap := bmap s; player := player s;
                 pp := pp s;
                 score := nth 6 counts 0;
                 max_combo := nth 7 counts 0;
                 mods := mods_;
                 acc := acc s;
                 n300 := nth 0 counts 0;
                 n100 := nth 1 counts 0;
                 n50 := nth 2 counts 0;
                 nmiss := nth 5 counts 0;
                 ngeki := nth 3 counts 0;
                 nkatu := nth 4 counts 0;
                 grade := GradeStr (if passed_ then _grade else "F");
                 rank := rank s; passed := passed_; perfect := perfect_;
                 status := status s; mode := mode_;
                 play_time := now_; time_elapsed := time_elapsed s;
                 client_flags := PyStr.count (PyStr.ord " ") (nth 17 data "");
                 prev_best := prev_best s |} in
            let* s := lift (calc_accuracy s) in
            match bmap s with
            | Some _ =>
                let* d := calc_diff s in
                let s := set_pp (fst d) s in
                let* s := calc_status s in
                let* rk := calc_lb_placement s in
                ret (Some (set_rank rk s))
            | None =>
                let s := set_pp PyFloat.zero s in
                ret (Some (set_status (if passed s then SUBMITTED else FAILED) s))
            end
      end.

(** ** The notions of the specification *)

(** The positions of the fields that are cast to integers. *)
Definition int_positions : list nat :=
  [3; 4; 5; 6; 7; 8; 9; 10; 13; 15]%nat.

(** A structurally valid plaintext: 18 fields, a checksum of 32
    characters, decimal digits where integers are expected. *)
Definition structurally_valid (data : list str) : Prop :=
  length data = 18%nat
  /\ length (nth 0 data "") = 32%nat
  /\ forall i, In i int_positions -> PyStr.isdecimal (nth i data "") = true.

(** The accuracy formulas, in the words of the specification:
    [100 x (50 n50 + 100 n100 + 300 n300) / (300 x total)] and
    [100 x (150 n100 + 300 n300) / (300 x total)], evaluated on
    doubles, and 0 when no note was judged. *)
Definition accuracy_std (n300_ n100_ n50_ nmiss_ : Z) : result float :=
  let total := n300_ + n100_ + n50_ + nmiss_ in
  if total =? 0 then Ok PyFloat.zero
  else
    let+ f50 := float_of_int n50_ in
    let+ f100 := float_of_int n100_ in
    let+ f300 := float_of_int n300_ in
    let+ ft := float_of_int total in
    Ok (PyFloat.div
          (PyFloat.mul (PyFloat.lit 100)
             (PyFloat.add
                (PyFloat.add (PyFloat.mul (PyFloat.lit 50) f50)
                             (PyFloat.mul (PyFloat.lit 100) f100))
                (PyFloat.mul (PyFloat.lit 300) f300)))
          (PyFloat.mul (PyFloat.lit 300) ft)).

Definition accuracy_taiko (n300_ n100_ nmiss_ : Z) : result float :=
  let total := n300_ + n100_ + nmiss_ in
  if total =? 0 then Ok PyFloat.zero
  else
    let+ f100 := float_of_int n100_ in
    let+ f300 := float_of_int n300_ in
    let+ ft := float_of_int total in
    Ok (PyFloat.div
          (PyFloat.mul (PyFloat.lit 100)
             (PyFloat.add (PyFloat.mul (PyFloat.lit 150) f100)
                          (PyFloat.mul (PyFloat.lit 300) f300)))
          (PyFloat.mul (PyFloat.lit 300) ft)).

(** The total of judged notes of the mode of a score. *)
Definition judged_total (s : Score) : Z :=
  if as_vanilla (mode s) =? 0
  then n300 s + n100 s + n50 s + nmiss s
  else n300 s + n100 s + nmiss s.

(** An accuracy within [[0.0, 100.0]]. *)
Definition is_percentage (x : float) : Prop :=
  PyFloat.leb PyFloat.zero x = true /\ PyFloat.leb x (PyFloat.lit 100) = true.

(** The ranking metric of a mode: the performance value up to
    [GameMode.rx_std], the raw score above. *)
Definition ranked_by_pp (m : GameMode) : Prop :=
  GameMode_value m <= GameMode_value rx_std.

(** The ranking metric of a row strictly exceeds that of a score. *)
Definition metric_exceeds (s : Score) (r : Row) : bool :=
  if GameMode_value (mode s) <=? GameMode_value rx_std
  then PyFloat.ltb (pp s) (row_pp r)
  else score s <? row_score r.

(** The rows that outrank a score on the leaderboard of a beatmap:
    [BEST] rows of the same beatmap and canonical mode whose metric
    strictly exceeds that of the score. *)
Definition outranks (s : Score) (b : Beatmap) (r : Row) : bool :=
  PyStr.eqb (row_map_md5 r) (bmap_md5 b)
  && (row_mode r =? as_vanilla (mode s))
  && (row_status r =? SubmissionStatus_value BEST)
  && metric_exceeds s r.

(** The invariant of the data model: a play that did not pass is
    [FAILED]. *)
Definition unpassed_failed (s : Score) : Prop :=
  passed s = false -> status s = FAILED.

(** A score object whose attributes are the columns of a row, with
    [passed] derived from the status and the rank recomputed. *)
Definition reconstructs (scoreid : Z) (r : Row) (w : World) (s : Score)
    : Prop :=
  id s = scoreid
  /\ bmap s = beatmaps w (row_map_md5 r)
  /\ player s = players w (row_userid r)
  /\ pp s = row_pp r /\ score s = row_score r
  /\ max_combo s = row_max_combo r /\ mods s = row_mods r
  /\ acc s = row_acc r
  /\ n300 s = row_n300 r /\ n100 s = row_n100 r /\ n50 s = row_n50 r
  /\ nmiss s = row_nmiss r /\ ngeki s = row_ngeki r
  /\ nkatu s = row_nkatu r
  /\ grade s = GradeStr (row_grade r) /\ perfect s = row_perfect r
  /\ SubmissionStatus_value (status s) = row_status r
  /\ GameMode_from_params (row_mode r) (row_mods r) = Some (mode s)
  /\ play_time s = row_play_time r
  /\ time_elapsed s = row_time_elapsed r
  /\ client_flags s = row_client_flags r
  /\ passed s = negb (row_status r =? 0)
  /\ rank s = match bmap s with
              | Some b => 1 + select_count (outranks s b) (db w (sql_table (mode s)))
              | None => 0
              end
  /\ prev_best s = None.

End Methods.

(** ** A concrete world for the examples *)

Module Demo.

(** Modelled from the spec: [constants.gamemodes.GameMode] is not
    among the sources.  The spec has four rulesets (default,
    alternate-timing, catch-style, simultaneous-lane; vanilla
    identifiers 0 to 3), a relax variant under an identifier of its
    own, leaderboards and tables shared through the canonical
    identifier, and the performance value as ranking metric of the
    default ruleset and of one assisted family. *)
Inductive ruleset : Type :=
| VnStd | RxStd | VnTaiko | RxTaiko | VnCatch | RxCatch | VnMania.

Definition mode_value (m : ruleset) : Z :=
  match m with
  | VnStd => 0 | RxStd => 1 | VnTaiko => 2 | RxTaiko => 3
  | VnCatch => 4 | RxCatch => 5 | VnMania => 6
  end.

Definition mode_vanilla (m : ruleset) : Z :=
  match m with
  | VnStd | RxStd => 0
  | VnTaiko | RxTaiko => 1
  | VnCatch | RxCatch => 2
  | VnMania => 3
  end.

Definition mode_table (m : ruleset) : string :=
  match m with
  | VnStd | VnTaiko | VnCatch | VnMania => "scores_vn"
  | RxStd | RxTaiko | RxCatch => "scores_rx"
  end.

(** The relax modifier is bit 7 of the modifier flags. *)
Definition mode_of_params (mode_vn mods : Z) : option ruleset :=
  match mode_vn, Z.testbit mods 7 with
  | 0, false => Some VnStd
  | 0, true => Some RxStd
  | 1, false => Some VnTaiko
  | 1, true => Some RxTaiko
  | 2, false => Some VnCatch
  | 2, true => Some RxCatch
  | 3, false => Some VnMania
  | _, _ => None
  end.

(** The examples submit the plaintext itself: the cipher and the
    base64 decoding are the identity. *)
#[export] Instance imports : Imports :=
  {| GameMode := ruleset;
     GameMode_value := mode_value;
     vn_std := VnStd;
     rx_std := RxStd;
     GameMode_from_params := mode_of_params;
     sql_table := mode_table;
     as_vanilla := mode_vanilla;
     NOMOD := 0;
     Clean := 0;
     b64decode := fun x => x;
     cbc_decrypt := fun _ _ data => data |}.

Definition md5_a : str := "0123456789abcdef0123456789abcdef".

Definition map_a : Beatmap := {| bmap_id := 75; bmap_md5 := md5_a |}.

Definition alice : Player := {| player_id := 3 |}.

Definition row (userid pp_ score_ status_ : Z) : Row :=
  {| row_map_md5 := md5_a; row_userid := userid;
     row_pp := PyFloat.lit pp_; row_score := score_;
     row_max_combo := 100; row_mods := 0; row_acc := PyFloat.lit 99;
     row_n300 := 99; row_n100 := 1; row_n50 := 0; row_nmiss := 0;
     row_ngeki := 0; row_nkatu := 0; row_grade := "A";
     row_perfect := false; row_status := status_; row_mode := 0;
     row_play_time := 1600000000; row_time_elapsed := 90000;
     row_client_flags := 0 |}.

(** [scores_vn]: the best score of alice, worth 200pp, an older
    submitted one, and the best score of another player. *)
Definition scores_vn : gmap Z Row :=
  <[ 11 := row 3 200 500000 2 ]>
    (<[ 10 := row 3 150 400000 1 ]>
       (<[ 12 := row 4 250 600000 2 ]> ∅)).

Definition world : World :=
  {| db := fun t => if String.eqb t "scores_vn" then scores_vn else ∅;
     beatmaps := fun md5 => if PyStr.eqb md5 md5_a then Some map_a else None;
     logins := fun name _ => if PyStr.eqb name "alice" then Some alice else None;
     players := fun uid => if uid =? 3 then Some alice else None;
     engine := fun _ p => Some (PyFloat.lit (2 * pp_combo p), PyFloat.lit 5);
     now := 1600000100 |}.

(** A score object of alice on [map_a], as the pipeline holds it
    before its status is resolved. *)
Definition play (m : ruleset) (pp_ : Z) (passed_ : bool) : Score :=
  {| id := 0; bmap := Some map_a; player := Some alice;
     pp := PyFloat.lit pp_; score := 700000; max_combo := 300; mods := 0;
     acc := PyFloat.lit 100;
     n300 := 300; n100 := 0; n50 := 0; nmiss := 0; ngeki := 0; nkatu := 0;
     grade := GradeStr "X";
     rank := 0; passed := passed_; perfect := true; status := FAILED;
     mode := m; play_time := 1600000100; time_elapsed := 0;
     client_flags := 0; prev_best := None |}.

(** The same object with given hit counts. *)
Definition tally (m : ruleset) (n300_ n100_ n50_ nmiss_ : Z) : Score :=
  {| id := 0; bmap := Some map_a; player := Some alice;
     pp := PyFloat.zero; score := 700000; max_combo := 300; mods := 0;
     acc := PyFloat.zero;
     n300 := n300_; n100 := n100_; n50 := n50_; nmiss := nmiss_;
     ngeki := 0; nkatu := 0;
     grade := GradeStr "X";
     rank := 0; passed := true; perfect := false; status := FAILED;
     mode := m; play_time := 1600000100; time_elapsed := 0;
     client_flags := 0; prev_best := None |}.

(** Plaintexts: a well-formed one of alice, one of a player who is
    not logged in, the same with letters where [n300] is expected,
    one with 17 fields, one with a short checksum, and the last with
    letters where [n300] is expected. *)
Definition sub_ok : str :=
  "0123456789abcdef0123456789abcdef:alice  :chk:300:0:0:0:0:0:1000000:300:1:X:0:True:0:x:20200901 ".
Definition sub_stranger : str :=
  "0123456789abcdef0123456789abcdef:bob:chk:300:0:0:0:0:0:1000000:300:1:X:0:True:0:x:20200901".
Definition sub_stranger_letters : str :=
  "0123456789abcdef0123456789abcdef:bob:chk:abc:0:0:0:0:0:1000000:300:1:X:0:True:0:x:20200901".
Definition sub_letters : str :=
  "0123456789abcdef0123456789abcdef:alice:chk:abc:0:0:0:0:0:1000000:300:1:X:0:True:0:x:20200901".
Definition sub_17 : str :=
  "0123456789abcdef0123456789abcdef:alice:chk:300:0:0:0:0:0:1000000:300:1:X:0:True:0:x".
Definition sub_short_md5 : str :=
  "0123:alice:chk:300:0:0:0:0:0:1000000:300:1:X:0:True:0:x:20200901".
Definition sub_short_md5_letters : str :=
  "0123:alice:chk:abc:0:0:0:0:0:1000000:300:1:X:0:True:0:x:20200901".

End Demo.

(** * Further notions

    The notions the further properties are stated with. *)

(** ** The order of doubles *)

(** A key whose lexicographic order is the order [SFcompare] decides;
    a NaN has none. *)
Definition order_key (x : spec_float) : option (Z * Z * Z) :=
  match x with
  | S754_nan => None
  | S754_infinity true => Some (-2, 0, 0)
  | S754_infinity false => Some (2, 0, 0)
  | S754_zero _ => Some (0, 0, 0)
  | S754_finite false m e => Some (1, e, Zpos m)
  | S754_finite true m e => Some (-1, - e, - Zpos m)
  end.

Definition lex_lt (a b : Z * Z * Z) : Prop :=
  let '(a1, a2, a3) := a in
  let '(b1, b2, b3) := b in
  a1 < b1 \/ (a1 = b1 /\ (a2 < b2 \/ (a2 = b2 /\ a3 < b3))).

Definition key_lt (x y : spec_float) : Prop :=
  match order_key x, order_key y with
  | Some a, Some b => lex_lt a b
  | _, _ => False
  end.

Definition key_le (x y : spec_float) : Prop :=
  match order_key x, order_key y with
  | Some a, Some b => lex_lt a b \/ a = b
  | _, _ => False
  end.

(** ** Text made of white space *)

(** Every character is one [str.rstrip()] removes. *)
Fixpoint all_space (s : str) : bool :=
  match s with
  | [] => true
  | c :: s' => PyStr.isspace c && all_space s'
  end.

(** ** The steps of the methods *)

Section Steps.

Context {I : Imports}.

(** The calls that only look something up: queries to the store and
    to the registries of beatmaps and players by id. *)
Definition is_lookup (e : event) : bool :=
  match e with
  | EvFetch _ _ | EvMapFromMd5 _ | EvGetById _ => true
  | _ => false
  end.

(** The parameters [calc_diff] builds for the engine. *)
Definition pp_params_of (s : Score) : PPParams :=
  {| pp_mods := mods s; pp_combo := max_combo s; pp_nmiss := nmiss s;
     pp_mode := as_vanilla (mode s); pp_acc := acc s |}.

(** The object [from_submission] holds once every field is read
    (lines 276 to 287), for the beatmap and the player it resolved,
    the mode [GameMode.from_params] gave and the time of the clock. *)
Definition decoded (data : list str) (bm : option Beatmap)
    (pl : option Player) (m : GameMode) (now_ : Z) : Score :=
  let passed_ := PyStr.eqb (nth 14 data "") "True" in
  {| id := 0; bmap := bm; player := pl;
     pp := PyFloat.zero;
     score := PyStr.int_value (nth 9 data "");
     max_combo := PyStr.int_value (nth 10 data "");
     mods := PyStr.int_value (nth 13 data "");
     acc := PyFloat.zero;
     n300 := PyStr.int_value (nth 3 data "");
     n100 := PyStr.int_value (nth 4 data "");
     n50 := PyStr.int_value (nth 5 data "");
     nmiss := PyStr.int_value (nth 8 data "");
     ngeki := PyStr.int_value (nth 6 data "");
     nkatu := PyStr.int_value (nth 7 data "");
     grade := GradeStr (if passed_ then nth 12 data "" else "F");
     rank := 0; passed := passed_;
     perfect := PyStr.eqb (nth 11 data "") "1";
     status := FAILED; mode := m;
     play_time := now_; time_elapsed := 0;
     client_flags := PyStr.count (PyStr.ord " ") (nth 17 data "");
     prev_best := None |}.

(** The integer fields are texts [int] accepts: none has more digits
    than the interpreter converts. *)
Definition fields_convert (data : list str) : bool :=
  forallb (fun f => Nat.leb (length f) PyStr.int_max_str_digits)
    (int_fields data).

(** The end of [from_submission] (lines 289 to 304): what is computed
    from the decoded object. *)
Definition finish_submission (s : Score) : M (option Score) :=
  let* s := lift (calc_accuracy s) in
  match bmap s with
  | Some _ =>
      let* d := calc_diff s in
      let s := set_pp (fst d) s in
      let* s := calc_status s in
      let* rk := calc_lb_placement s in
      ret (Some (set_rank rk s))
  | None =>
      let s := set_pp PyFloat.zero s in
      ret (Some (set_status (if passed s then SUBMITTED else FAILED) s))
  end.

(** The calls that reach the store, the registry of all players or
    the performance engine. *)
Definition is_backend (e : event) : bool :=
  match e with
  | EvFetch _ _ | EvGetById _ | EvOwoppai _ _ => true
  | _ => false
  end.

(** The weighted hits of the mode of a score: the numerator of its
    accuracy, before the factor 100. *)
Definition weighted_hits (s : Score) : Z :=
  if as_vanilla (mode s) =? 0
  then 50 * n50 s + 100 * n100 s + 300 * n300 s
  else 150 * n100 s + 300 * n300 s.

(** A call to [glob.players.get_login]. *)
Definition is_login (e : event) : bool :=
  match e with
  | EvGetLogin _ _ => true
  | _ => false
  end.

End Steps.

(** ** Further inputs for the examples *)

Module Cases.

Import Demo.

(** [n] digits zero. *)
Definition zeros (n : nat) : str := repeat (PyStr.ord "0") n.

(** A failed play of alice on a beatmap the registry does not know. *)
Definition sub_unknown : str :=
  "ffffffffffffffffffffffffffffffff:alice:chk:10:20:5:0:0:65:40000:30:0:C:0:False:0:x:20200901".

(** A play of alice that claims [2 * 10 ^ 308] hits of 300. *)
Definition sub_huge : str :=
  PyStr.of_string "0123456789abcdef0123456789abcdef:alice:chk:2"
  ++ zeros 308
  ++ PyStr.of_string ":0:0:0:0:0:1000000:300:1:X:0:True:0:x:20200901".

(** A play of alice whose count of 300s is the Arabic-Indic digit
    three, U+0663. *)
Definition sub_arabic : str :=
  PyStr.of_string "0123456789abcdef0123456789abcdef:alice:chk:"
  ++ [1635%N]
  ++ PyStr.of_string ":0:0:0:0:0:1000000:300:1:X:0:True:0:x:20200901".

(** A play of alice whose count of 300s is written with 4301
    digits. *)
Definition sub_long : str :=
  PyStr.of_string "0123456789abcdef0123456789abcdef:alice:chk:1"
  ++ zeros 4300
  ++ PyStr.of_string ":0:0:0:0:0:1000000:300:1:X:0:True:0:x:20200901".

(** The world of [Demo] with a table whose one row has a status that
    is no [SubmissionStatus]. *)
Definition world_bad : World :=
  {| db := fun _ => <[ 20 := row 3 100 1000 7 ]> ∅;
     beatmaps := beatmaps world;
     logins := logins world;
     players := players world;
     engine := engine world;
     now := now world |}.

End Cases.

(** * Properties *)

(** ** Equality of texts *)

Lemma str_eqb_eq (s t : str) : PyStr.eqb s t = true <-> s = t.
Proof.
  revert t. induction s as [|c s IH]; intros [|d t]; simpl;
    try (split; [discriminate|discriminate]); [tauto|].
  rewrite andb_true_iff, N.eqb_eq, IH. split.
  - intros [-> ->]. reflexivity.
  - intros H. inversion H. auto.
Qed.


(** ** Arithmetic of doubles on integers *)

(** *** Binary digits *)
Lemma digits2_pos_bounds (m : positive) :
  2 ^ (Zpos (digits2_pos m) - 1) <= Zpos m < 2 ^ Zpos (digits2_pos m).
Proof.
  induction m as [p IH|p IH|]; simpl digits2_pos.
  - rewrite Pos2Z.inj_succ.
    replace (Z.succ (Zpos (digits2_pos p)) - 1) with (Z.succ (Zpos (digits2_pos p) - 1)) by lia.
    rewrite !Z.pow_succ_r by lia. lia.
  - rewrite Pos2Z.inj_succ.
    replace (Z.succ (Zpos (digits2_pos p)) - 1) with (Z.succ (Zpos (digits2_pos p) - 1)) by lia.
    rewrite !Z.pow_succ_r by lia. lia.
  - simpl. lia.
Qed.

Lemma digits2_pos_unique (m : positive) (d : Z) :
  2 ^ (d - 1) <= Zpos m < 2 ^ d -> Zpos (digits2_pos m) = d.
Proof.
  intros [Hlo Hhi].
  destruct (digits2_pos_bounds m) as [Hlo' Hhi'].
  assert (Hd : 0 < d).
  { destruct (Z.le_gt_cases d 0) as [H|H]; [|exact H].
    exfalso. destruct (Z.eq_dec d 0) as [->|Hne].
    - simpl in Hhi. lia.
    - rewrite (Z.pow_neg_r 2 d) in Hhi by lia. lia. }
  destruct (Z.lt_trichotomy (Zpos (digits2_pos m)) d) as [H|[H|H]]; [|exact H|].
  - exfalso. assert (2 ^ Zpos (digits2_pos m) <= 2 ^ (d - 1)) by (apply Z.pow_le_mono_r; lia). lia.
  - exfalso. assert (2 ^ d <= 2 ^ (Zpos (digits2_pos m) - 1)) by (apply Z.pow_le_mono_r; lia). lia.
Qed.

Lemma digits2_pos_shift (m : positive) (k : Z) :
  0 <= k ->
  Zdigits2 (Zpos m * 2 ^ k) = Zpos (digits2_pos m) + k.
Proof.
  intros Hk.
  assert (Hpos : 0 < Zpos m * 2 ^ k) by (apply Z.mul_pos_pos; [lia | apply Z.pow_pos_nonneg; lia]).
  destruct (Zpos m * 2 ^ k) as [|x|x] eqn:E; try lia.
  change (Zdigits2 (Zpos x)) with (Zpos (digits2_pos x)).
  apply digits2_pos_unique. rewrite <- E.
  destruct (digits2_pos_bounds m) as [Hlo Hhi].
  assert (Hd : 0 < Zpos (digits2_pos m)) by lia.
  assert (Hk2 : 0 < 2 ^ k) by (apply Z.pow_pos_nonneg; lia).
  assert (E1 : 2 ^ (Zpos (digits2_pos m) + k - 1)
               = 2 ^ (Zpos (digits2_pos m) - 1) * 2 ^ k).
  { rewrite <- Z.pow_add_r by lia. f_equal. lia. }
  assert (E2 : 2 ^ (Zpos (digits2_pos m) + k)
               = 2 ^ Zpos (digits2_pos m) * 2 ^ k).
  { rewrite <- Z.pow_add_r by lia. reflexivity. }
  rewrite E1, E2. split; nia.
Qed.

(** *** Shifts *)
Lemma iter_pos_iter {A} (f : A -> A) (p : positive) (x : A) :
  SpecFloat.iter_pos f p x = BinPos.Pos.iter f x p.
Proof.
  revert x. induction p as [p IH|p IH|]; intros x; simpl.
  - rewrite !IH. rewrite <- BinPos.Pos.iter_swap.
    f_equal. rewrite BinPos.Pos.iter_swap. reflexivity.
  - rewrite !IH. reflexivity.
  - reflexivity.
Qed.

Lemma shr_1_spec (m : Z) (r s : bool) :
  0 <= m ->
  shr_1 (Build_shr_record m r s)
  = Build_shr_record (Z.div2 m) (Z.odd m) (r || s).
Proof.
  intros Hm. destruct m as [|[p|p|]|p]; try lia; reflexivity.
Qed.

Lemma iter_shr_1_spec (p : positive) (m : Z) :
  0 <= m ->
  let mrs := SpecFloat.iter_pos shr_1 p (Build_shr_record m false false) in
  0 <= shr_m mrs
  /\ shr_m mrs = m / 2 ^ Zpos p
  /\ (m mod 2 ^ Zpos p = 0 -> shr_r mrs = false /\ shr_s mrs = false).
Proof.
  intros Hm. cbv zeta. rewrite iter_pos_iter.
  apply (BinPos.Pos.iter_ind _ shr_1 (Build_shr_record m false false)
           (fun p a => 0 <= shr_m a /\ shr_m a = m / 2 ^ Zpos p
              /\ (m mod 2 ^ Zpos p = 0 -> shr_r a = false /\ shr_s a = false))).
  - rewrite shr_1_spec by exact Hm. simpl shr_m. simpl shr_r. simpl shr_s.
    rewrite Z.div2_div. change (2 ^ 1) with 2.
    split; [apply Z.div_pos; lia|]. split; [reflexivity|].
    intros H0. split; [|reflexivity].
    rewrite <- Z.negb_even. apply negb_false_iff.
    apply Zeven_bool_iff. apply Zeven_ex_iff. exists (m / 2).
    pose proof (Z.div_mod m 2). lia.
  - intros q [m' r' s'] (Hpos & Hdiv & Hex). simpl in Hpos, Hdiv, Hex.
    rewrite shr_1_spec by exact Hpos. simpl shr_m. simpl shr_r. simpl shr_s.
    rewrite Z.div2_div, Hdiv, Pos2Z.inj_succ, Z.pow_succ_r by lia.
    assert (H2q : 0 < 2 ^ Zpos q) by (apply Z.pow_pos_nonneg; lia).
    assert (Hdd : m / 2 ^ Zpos q / 2 = m / (2 * 2 ^ Zpos q)).
    { rewrite Z.div_div by lia. f_equal. lia. }
    split; [apply Z.div_pos; lia|]. split; [exact Hdd|].
    intros H0.
    assert (Hq : m mod 2 ^ Zpos q = 0).
    { apply Z.mod_divide in H0; [|lia]. destruct H0 as [c Hc].
      apply Z.mod_divide; [lia|]. exists (c * 2). lia. }
    destruct (Hex Hq) as [Hr Hs]. rewrite Hr, Hs. split; [|reflexivity].
    rewrite <- Z.negb_even. apply negb_false_iff.
    apply Zeven_bool_iff. apply Zeven_ex_iff.
    apply Z.mod_divide in H0; [|lia]. destruct H0 as [c Hc].
    exists c. subst m'. rewrite Hc.
    replace (c * (2 * 2 ^ Zpos q)) with ((2 * c) * 2 ^ Zpos q) by lia.
    rewrite Z.div_mul by lia. reflexivity.
Qed.

(** *** Rounding of exactly representable values *)
Lemma fexp_normal (e : Z) :
  -1074 <= e - 53 -> fexp PyFloat.prec PyFloat.emax e = e - 53.
Proof.
  intros H. unfold fexp, emin, PyFloat.prec, PyFloat.emax. lia.
Qed.

Lemma shr_fexp_exact (M : positive) (k e : Z) :
  Zpos (digits2_pos M) = 53 -> 0 <= k -> -1074 <= e + k ->
  shr_fexp PyFloat.prec PyFloat.emax (Zpos M * 2 ^ k) e loc_Exact
  = (Build_shr_record (Zpos M) false false, e + k).
Proof.
  intros Hd Hk He. unfold shr_fexp.
  rewrite digits2_pos_shift by exact Hk. rewrite Hd.
  rewrite fexp_normal by lia.
  replace (53 + k + e - 53 - e) with k by lia.
  unfold shr, shr_record_of_loc.
  destruct k as [|p|p]; try lia.
  - rewrite Z.mul_1_r, Z.add_0_r. reflexivity.
  - assert (Hm : 0 <= Zpos M * 2 ^ Zpos p).
    { apply Z.mul_nonneg_nonneg; [lia|]. apply Z.pow_nonneg. lia. }
    destruct (iter_shr_1_spec p _ Hm) as (_ & Hdiv & Hex).
    assert (H2p : 0 < 2 ^ Zpos p) by (apply Z.pow_pos_nonneg; lia).
    rewrite Z.div_mul in Hdiv by lia.
    assert (Hne : 2 ^ Zpos p <> 0) by lia.
    destruct (Hex (Z.mod_mul (Zpos M) _ Hne)) as [Hr Hs].
    destruct (SpecFloat.iter_pos shr_1 p _) as [m' r' s'].
    simpl in Hdiv, Hr, Hs. subst. reflexivity.
Qed.

Lemma round_exact (s : bool) (M : positive) (X k e : Z) :
  X = Zpos M * 2 ^ k ->
  Zpos (digits2_pos M) = 53 -> 0 <= k -> -1074 <= e + k <= 971 ->
  binary_round_aux PyFloat.prec PyFloat.emax s X e loc_Exact
  = S754_finite s M (e + k).
Proof.
  intros -> Hd Hk He. unfold binary_round_aux.
  rewrite (shr_fexp_exact M k e Hd Hk) by lia.
  cbn [shr_m loc_of_shr_record round_nearest_even].
  pose proof (shr_fexp_exact M 0 (e + k) Hd ltac:(lia) ltac:(lia)) as H0.
  rewrite Z.mul_1_r, Z.add_0_r in H0. rewrite H0.
  cbn [shr_m].
  replace (e + k <=? PyFloat.emax - PyFloat.prec) with true; [reflexivity|].
  symmetry. apply Z.leb_le. unfold PyFloat.emax, PyFloat.prec. lia.
Qed.

Lemma Zdigits2_bounds (n : Z) :
  0 < n -> 0 < Zdigits2 n /\ 2 ^ (Zdigits2 n - 1) <= n < 2 ^ Zdigits2 n.
Proof.
  intros Hn. destruct n as [|m|m]; try lia.
  change (Zdigits2 (Zpos m)) with (Zpos (digits2_pos m)).
  split; [lia|apply digits2_pos_bounds].
Qed.

Lemma Zdigits2_small (n : Z) :
  0 < n < 2 ^ 53 -> 0 < Zdigits2 n <= 53.
Proof.
  intros [Hn Hlt]. destruct (Zdigits2_bounds n Hn) as (Hd & Hlo & _).
  split; [exact Hd|].
  destruct (Z.le_gt_cases (Zdigits2 n) 53) as [H|H]; [exact H|].
  assert (2 ^ 53 <= 2 ^ (Zdigits2 n - 1)) by (apply Z.pow_le_mono_r; lia).
  lia.
Qed.

Lemma pow2_pos (k : Z) : 0 <= k -> 0 < 2 ^ k.
Proof. intros H. apply Z.pow_pos_nonneg; lia. Qed.

Lemma mant_spec (n : Z) :
  0 < n < 2 ^ 53 ->
  Zpos (mant n) = n * 2 ^ (53 - Zdigits2 n)
  /\ Zpos (digits2_pos (mant n)) = 53.
Proof.
  intros Hn. destruct (Zdigits2_small n Hn) as [Hd0 Hd].
  destruct (Zdigits2_bounds n ltac:(lia)) as (_ & Hlo & Hhi).
  pose proof (pow2_pos (53 - Zdigits2 n) ltac:(lia)) as Hp.
  assert (Hm : Zpos (mant n) = n * 2 ^ (53 - Zdigits2 n)).
  { unfold mant. rewrite Z2Pos.id; [reflexivity|]. nia. }
  split; [exact Hm|].
  apply digits2_pos_unique. rewrite Hm.
  assert (E1 : 2 ^ (53 - 1) = 2 ^ (Zdigits2 n - 1) * 2 ^ (53 - Zdigits2 n)).
  { rewrite <- Z.pow_add_r by lia. f_equal. lia. }
  assert (E2 : 2 ^ 53 = 2 ^ Zdigits2 n * 2 ^ (53 - Zdigits2 n)).
  { rewrite <- Z.pow_add_r by lia. f_equal. lia. }
  rewrite E1, E2. split; nia.
Qed.

Lemma shl_align_le (m : positive) (e e' : Z) :
  e' <= e ->
  Zpos (fst (shl_align m e e')) = Zpos m * 2 ^ (e - e')
  /\ snd (shl_align m e e') = e'.
Proof.
  intros H. unfold shl_align.
  destruct (e' - e) as [|p|p] eqn:E; try lia.
  - replace e' with e by lia. rewrite Z.sub_diag, Z.mul_1_r. auto.
  - cbn [fst snd]. change (Pos.iter xO m p) with (Zpower.shift_pos p m).
    rewrite Zpower.shift_pos_correct, Z.pow_pos_fold.
    assert (Hp : e - e' = Zpos p) by (pose proof (Pos2Z.opp_neg p); lia).
    rewrite Hp. split; [lia|reflexivity].
Qed.

Lemma shl_align_ge (m : positive) (e e' : Z) :
  e <= e' -> shl_align m e e' = (m, e).
Proof.
  intros H. unfold shl_align. destruct (e' - e) eqn:E; try lia; reflexivity.
Qed.

Lemma binary_round_small (X : positive) (e n : Z) :
  0 < n < 2 ^ 53 ->
  0 <= - e ->
  Zpos X = n * 2 ^ (- e) ->
  binary_round PyFloat.prec PyFloat.emax false X e
  = S754_finite false (mant n) (expo n).
Proof.
  intros Hn He HX.
  destruct (Zdigits2_small n Hn) as [Hd0 Hd].
  destruct (mant_spec n Hn) as [Hm Hdm].
  assert (HdX : Zpos (digits2_pos X) = Zdigits2 n - e).
  { change (Zpos (digits2_pos X)) with (Zdigits2 (Zpos X)). rewrite HX.
    destruct n as [|n'|n']; try lia.
    rewrite digits2_pos_shift by lia. reflexivity. }
  unfold binary_round. rewrite HdX.
  rewrite fexp_normal by lia.
  replace (Zdigits2 n - e + e - 53) with (expo n) by (unfold expo; lia).
  unfold expo in *. set (d := Zdigits2 n) in *.
  destruct (Z.le_gt_cases e (d - 53)) as [Hle|Hgt].
  - rewrite shl_align_ge by exact Hle.
    rewrite (round_exact false (mant n) (Zpos X) (d - 53 - e) e); try lia.
    + f_equal. lia.
    + rewrite HX, Hm. rewrite <- Z.mul_assoc, <- Z.pow_add_r by lia.
      f_equal. f_equal. lia.
  - destruct (shl_align_le X e (d - 53) ltac:(lia)) as [H1 H2].
    destruct (shl_align X e (d - 53)) as [mz ez]. cbn [fst snd] in H1, H2.
    subst ez.
    rewrite (round_exact false (mant n) (Zpos mz) 0 (d - 53)); try lia.
    + f_equal. lia.
    + rewrite H1, HX, Hm, Z.mul_1_r.
      rewrite <- Z.mul_assoc, <- Z.pow_add_r by lia.
      f_equal. f_equal. lia.
Qed.

Lemma of_Z_0 : PyFloat.of_Z 0 = S754_zero false.
Proof. reflexivity. Qed.

Lemma of_Z_small (n : Z) :
  0 < n < 2 ^ 53 ->
  PyFloat.of_Z n = S754_finite false (mant n) (expo n).
Proof.
  intros Hn. unfold PyFloat.of_Z, binary_normalize.
  destruct n as [|m|m]; try lia.
  apply binary_round_small; [exact Hn|lia|].
  simpl (- 0). rewrite Z.mul_1_r. reflexivity.
Qed.

Lemma Zdigits2_mul_lower (a b : Z) :
  0 < a -> 0 < b -> Zdigits2 a + Zdigits2 b - 1 <= Zdigits2 (a * b).
Proof.
  intros Ha Hb.
  destruct (Zdigits2_bounds a Ha) as (Hda & Hla & _).
  destruct (Zdigits2_bounds b Hb) as (Hdb & Hlb & _).
  destruct (Zdigits2_bounds (a * b) ltac:(nia)) as (Hdab & _ & Hhab).
  assert (H : 2 ^ (Zdigits2 a - 1 + (Zdigits2 b - 1)) < 2 ^ Zdigits2 (a * b)).
  { rewrite Z.pow_add_r by lia.
    pose proof (pow2_pos (Zdigits2 a - 1) ltac:(lia)).
    pose proof (pow2_pos (Zdigits2 b - 1) ltac:(lia)). nia. }
  apply Z.pow_lt_mono_r_iff in H; lia.
Qed.

Lemma Zdigits2_mono (a b : Z) :
  0 < a -> a <= b -> Zdigits2 a <= Zdigits2 b.
Proof.
  intros Ha Hab.
  destruct (Zdigits2_bounds a Ha) as (Hda & Hla & _).
  destruct (Zdigits2_bounds b ltac:(lia)) as (Hdb & _ & Hhb).
  assert (H : 2 ^ (Zdigits2 a - 1) < 2 ^ Zdigits2 b) by lia.
  apply Z.pow_lt_mono_r_iff in H; lia.
Qed.

(** On the naturals whose product (sum) is below [2 ^ 53] the
    multiplication (addition) of doubles is exact. *)
Lemma mul_of_Z (a b : Z) :
  0 <= a < 2 ^ 53 -> 0 <= b < 2 ^ 53 -> a * b < 2 ^ 53 ->
  PyFloat.mul (PyFloat.of_Z a) (PyFloat.of_Z b) = PyFloat.of_Z (a * b).
Proof.
  intros Ha Hb Hab.
  destruct (Z.eq_dec a 0) as [->|Ha0].
  { rewrite Z.mul_0_l, of_Z_0.
    destruct (Z.eq_dec b 0) as [->|Hb0]; [reflexivity|].
    rewrite (of_Z_small b) by lia. reflexivity. }
  destruct (Z.eq_dec b 0) as [->|Hb0].
  { rewrite Z.mul_0_r, of_Z_0. rewrite (of_Z_small a) by lia. reflexivity. }
  assert (Ha' : 0 < a < 2 ^ 53) by nia.
  assert (Hb' : 0 < b < 2 ^ 53) by nia.
  assert (Hab' : 0 < a * b < 2 ^ 53) by nia.
  rewrite (of_Z_small a Ha'), (of_Z_small b Hb'), (of_Z_small _ Hab').
  destruct (mant_spec a Ha') as [Hma _].
  destruct (mant_spec b Hb') as [Hmb _].
  destruct (mant_spec _ Hab') as [Hmab Hdab].
  destruct (Zdigits2_small a Ha') as [Hda0 Hda].
  destruct (Zdigits2_small b Hb') as [Hdb0 Hdb].
  destruct (Zdigits2_small _ Hab') as [Hdab0 Hdab1].
  pose proof (Zdigits2_mul_lower a b ltac:(lia) ltac:(lia)) as Hlow.
  unfold PyFloat.mul, SFmul. cbn [xorb].
  unfold expo in *.
  set (da := Zdigits2 a) in *. set (db := Zdigits2 b) in *.
  set (dab := Zdigits2 (a * b)) in *.
  rewrite (round_exact false (mant (a * b)) _ (53 + dab - da - db)
             (da - 53 + (db - 53))); try lia.
  - f_equal. lia.
  - rewrite Pos2Z.inj_mul, Hma, Hmb, Hmab.
    assert (E1 : 2 ^ (53 - da) * 2 ^ (53 - db) = 2 ^ (106 - da - db)).
    { rewrite <- Z.pow_add_r by lia. f_equal. lia. }
    assert (E2 : 2 ^ (53 - dab) * 2 ^ (53 + dab - da - db)
                 = 2 ^ (106 - da - db)).
    { rewrite <- Z.pow_add_r by lia. f_equal. lia. }
    transitivity (a * b * (2 ^ (53 - da) * 2 ^ (53 - db))); [ring|].
    rewrite E1, <- E2. ring.
Qed.

Lemma add_of_Z (a b : Z) :
  0 <= a -> 0 <= b -> a + b < 2 ^ 53 ->
  PyFloat.add (PyFloat.of_Z a) (PyFloat.of_Z b) = PyFloat.of_Z (a + b).
Proof.
  intros Ha Hb Hab.
  destruct (Z.eq_dec a 0) as [->|Ha0].
  { rewrite Z.add_0_l, of_Z_0.
    destruct (Z.eq_dec b 0) as [->|Hb0]; [reflexivity|].
    rewrite (of_Z_small b) by lia. reflexivity. }
  destruct (Z.eq_dec b 0) as [->|Hb0].
  { rewrite Z.add_0_r, of_Z_0. rewrite (of_Z_small a) by lia. reflexivity. }
  assert (Ha' : 0 < a < 2 ^ 53) by lia.
  assert (Hb' : 0 < b < 2 ^ 53) by lia.
  assert (Hab' : 0 < a + b < 2 ^ 53) by lia.
  rewrite (of_Z_small a Ha'), (of_Z_small b Hb'), (of_Z_small _ Hab').
  destruct (mant_spec a Ha') as [Hma _].
  destruct (mant_spec b Hb') as [Hmb _].
  destruct (Zdigits2_small a Ha') as [Hda0 Hda].
  destruct (Zdigits2_small b Hb') as [Hdb0 Hdb].
  unfold PyFloat.add, SFadd. cbn [cond_Zopp].
  set (ez := Z.min (expo a) (expo b)).
  destruct (shl_align_le (mant a) (expo a) ez ltac:(unfold ez; lia)) as [HA _].
  destruct (shl_align_le (mant b) (expo b) ez ltac:(unfold ez; lia)) as [HB _].
  set (A := fst (shl_align (mant a) (expo a) ez)) in *.
  set (B := fst (shl_align (mant b) (expo b) ez)) in *.
  change (Zpos A + Zpos B) with (Zpos (A + B)).
  unfold binary_normalize.
  apply binary_round_small; [exact Hab'|unfold ez, expo; lia|].
  rewrite Pos2Z.inj_add, HA, HB, Hma, Hmb.
  unfold ez, expo in *.
  set (da := Zdigits2 a) in *. set (db := Zdigits2 b) in *.
  assert (E1 : 2 ^ (53 - da) * 2 ^ (da - 53 - Z.min (da - 53) (db - 53))
               = 2 ^ (- Z.min (da - 53) (db - 53))).
  { rewrite <- Z.pow_add_r by lia. f_equal. lia. }
  assert (E2 : 2 ^ (53 - db) * 2 ^ (db - 53 - Z.min (da - 53) (db - 53))
               = 2 ^ (- Z.min (da - 53) (db - 53))).
  { rewrite <- Z.pow_add_r by lia. f_equal. lia. }
  rewrite <- !Z.mul_assoc, E1, E2. ring.
Qed.

(** *** Rounding of a quotient that does not exceed 100 *)
Lemma loc_of_shr_record_of_loc (m : Z) (l : location) :
  loc_of_shr_record (shr_record_of_loc m l) = l.
Proof. destruct l as [|[| |]]; reflexivity. Qed.

Lemma Zdigits2_unique (q d : Z) :
  0 < q -> 2 ^ (d - 1) <= q < 2 ^ d -> Zdigits2 q = d.
Proof.
  intros Hq H. destruct q as [|m|m]; try lia.
  apply digits2_pos_unique. exact H.
Qed.

Lemma shr_fexp_0 (q e : Z) (l : location) :
  2 ^ 52 <= q < 2 ^ 53 -> -1074 <= e ->
  shr_fexp PyFloat.prec PyFloat.emax q e l = (shr_record_of_loc q l, e).
Proof.
  intros Hq He. unfold shr_fexp.
  rewrite (Zdigits2_unique q 53) by lia.
  rewrite fexp_normal by lia.
  replace (53 + e - 53 - e) with 0 by lia. reflexivity.
Qed.

Lemma shr_fexp_1 (q e : Z) (l : location) :
  2 ^ 53 <= q < 2 ^ 54 -> -1074 <= e + 1 ->
  shr_fexp PyFloat.prec PyFloat.emax q e l
  = (shr_1 (shr_record_of_loc q l), e + 1).
Proof.
  intros Hq He. unfold shr_fexp.
  rewrite (Zdigits2_unique q 54) by lia.
  rewrite fexp_normal by lia.
  replace (54 + e - 53 - e) with 1 by lia. reflexivity.
Qed.

Lemma pow2_le_lt (x y : Z) : 0 <= y -> 2 ^ x < 2 ^ y -> x < y.
Proof. intros Hy H. apply Z.pow_lt_mono_r_iff in H; lia. Qed.

Lemma round_finish_le_100 (q e : Z) :
  2 ^ 52 <= q <= 2 ^ 53 -> -1074 <= e <= 0 -> q <= 100 * 2 ^ (- e) ->
  at_most_100 (round_finish false q e).
Proof.
  intros Hq He HB. unfold round_finish, at_most_100.
  assert (H7 : q < 2 ^ (7 - e)).
  { replace (7 - e) with (7 + - e) by lia. rewrite Z.pow_add_r by lia.
    pose proof (pow2_pos (- e) ltac:(lia)). change (2 ^ 7) with 128. lia. }
  destruct (Z.eq_dec q (2 ^ 53)) as [Heq|Hne].
  - assert (He' : e < -46).
    { assert (H : 2 ^ 53 < 2 ^ (7 - e)) by lia.
      apply pow2_le_lt in H; lia. }
    rewrite Heq.
    change (2 ^ 53) with (Zpos 4503599627370496 * 2 ^ 1).
    rewrite (shr_fexp_exact 4503599627370496 1 e) by (reflexivity || lia).
    cbn [shr_m].
    replace (e + 1 <=? PyFloat.emax - PyFloat.prec) with true
      by (symmetry; apply Z.leb_le; unfold PyFloat.emax, PyFloat.prec; lia).
    eexists _, _. split; [reflexivity|].
    destruct (Z.eq_dec (e + 1) (-46)) as [E|E]; [right|left; lia].
    split; [exact E|]. vm_compute. discriminate.
  - assert (He' : e <= -46).
    { assert (H : 2 ^ 52 < 2 ^ (7 - e)) by lia.
      apply pow2_le_lt in H; lia. }
    rewrite shr_fexp_0 by lia. cbn [shr_record_of_loc shr_m].
    destruct q as [|m|m]; try lia.
    replace (e <=? PyFloat.emax - PyFloat.prec) with true
      by (symmetry; apply Z.leb_le; unfold PyFloat.emax, PyFloat.prec; lia).
    eexists _, _. split; [reflexivity|].
    destruct (Z.eq_dec e (-46)) as [E|E]; [right|left; lia].
    split; [exact E|]. subst e. exact HB.
Qed.

Lemma binary_round_aux_finish (s : bool) (q e : Z) (l : location) :
  binary_round_aux PyFloat.prec PyFloat.emax s q e l
  = let '(mrs, e') := shr_fexp PyFloat.prec PyFloat.emax q e l in
    round_finish s
      (round_nearest_even (shr_m mrs) (loc_of_shr_record mrs)) e'.
Proof.
  unfold binary_round_aux, round_finish.
  destruct (shr_fexp PyFloat.prec PyFloat.emax q e l) as [mrs e'].
  reflexivity.
Qed.

Lemma round_nearest_even_bounds (m : Z) (l : location) :
  m <= round_nearest_even m l <= m + 1
  /\ (l = loc_Exact -> round_nearest_even m l = m).
Proof.
  destruct l as [|[| |]]; simpl; try destruct (Z.even m); split;
    try lia; try reflexivity; discriminate.
Qed.

Lemma round_le_100 (q e : Z) (l : location) :
  2 ^ 52 <= q < 2 ^ 54 -> -1073 <= e <= 0 ->
  q <= 100 * 2 ^ (- e) ->
  (l <> loc_Exact -> q < 100 * 2 ^ (- e)) ->
  at_most_100 (binary_round_aux PyFloat.prec PyFloat.emax false q e l).
Proof.
  intros Hq He HB Hl. rewrite binary_round_aux_finish.
  destruct (Z.lt_ge_cases q (2 ^ 53)) as [H53|H53].
  - rewrite shr_fexp_0 by lia.
    rewrite loc_of_shr_record_of_loc.
    assert (Hm : shr_m (shr_record_of_loc q l) = q)
      by (destruct l as [|[| |]]; reflexivity).
    rewrite Hm.
    destruct (round_nearest_even_bounds q l) as [Hb Hex].
    apply round_finish_le_100; try lia.
    destruct l as [|c]; [rewrite Hex by reflexivity; exact HB|].
    assert (q < 100 * 2 ^ (- e)) by (apply Hl; discriminate). lia.
  - rewrite shr_fexp_1 by lia.
    assert (Hrec : exists r s, shr_record_of_loc q l = Build_shr_record q r s
                               /\ (l = loc_Exact <-> r || s = false)).
    { destruct l as [|[| |]]; simpl; eexists _, _;
        (split; [reflexivity|]); simpl; split; congruence. }
    destruct Hrec as (r & s & -> & Hrs).
    rewrite shr_1_spec by lia.
    cbn [shr_m]. rewrite Z.div2_div.
    set (l1 := loc_of_shr_record _).
    destruct (round_nearest_even_bounds (q / 2) l1) as [Hb Hex].
    assert (He47 : e <= -47).
    { assert (H7 : q < 2 ^ (7 - e)).
      { replace (7 - e) with (7 + - e) by lia. rewrite Z.pow_add_r by lia.
        pose proof (pow2_pos (- e) ltac:(lia)). change (2 ^ 7) with 128. lia. }
      assert (H : 2 ^ 53 < 2 ^ (7 - e)) by lia.
      apply pow2_le_lt in H; lia. }
    assert (HB2 : 100 * 2 ^ (- e) = 2 * (100 * 2 ^ (- (e + 1)))).
    { replace (- e) with (Z.succ (- (e + 1))) by lia.
      rewrite Z.pow_succ_r by lia. ring. }
    pose proof (Z.div_mod q 2 ltac:(lia)) as Hdm.
    pose proof (Z.mod_pos_bound q 2 ltac:(lia)) as Hmod.
    apply round_finish_le_100; try lia.
    destruct (Z.eq_dec (round_nearest_even (q / 2) l1) (q / 2)) as [E|E];
      [rewrite E; lia|].
    assert (Hl1 : l1 <> loc_Exact) by (intros El; apply E, Hex, El).
    assert (Hlt : q < 100 * 2 ^ (- e)).
    { destruct (Z.odd q) eqn:Hodd.
      - assert (q mod 2 = 1).
        { rewrite Zmod_odd, Hodd. reflexivity. }
        lia.
      - apply Hl. intros El. apply Hl1. unfold l1.
        apply Hrs in El. rewrite El. reflexivity. }
    lia.
Qed.

Lemma new_location_inexact (nb k : Z) :
  new_location nb k <> loc_Exact -> k <> 0.
Proof.
  intros H Hk. apply H. subst k. unfold new_location.
  destruct (Z.even nb); reflexivity.
Qed.

Lemma div_of_Z_le_100 (a b : Z) :
  0 < a < 2 ^ 53 -> 0 < b < 2 ^ 53 -> a <= 100 * b ->
  at_most_100 (PyFloat.div (PyFloat.of_Z a) (PyFloat.of_Z b)).
Proof.
  intros Ha Hb Hab.
  rewrite (of_Z_small a Ha), (of_Z_small b Hb).
  destruct (mant_spec a Ha) as [Hma Hdma].
  destruct (mant_spec b Hb) as [Hmb Hdmb].
  destruct (Zdigits2_small a Ha) as [Hda0 Hda].
  destruct (Zdigits2_small b Hb) as [Hdb0 Hdb].
  destruct (digits2_pos_bounds (mant a)) as [Hla Hha].
  destruct (digits2_pos_bounds (mant b)) as [Hlb Hhb].
  rewrite Hdma in Hla, Hha. rewrite Hdmb in Hlb, Hhb.
  unfold PyFloat.div, SFdiv. cbn [xorb]. unfold SFdiv_core_binary.
  change (Zdigits2 (Zpos (mant a))) with (Zpos (digits2_pos (mant a))).
  change (Zdigits2 (Zpos (mant b))) with (Zpos (digits2_pos (mant b))).
  rewrite Hdma, Hdmb.
  unfold expo in *.
  set (da := Zdigits2 a) in *. set (db := Zdigits2 b) in *.
  rewrite fexp_normal by lia.
  replace (Z.min (53 + (da - 53) - (53 + (db - 53)) - 53) (da - 53 - (db - 53)))
    with (da - db - 53) by lia.
  replace (da - 53 - (db - 53) - (da - db - 53)) with 53 by lia.
  cbv iota. rewrite Z.shiftl_mul_pow2 by lia.
  pose proof (Z_div_mod (Zpos (mant a) * 2 ^ 53) (Zpos (mant b)) ltac:(lia))
    as Hdiv.
  destruct (Z.div_eucl (Zpos (mant a) * 2 ^ 53) (Zpos (mant b))) as [q r].
  destruct Hdiv as [Hqr Hr].
  assert (EB : 100 * 2 ^ (- (da - db - 53)) * Zpos (mant b)
               = 100 * b * 2 ^ (106 - da)).
  { rewrite Hmb. rewrite <- !Z.mul_assoc. f_equal.
    rewrite (Z.mul_comm b), Z.mul_assoc, <- Z.pow_add_r by lia.
    rewrite Z.mul_comm. f_equal. f_equal. lia. }
  assert (EA : Zpos (mant a) * 2 ^ 53 = a * 2 ^ (106 - da)).
  { rewrite Hma, <- Z.mul_assoc, <- Z.pow_add_r by lia. f_equal. f_equal. lia. }
  pose proof (pow2_pos (106 - da) ltac:(lia)) as Hp.
  pose proof (pow2_pos (- (da - db - 53)) ltac:(lia)) as Hp'.
  set (Bd := 100 * 2 ^ (- (da - db - 53))) in *.
  change (2 ^ 53) with 9007199254740992 in *.
  change (2 ^ 52) with 4503599627370496 in *.
  change (2 ^ (53 - 1)) with 4503599627370496 in *.
  apply round_le_100.
  - change (2 ^ 54) with 18014398509481984.
    change (2 ^ 52) with 4503599627370496. split; nia.
  - lia.
  - fold Bd. nia.
  - intros Hl. apply new_location_inexact in Hl. fold Bd. nia.
Qed.

(** *** Rounding never turns a value above the least subnormal into
    a zero *)
Lemma Zdigits2_div_pow2 (X k : Z) :
  0 < X -> 0 <= k < Zdigits2 X -> 
  0 < X / 2 ^ k /\ Zdigits2 (X / 2 ^ k) = Zdigits2 X - k.
Proof.
  intros HX Hk.
  destruct (Zdigits2_bounds X HX) as (Hd & Hlo & Hhi).
  pose proof (pow2_pos k ltac:(lia)) as Hpk.
  assert (E1 : 2 ^ (Zdigits2 X - 1) = 2 ^ k * 2 ^ (Zdigits2 X - k - 1)).
  { rewrite <- Z.pow_add_r by lia. f_equal. lia. }
  assert (E2 : 2 ^ Zdigits2 X = 2 ^ k * 2 ^ (Zdigits2 X - k)).
  { rewrite <- Z.pow_add_r by lia. f_equal. lia. }
  assert (Hl : 2 ^ (Zdigits2 X - k - 1) <= X / 2 ^ k).
  { apply Z.div_le_lower_bound; lia. }
  assert (Hh : X / 2 ^ k < 2 ^ (Zdigits2 X - k)).
  { apply Z.div_lt_upper_bound; lia. }
  pose proof (pow2_pos (Zdigits2 X - k - 1) ltac:(lia)) as Hp1.
  split; [lia|].
  apply Zdigits2_unique; [lia|]. split; [exact Hl|exact Hh].
Qed.

Lemma fexp_spec (x : Z) :
  fexp PyFloat.prec PyFloat.emax x = Z.max (x - 53) (-1074).
Proof. reflexivity. Qed.

Lemma round_finish_cases (s : bool) (q e : Z) :
  0 < q -> -1074 <= e ->
  round_finish s q e = S754_infinity s
  \/ exists m3 e3,
       round_finish s q e = S754_finite s m3 e3
       /\ Zdigits2 q + e <= Zpos (digits2_pos m3) + e3.
Proof.
  intros Hq He. unfold round_finish, shr_fexp. rewrite fexp_spec.
  destruct (Zdigits2_bounds q Hq) as (Hd & _).
  unfold shr. cbn [shr_record_of_loc].
  destruct (Z.max (Zdigits2 q + e - 53) (-1074) - e) as [|p|p] eqn:Ek.
  - cbn [shr_m]. destruct q as [|m|m]; try lia.
    destruct (e <=? PyFloat.emax - PyFloat.prec); [right|left; reflexivity].
    eexists _, _. split; [reflexivity|].
    change (Zdigits2 (Zpos m)) with (Zpos (digits2_pos m)). lia.
  - destruct (iter_shr_1_spec p q ltac:(lia)) as (_ & Hdiv & _).
    destruct (Zdigits2_div_pow2 q (Zpos p) Hq ltac:(lia)) as [Hpos Hdig].
    rewrite Hdiv. destruct (q / 2 ^ Zpos p) as [|m|m]; try lia.
    destruct (e + Zpos p <=? PyFloat.emax - PyFloat.prec);
      [right|left; reflexivity].
    eexists _, _. split; [reflexivity|].
    change (Zdigits2 (Zpos m)) with (Zpos (digits2_pos m)) in Hdig. lia.
  - cbn [shr_m]. destruct q as [|m|m]; try lia.
    destruct (e <=? PyFloat.emax - PyFloat.prec); [right|left; reflexivity].
    eexists _, _. split; [reflexivity|].
    change (Zdigits2 (Zpos m)) with (Zpos (digits2_pos m)). lia.
Qed.

Lemma binary_round_aux_cases (s : bool) (X : positive) (e : Z) :
  -1074 < Zpos (digits2_pos X) + e ->
  binary_round_aux PyFloat.prec PyFloat.emax s (Zpos X) e loc_Exact
  = S754_infinity s
  \/ exists m3 e3,
       binary_round_aux PyFloat.prec PyFloat.emax s (Zpos X) e loc_Exact
       = S754_finite s m3 e3
       /\ Zpos (digits2_pos X) + e <= Zpos (digits2_pos m3) + e3.
Proof.
  intros Hde. rewrite binary_round_aux_finish.
  unfold shr_fexp. rewrite fexp_spec.
  change (Zdigits2 (Zpos X)) with (Zpos (digits2_pos X)).
  set (d := Zpos (digits2_pos X)) in *.
  assert (Hd : 0 < d) by (unfold d; lia).
  unfold shr. cbn [shr_record_of_loc].
  destruct (Z.max (d + e - 53) (-1074) - e) as [|p|p] eqn:Ek.
  - cbn [shr_m loc_of_shr_record round_nearest_even].
    destruct (round_finish_cases s (Zpos X) e ltac:(lia) ltac:(lia))
      as [H|(m3 & e3 & H & Hb)]; [left; exact H|right].
    exists m3, e3. split; [exact H|exact Hb].
  - destruct (iter_shr_1_spec p (Zpos X) ltac:(lia)) as (_ & Hdiv & _).
    destruct (Zdigits2_div_pow2 (Zpos X) (Zpos p) ltac:(lia)
                ltac:(change (Zdigits2 (Zpos X)) with d; lia))
      as [Hpos Hdig].
    change (Zdigits2 (Zpos X)) with d in Hdig.
    rewrite Hdiv.
    set (m1 := Zpos X / 2 ^ Zpos p) in *.
    set (l := loc_of_shr_record _).
    destruct (round_nearest_even_bounds m1 l) as [Hb _].
    set (q2 := round_nearest_even m1 l) in *.
    assert (Hq2 : Zdigits2 m1 <= Zdigits2 q2).
    { apply Zdigits2_mono; lia. }
    destruct (round_finish_cases s q2 (e + Zpos p) ltac:(lia) ltac:(lia))
      as [H|(m3 & e3 & H & Hb3)]; [left; exact H|right].
    exists m3, e3. split; [exact H|lia].
  - cbn [shr_m loc_of_shr_record round_nearest_even].
    destruct (round_finish_cases s (Zpos X) e ltac:(lia) ltac:(lia))
      as [H|(m3 & e3 & H & Hb)]; [left; exact H|right].
    exists m3, e3. split; [exact H|exact Hb].
Qed.

Lemma binary_round_cases (s : bool) (m : positive) (e : Z) :
  -1074 < Zpos (digits2_pos m) + e ->
  binary_round PyFloat.prec PyFloat.emax s m e = S754_infinity s
  \/ exists m3 e3,
       binary_round PyFloat.prec PyFloat.emax s m e = S754_finite s m3 e3
       /\ Zpos (digits2_pos m) + e <= Zpos (digits2_pos m3) + e3.
Proof.
  intros Hde. unfold binary_round.
  set (e' := fexp PyFloat.prec PyFloat.emax (Zpos (digits2_pos m) + e)).
  destruct (Z.le_gt_cases e e') as [Hle|Hgt].
  - rewrite shl_align_ge by exact Hle.
    apply binary_round_aux_cases. exact Hde.
  - destruct (shl_align_le m e e' ltac:(lia)) as [H1 H2].
    destruct (shl_align m e e') as [mz ez]. cbn [fst snd] in H1, H2.
    subst ez.
    assert (Hdz : Zpos (digits2_pos mz) = Zpos (digits2_pos m) + (e - e')).
    { change (Zpos (digits2_pos mz)) with (Zdigits2 (Zpos mz)).
      rewrite H1. apply digits2_pos_shift. lia. }
    destruct (binary_round_aux_cases s mz e' ltac:(lia))
      as [H|(m3 & e3 & H & Hb)]; [left; exact H|right].
    exists m3, e3. split; [exact H|lia].
Qed.

Lemma mul_comm (x y : spec_float) : PyFloat.mul x y = PyFloat.mul y x.
Proof.
  unfold PyFloat.mul.
  destruct x as [sx|sx| |sx mx ex], y as [sy|sy| |sy my ey]; simpl;
    try reflexivity; try (rewrite (xorb_comm sx sy); reflexivity).
  rewrite (xorb_comm sx sy), (Pos.mul_comm mx my), (Z.add_comm ex ey).
  reflexivity.
Qed.

Lemma add_zero_l (x : spec_float) :
  x <> S754_zero true -> PyFloat.add (PyFloat.of_Z 0) x = x.
Proof.
  intros Hx. rewrite of_Z_0.
  destruct x as [[|]| | |]; try reflexivity. congruence.
Qed.

Lemma mul_of_Z_not_neg_zero (n c : Z) :
  0 < c < 2 ^ 53 ->
  (exists sg, PyFloat.of_Z n = S754_infinity sg)
  \/ PyFloat.mul (PyFloat.of_Z n) (PyFloat.of_Z c) <> S754_zero true.
Proof.
  intros Hc. rewrite (of_Z_small c Hc).
  destruct (mant_spec c Hc) as [_ Hdc].
  destruct (Zdigits2_small c Hc) as [Hdc0 _].
  assert (Hmul : forall sg m,
             (exists sg', binary_round PyFloat.prec PyFloat.emax sg m 0
                          = S754_infinity sg')
             \/ PyFloat.mul (binary_round PyFloat.prec PyFloat.emax sg m 0)
                  (S754_finite false (mant c) (expo c)) <> S754_zero true).
  { intros sg m.
    destruct (binary_round_cases sg m 0 ltac:(lia))
      as [H|(m3 & e3 & H & Hb)]; [left; eauto|right].
    rewrite H. unfold PyFloat.mul, SFmul.
    assert (Hd : Zpos (digits2_pos m3) + Zpos (digits2_pos (mant c)) - 1
                 <= Zpos (digits2_pos (m3 * mant c))).
    { apply (Zdigits2_mul_lower (Zpos m3) (Zpos (mant c))); lia. }
    destruct (binary_round_aux_cases (xorb sg false) (m3 * mant c)
                (e3 + expo c) ltac:(unfold expo; lia))
      as [H'|(m4 & e4 & H' & _)]; rewrite H'; discriminate. }
  destruct n as [|m|m].
  - right. discriminate.
  - destruct (Hmul false m) as [[sg H]|H]; [left; exists sg; exact H|right; exact H].
  - destruct (Hmul true m) as [[sg H]|H]; [left; exists sg; exact H|right; exact H].
Qed.

(** ** The store *)

Lemma select_first_Some (P : Row -> bool) (t : gmap Z Row) k r :
  select_first P t = Some (k, r) -> t !! k = Some r /\ P r = true.
Proof.
  unfold select_first. intros Hf.
  apply List.find_some in Hf. destruct Hf as [Hin HP]. split.
  - apply elem_of_map_to_list. apply list_elem_of_In. exact Hin.
  - exact HP.
Qed.

Lemma select_first_None (P : Row -> bool) (t : gmap Z Row) :
  select_first P t = None -> forall k r, t !! k = Some r -> P r = false.
Proof.
  unfold select_first. intros Hf k r Hk.
  apply (List.find_none _ _ Hf (k, r)).
  apply list_elem_of_In. apply elem_of_map_to_list. exact Hk.
Qed.

Section Decoding.

Context {I : Imports}.

Lemma is_best_of_status userid md5 mode_vn r :
  is_best_of userid md5 mode_vn r = true -> row_status r = 2.
Proof.
  unfold is_best_of. intros H.
  apply andb_prop in H. destruct H as [_ H].
  apply Z.eqb_eq. exact H.
Qed.

(** ** Decoding a submission *)

Lemma int_fields_positions (data : list str) :
  length data = 18%nat ->
  int_fields data = List.map (fun i => nth i data "") int_positions.
Proof.
  intros H.
  do 18 (destruct data as [|? data]; [discriminate H|]).
  destruct data; [reflexivity | discriminate H].
Qed.

Lemma int_fields_not_decimal (data : list str) (i : nat) :
  length data = 18%nat -> In i int_positions ->
  PyStr.isdecimal (nth i data "") = false ->
  forallb PyStr.isdecimal (int_fields data) = false.
Proof.
  intros Hlen Hi Hnd.
  rewrite (int_fields_positions _ Hlen).
  destruct (forallb PyStr.isdecimal
              (List.map (fun i => nth i data "") int_positions)) eqn:E;
    [|reflexivity].
  rewrite forallb_forall in E.
  rewrite <- Hnd. symmetry. apply E. apply in_map_iff. exists i. auto.
Qed.

(** C9. A plaintext of 18 fields whose field 0 is not 32 characters long
    yields no record: [from_submission] returns [None] with an empty
    trace, so without any log and before the beatmap and the player
    are looked up. *)
Theorem from_submission_bad_checksum
    (w : World) (data_enc iv osu_ver phash : str) :
  let data := submission_fields data_enc iv osu_ver in
  length data = 18%nat ->
  length (nth 0 data "") <> 32%nat ->
  from_submission data_enc iv osu_ver phash w = ([], Ok None).
Proof.
  intros data Hlen Hmd5. unfold from_submission. fold data.
  rewrite Hlen. simpl.
  apply Nat.eqb_neq in Hmd5. rewrite Hmd5. reflexivity.
Qed.

(** The result of a submission whose player is not logged in, whatever
    its numeric fields hold. *)
Lemma from_submission_unresolved
    (w : World) (data_enc iv osu_ver phash : str) :
  let data := submission_fields data_enc iv osu_ver in
  let md5 := nth 0 data "" in
  let pname := PyStr.rstrip (nth 1 data "") in
  length data = 18%nat ->
  length md5 = 32%nat ->
  logins w pname phash = None ->
  from_submission data_enc iv osu_ver phash w =
    ([EvMapFromMd5 md5; EvGetLogin pname phash],
     Ok (Some (set_player None (set_bmap (beatmaps w md5) new_score)))).
Proof.
  intros data md5 pname Hlen Hmd5 Hlogin.
  unfold from_submission. fold data. rewrite Hlen. simpl.
  fold md5. rewrite Hmd5. simpl.
  unfold bind, Beatmap_from_md5, get_login, ask. simpl.
  fold pname. rewrite Hlogin. reflexivity.
Qed.

(** C4. A structurally valid submission whose player name, stripped of
    trailing white space, does not resolve with the credential hash to
    a logged-in player yields a score object whose player is unset,
    not [None]; nothing is logged. *)
Theorem from_submission_player_unresolved
    (w : World) (data_enc iv osu_ver phash : str) :
  let data := submission_fields data_enc iv osu_ver in
  let md5 := nth 0 data "" in
  let pname := PyStr.rstrip (nth 1 data "") in
  structurally_valid data ->
  logins w pname phash = None ->
  exists s : Score,
    from_submission data_enc iv osu_ver phash w =
      ([EvMapFromMd5 md5; EvGetLogin pname phash], Ok (Some s))
    /\ player s = None
    /\ bmap s = beatmaps w md5
    /\ s = set_player None (set_bmap (beatmaps w md5) new_score).
Proof.
  intros data md5 pname [Hlen [Hmd5 _]] Hlogin.
  exists (set_player None (set_bmap (beatmaps w md5) new_score)).
  split; [|auto].
  apply from_submission_unresolved; assumption.
Qed.

(** C3, as amended. A plaintext that does not split into exactly 18
    fields is logged and yields [None] without any access to a
    collaborator; a plaintext of 18 fields with a checksum of 32
    characters and a logged-in player, in which one of the fields 3 to
    10, 13 or 15 is not decimal, is logged and yields [None] after the
    two lookups, without any access to the store. *)
Theorem from_submission_malformed
    (w : World) (data_enc iv osu_ver phash : str) :
  let data := submission_fields data_enc iv osu_ver in
  let md5 := nth 0 data "" in
  let pname := PyStr.rstrip (nth 1 data "") in
  (length data <> 18%nat ->
   from_submission data_enc iv osu_ver phash w =
     ([EvLog "Received an invalid score submission."], Ok None))
  /\ (forall (i : nat) (p : Player),
        length data = 18%nat ->
        length md5 = 32%nat ->
        logins w pname phash = Some p ->
        In i int_positions ->
        PyStr.isdecimal (nth i data "") = false ->
        from_submission data_enc iv osu_ver phash w =
          ([EvMapFromMd5 md5; EvGetLogin pname phash;
            EvLog "Invalid parameter passed into submit-modular."],
           Ok None)).
Proof.
  intros data md5 pname. split.
  - intros Hlen. unfold from_submission. fold data.
    apply Nat.eqb_neq in Hlen. rewrite Hlen. reflexivity.
  - intros i p Hlen Hmd5 Hlogin Hi Hnd.
    unfold from_submission. fold data. rewrite Hlen. simpl.
    fold md5. rewrite Hmd5. simpl.
    unfold bind, Beatmap_from_md5, get_login, ask. simpl.
    fold pname. rewrite Hlogin.
    rewrite (int_fields_not_decimal data i Hlen Hi Hnd). reflexivity.
Qed.

End Decoding.

(** ** The monad *)

(** One step of a run: the operations of the monad and the calls
    to the collaborators are unfolded. *)
Ltac run_step :=
  cbv beta iota zeta delta
    [bind ret raise lift ask attr plog Beatmap_from_md5 get_login
     get_by_id time fetch_score fetch_best fetch_count owoppai
     from_params];
  simpl app.

Section Running.

Context {I : Imports}.

(** ** Leaderboard placement *)

Lemma lb_scoring_exceeds (s : Score) (r : Row) :
  exceeds (lb_scoring s) r = metric_exceeds s r.
Proof.
  unfold lb_scoring, metric_exceeds.
  destruct (GameMode_value (mode s) <=? GameMode_value rx_std); reflexivity.
Qed.

Lemma is_better_on_outranks (s : Score) (b : Beatmap) (r : Row) :
  is_better_on (bmap_md5 b) (as_vanilla (mode s)) (lb_scoring s) r
  = outranks s b r.
Proof.
  unfold is_better_on, outranks. rewrite lb_scoring_exceeds. reflexivity.
Qed.

Lemma select_count_ext (P Q : Row -> bool) (t : gmap Z Row) :
  (forall r, P r = Q r) -> select_count P t = select_count Q t.
Proof.
  intros H. unfold select_count. f_equal. f_equal.
  apply List.filter_ext. intros [k r]. apply H.
Qed.

Lemma calc_lb_placement_run (w : World) (s : Score) (b : Beatmap) :
  bmap s = Some b ->
  calc_lb_placement s w =
    ([EvFetch (sql_table (mode s))
        (CountBetter (bmap_md5 b) (as_vanilla (mode s)) (lb_scoring s))],
     Ok (1 + select_count (outranks s b) (db w (sql_table (mode s))))).
Proof.
  intros Hb. unfold calc_lb_placement. rewrite Hb.
  unfold bind, attr, ret, fetch_count, ask. simpl.
  rewrite (select_count_ext _ _ _ (is_better_on_outranks s b)).
  rewrite Z.add_comm. reflexivity.
Qed.

(** The count of a [SELECT COUNT] is the number of entries of the
    table that satisfy the condition. *)
Lemma select_count_size (P : Row -> bool) (t : gmap Z Row) :
  select_count P t
  = Z.of_nat (size (filter (fun kr : Z * Row => P (snd kr) = true) t)).
Proof.
  unfold select_count. f_equal.
  rewrite map_filter_alt.
  assert (Hlen : forall l : list (Z * Row),
             length (List.filter (fun kr => P (snd kr)) l)
             = length (filter (fun kr : Z * Row => P (snd kr) = true) l)).
  { induction l as [|x l IH]; [reflexivity|].
    simpl. rewrite filter_cons.
    destruct (decide (P (snd x) = true)) as [E|E].
    - rewrite E. simpl. rewrite IH. reflexivity.
    - apply not_true_is_false in E. rewrite E. exact IH. }
  rewrite Hlen. symmetry. apply map_size_list_to_map.
  eapply sublist_NoDup; [apply (NoDup_fst_map_to_list t)|].
  apply fmap_sublist. apply sublist_filter.
Qed.

(** C5. For a score with a resolved map, [calc_lb_placement] issues one
    count query and returns 1 plus the number of rows of the table of
    the mode with status 2 ([BEST]), the checksum of the map and the
    vanilla identifier of the mode whose metric strictly exceeds that
    of the score; the metric is the performance value for the modes up
    to [GameMode.rx_std] and the raw score for the others. *)
Theorem calc_lb_placement_rank (w : World) (s : Score) (b : Beatmap) :
  bmap s = Some b ->
  let t := db w (sql_table (mode s)) in
  let better (kr : Z * Row) :=
    row_map_md5 (snd kr) = bmap_md5 b
    /\ row_mode (snd kr) = as_vanilla (mode s)
    /\ row_status (snd kr) = 2
    /\ metric_exceeds s (snd kr) = true in
  (exists tr n,
     calc_lb_placement s w = (tr, Ok (1 + Z.of_nat n))
     /\ n = length (List.filter (fun kr => outranks s b (snd kr)) (map_to_list t))
     /\ n = size (filter (fun kr => outranks s b (snd kr) = true) t)
     /\ forall kr, outranks s b (snd kr) = true <-> better kr)
  /\ (ranked_by_pp (mode s) ->
      forall r, metric_exceeds s r = PyFloat.ltb (pp s) (row_pp r))
  /\ (~ ranked_by_pp (mode s) ->
      forall r, metric_exceeds s r = (score s <? row_score r)).
Proof.
  intros Hb t better. split; [|split].
  - eexists _, _. split; [|split; [|split]].
    + rewrite (calc_lb_placement_run w s b Hb). reflexivity.
    + reflexivity.
    + apply Nat2Z.inj. fold t.
      rewrite <- (select_count_size (outranks s b) t). reflexivity.
    + intros [k r]. unfold better, outranks. simpl.
      rewrite !andb_true_iff, str_eqb_eq, !Z.eqb_eq. tauto.
  - unfold ranked_by_pp, metric_exceeds. intros H r.
    apply Z.leb_le in H. rewrite H. reflexivity.
  - unfold ranked_by_pp, metric_exceeds. intros H r.
    apply Z.leb_nle in H. rewrite H. reflexivity.
Qed.

End Running.

(** ** Comparison of doubles *)

Lemma compare_cont_flip (p q : positive) :
  PosDef.Pos.compare_cont Eq q p = CompOpp (PosDef.Pos.compare_cont Eq p q).
Proof. exact (eq_sym (Pos.compare_cont_antisym p q Eq)). Qed.

Lemma SFcompare_antisym (x y : spec_float) :
  SFcompare y x = option_map CompOpp (SFcompare x y).
Proof.
  destruct x as [sx|sx| |sx mx ex], y as [sy|sy| |sy my ey]; simpl;
    try reflexivity;
    try (destruct sx; reflexivity);
    try (destruct sy; reflexivity);
    try (destruct sx, sy; reflexivity).
  destruct sx, sy; try reflexivity;
    rewrite (Z.compare_antisym ex ey);
    destruct (ex ?= ey)%Z; simpl; try reflexivity;
    rewrite (compare_cont_flip mx my); reflexivity.
Qed.

Lemma ltb_asym (x y : float) :
  PyFloat.ltb x y = true -> PyFloat.ltb y x = false.
Proof.
  unfold PyFloat.ltb, SFltb. rewrite (SFcompare_antisym x y).
  destruct (SFcompare x y) as [[| |]|]; simpl; congruence.
Qed.

Lemma eqb_not_ltb (x y : float) :
  SFeqb x y = true -> PyFloat.ltb y x = false.
Proof.
  unfold PyFloat.ltb, SFltb, SFeqb. rewrite (SFcompare_antisym x y).
  destruct (SFcompare x y) as [[| |]|]; simpl; congruence.
Qed.

Lemma ltb_irrefl (x : float) : PyFloat.ltb x x = false.
Proof.
  destruct (PyFloat.ltb x x) eqn:E; [|reflexivity].
  rewrite (ltb_asym x x E) in E. discriminate E.
Qed.

(** ** Reconstruction and status resolution *)

Section Status.

Context {I : Imports}.

Lemma SubmissionStatus_of_value (n : Z) (st : SubmissionStatus) :
  SubmissionStatus_of n = Ok st -> SubmissionStatus_value st = n.
Proof.
  intros H.
  destruct n as [|[[?|?|]|[?|?|]|]|?]; simpl in H; try discriminate H;
    inversion H; reflexivity.
Qed.

Lemma from_sql_found (w : World) (table : string) (k : Z) (r : Row)
    (st : SubmissionStatus) (m : GameMode) :
  db w table !! k = Some r ->
  SubmissionStatus_of (row_status r) = Ok st ->
  GameMode_from_params (row_mode r) (row_mods r) = Some m ->
  exists tr pb,
    from_sql k table w = (EvFetch table (SelectScore k) :: tr, Ok (Some pb))
    /\ reconstructs k r w pb /\ status pb = st.
Proof.
  intros Hk Hst Hm.
  assert (Hval : SubmissionStatus_value st = row_status r)
    by exact (SubmissionStatus_of_value _ _ Hst).
  unfold from_sql. run_step. rewrite Hk. run_step. rewrite Hst. run_step.
  rewrite Hm. run_step.
  destruct (beatmaps w (row_map_md5 r)) as [b|] eqn:Hb.
  - match goal with
    | |- context [calc_lb_placement ?s] =>
        rewrite (calc_lb_placement_run w s b eq_refl)
    end.
    simpl. eexists _, _. split; [reflexivity|].
    split; [|reflexivity].
    unfold reconstructs; simpl. rewrite Hb.
    repeat split; auto.
  - simpl. eexists _, _. split; [reflexivity|].
    split; [|reflexivity].
    unfold reconstructs; simpl. rewrite Hb.
    repeat split; auto.
Qed.

(** The run of [calc_status] on a passed play for which the store
    answers with a row. *)
Lemma calc_status_found (w : World) (s : Score) (p : Player) (b : Beatmap)
    (k : Z) (r : Row) (m : GameMode) :
  passed s = true -> player s = Some p -> bmap s = Some b ->
  let table := sql_table (mode s) in
  let q := SelectBest (player_id p) (bmap_md5 b) (as_vanilla (mode s)) in
  select_first
    (is_best_of (player_id p) (bmap_md5 b) (as_vanilla (mode s)))
    (db w table) = Some (k, r) ->
  GameMode_from_params (row_mode r) (row_mods r) = Some m ->
  exists tr pb,
    from_sql k table w = (tr, Ok (Some pb))
    /\ reconstructs k r w pb /\ status pb = BEST
    /\ calc_status s w =
         (EvFetch table q :: tr,
          Ok (if PyFloat.ltb (row_pp r) (pp s)
              then set_prev_best (Some (set_status SUBMITTED pb))
                     (set_status BEST s)
              else set_status SUBMITTED (set_prev_best (Some pb) s))).
Proof.
  intros Hpass Hp Hb table q Hsel Hm.
  destruct (select_first_Some _ _ _ _ Hsel) as [Hk HP].
  assert (Hst : SubmissionStatus_of (row_status r) = Ok BEST)
    by (rewrite (is_best_of_status _ _ _ _ HP); reflexivity).
  destruct (from_sql_found w table k r BEST m Hk Hst Hm)
    as (tr & pb & Hsql & Hrec & Hstat).
  eexists _, pb. split; [exact Hsql|]. split; [exact Hrec|].
  split; [exact Hstat|].
  unfold calc_status. rewrite Hpass, Hp, Hb. cbn [negb]. run_step.
  fold table. rewrite Hsel. run_step. fold table. rewrite Hsql.
  cbn [pp set_prev_best].
  destruct (PyFloat.ltb (row_pp r) (pp s)); simpl;
    rewrite ?List.app_nil_r; reflexivity.
Qed.

(** C1. For a passed submission of a player on a map: when the table
    of the mode holds no row of status 2 ([BEST]) with the player, the
    checksum of the map and the vanilla identifier of the mode, the
    status becomes [BEST]; when it holds one, the row the store answers
    with is reconstructed by [from_sql] and retained as [prev_best],
    and the status becomes [BEST], with the retained record set to
    [SUBMITTED], exactly when the performance value of the submission
    strictly exceeds that of the row; on a tie or a lower value the
    status becomes [SUBMITTED] and the retained record stays [BEST].
    The status of the submission, the record it retains and the status
    of that record are read off the object returned. *)
Theorem calc_status_passed_resolution
    (w : World) (s : Score) (p : Player) (b : Beatmap) :
  passed s = true -> player s = Some p -> bmap s = Some b ->
  let table := sql_table (mode s) in
  let held := is_best_of (player_id p) (bmap_md5 b) (as_vanilla (mode s)) in
  let q := SelectBest (player_id p) (bmap_md5 b) (as_vanilla (mode s)) in
  ((forall k r, db w table !! k = Some r -> held r = false) ->
   calc_status s w = ([EvFetch table q], Ok (set_status BEST s))
   /\ exists s',
        calc_status s w = ([EvFetch table q], Ok s')
        /\ status s' = BEST /\ prev_best s' = prev_best s)
  /\ ((exists k r, db w table !! k = Some r /\ held r = true) ->
      exists k r,
        select_first held (db w table) = Some (k, r)
        /\ db w table !! k = Some r /\ held r = true
        /\ forall m,
             GameMode_from_params (row_mode r) (row_mods r) = Some m ->
             exists tr pb s',
               from_sql k table w = (tr, Ok (Some pb))
               /\ reconstructs k r w pb /\ status pb = BEST
               /\ calc_status s w = (EvFetch table q :: tr, Ok s')
               /\ (status s' = BEST <-> PyFloat.ltb (row_pp r) (pp s) = true)
               /\ (PyFloat.ltb (row_pp r) (pp s) = true ->
                   s' = set_prev_best (Some (set_status SUBMITTED pb))
                          (set_status BEST s)
                   /\ status s' = BEST
                   /\ exists pb',
                        prev_best s' = Some pb'
                        /\ status pb' = SUBMITTED
                        /\ id pb' = k
                        /\ set_status BEST pb' = pb)
               /\ (pp s = row_pp r \/ SFeqb (pp s) (row_pp r) = true
                   \/ PyFloat.ltb (pp s) (row_pp r) = true ->
                   s' = set_status SUBMITTED (set_prev_best (Some pb) s)
                   /\ status s' = SUBMITTED
                   /\ prev_best s' = Some pb
                   /\ id pb = k)).
Proof.
  intros Hpass Hp Hb table held q. split.
  - intros Hnone.
    assert (Hsel : select_first held (db w table) = None).
    { destruct (select_first held (db w table)) as [[k r]|] eqn:E;
        [|reflexivity].
      destruct (select_first_Some _ _ _ _ E) as [Hk HP].
      rewrite (Hnone k r Hk) in HP. discriminate HP. }
    assert (Hrun : calc_status s w
                   = ([EvFetch table q], Ok (set_status BEST s))).
    { unfold calc_status. rewrite Hpass, Hp, Hb. cbn [negb]. run_step.
      fold table held. rewrite Hsel. reflexivity. }
    split; [exact Hrun|]. eexists. split; [exact Hrun|].
    split; reflexivity.
  - intros (k0 & r0 & Hk0 & HP0).
    destruct (select_first held (db w table)) as [[k r]|] eqn:Hsel.
    2:{ rewrite (select_first_None _ _ Hsel k0 r0 Hk0) in HP0.
        discriminate HP0. }
    destruct (select_first_Some _ _ _ _ Hsel) as [Hk HP].
    exists k, r. split; [reflexivity|]. split; [exact Hk|].
    split; [exact HP|]. intros m Hm.
    destruct (calc_status_found w s p b k r m Hpass Hp Hb Hsel Hm)
      as (tr & pb & Hsql & Hrec & Hstat & Hrun).
    pose proof (proj1 Hrec) as Hid.
    exists tr, pb. eexists. split; [exact Hsql|]. split; [exact Hrec|].
    split; [exact Hstat|]. split; [exact Hrun|].
    split; [|split].
    + destruct (PyFloat.ltb (row_pp r) (pp s)); simpl; split; congruence.
    + intros Hlt. rewrite Hlt. split; [reflexivity|].
      split; [reflexivity|].
      exists (set_status SUBMITTED pb). split; [reflexivity|].
      split; [reflexivity|]. split; [exact Hid|].
      rewrite <- Hstat. destruct pb; reflexivity.
    + intros Hle.
      assert (Hlt : PyFloat.ltb (row_pp r) (pp s) = false).
      { destruct Hle as [Heq|[Heq|Hlow]].
        - rewrite Heq. apply ltb_irrefl.
        - apply eqb_not_ltb. exact Heq.
        - apply ltb_asym. exact Hlow. }
      rewrite Hlt. split; [reflexivity|]. split; [reflexivity|].
      split; [reflexivity|exact Hid].
Qed.

(** C10. Whenever [calc_status] finds a [BEST] row of the player on
    the map and mode, [prev_best] is set to the record [from_sql]
    reconstructs from it, promoted or not; when the submission is not
    promoted, the object differs from the one before in [status] and
    [prev_best] only, and the retained record is the reconstructed one
    in every field, [BEST] status included. *)
Theorem calc_status_retains_prev_best
    (w : World) (s : Score) (p : Player) (b : Beatmap)
    (k : Z) (r : Row) (m : GameMode) :
  passed s = true -> player s = Some p -> bmap s = Some b ->
  let table := sql_table (mode s) in
  let held := is_best_of (player_id p) (bmap_md5 b) (as_vanilla (mode s)) in
  let q := SelectBest (player_id p) (bmap_md5 b) (as_vanilla (mode s)) in
  select_first held (db w table) = Some (k, r) ->
  GameMode_from_params (row_mode r) (row_mods r) = Some m ->
  exists tr pb s',
    from_sql k table w = (tr, Ok (Some pb))
    /\ reconstructs k r w pb /\ status pb = BEST
    /\ calc_status s w = (EvFetch table q :: tr, Ok s')
    /\ (exists pb', prev_best s' = Some pb' /\ set_status BEST pb' = pb)
    /\ (PyFloat.ltb (row_pp r) (pp s) = false ->
        s' = set_status SUBMITTED (set_prev_best (Some pb) s)
        /\ status s' = SUBMITTED
        /\ prev_best s' = Some pb
        /\ set_prev_best (prev_best s) (set_status (status s) s') = s).
Proof.
  intros Hpass Hp Hb table held q Hsel Hm.
  destruct (calc_status_found w s p b k r m Hpass Hp Hb Hsel Hm)
    as (tr & pb & Hsql & Hrec & Hstat & Hrun).
  exists tr, pb. eexists. split; [exact Hsql|]. split; [exact Hrec|].
  split; [exact Hstat|]. split; [exact Hrun|].
  split.
  - destruct (PyFloat.ltb (row_pp r) (pp s)); simpl.
    + eexists. split; [reflexivity|].
      destruct pb; simpl in *. rewrite Hstat. reflexivity.
    + exists pb. split; [reflexivity|].
      destruct pb; simpl in *. rewrite Hstat. reflexivity.
  - intros Hlt. rewrite Hlt. repeat split.
    destruct s; reflexivity.
Qed.

(** ** The invariant: an unpassed play is [FAILED] *)

Lemma from_sql_inv (w : World) (table : string) (k : Z) tr (pb : Score) :
  from_sql k table w = (tr, Ok (Some pb)) ->
  exists r,
    db w table !! k = Some r
    /\ passed pb = negb (row_status r =? 0)
    /\ SubmissionStatus_of (row_status r) = Ok (status pb)
    /\ prev_best pb = None.
Proof.
  unfold from_sql. run_step.
  destruct (db w table !! k) as [r|]; [|discriminate].
  run_step.
  destruct (SubmissionStatus_of (row_status r)) as [st|e] eqn:Hst;
    [|discriminate].
  run_step.
  destruct (GameMode_from_params (row_mode r) (row_mods r)) as [m|];
    [|discriminate].
  run_step.
  destruct (beatmaps w (row_map_md5 r)) as [b|] eqn:Hb.
  - match goal with
    | |- context [calc_lb_placement ?s] =>
        rewrite (calc_lb_placement_run w s b eq_refl)
    end.
    simpl. intros H. inversion H; subst. exists r. simpl. auto.
  - simpl. intros H. inversion H; subst. exists r. simpl. auto.
Qed.

Lemma from_sql_unpassed_failed (w : World) (table : string) (k : Z) tr pb :
  from_sql k table w = (tr, Ok (Some pb)) -> unpassed_failed pb.
Proof.
  intros H. destruct (from_sql_inv _ _ _ _ _ H) as (r & _ & Hp & Hs & _).
  unfold unpassed_failed. rewrite Hp. intros Hz.
  apply negb_false_iff, Z.eqb_eq in Hz. rewrite Hz in Hs.
  simpl in Hs. congruence.
Qed.

Lemma calc_status_unpassed (w : World) (s : Score) :
  passed s = false -> calc_status s w = ([], Ok (set_status FAILED s)).
Proof. intros H. unfold calc_status. rewrite H. reflexivity. Qed.

Lemma calc_status_inv (w : World) (s : Score) tr (s' : Score) :
  calc_status s w = (tr, Ok s') ->
  (passed s' = passed s /\ bmap s' = bmap s)
  /\ unpassed_failed s'
  /\ (forall pb, prev_best s' = Some pb ->
        prev_best s = Some pb \/ unpassed_failed pb).
Proof.
  unfold calc_status, unpassed_failed.
  destruct (passed s) eqn:Hpass; cbn [negb].
  - destruct (player s) as [p|]; [|discriminate].
    destruct (bmap s) as [b|] eqn:Hb; [|discriminate].
    run_step.
    destruct (select_first _ _) as [[k r]|] eqn:Hsel.
    2:{ simpl. intros H. inversion H; subst. simpl.
        split; [split; [exact Hpass|simpl; congruence]|]. split; [congruence|]. auto. }
    destruct (select_first_Some _ _ _ _ Hsel) as [Hk HP].
    apply is_best_of_status in HP.
    run_step.
    destruct (from_sql k (sql_table (mode s)) w) as [t1 [pbo|e]] eqn:Hsql;
      [|discriminate].
    cbn [pp set_prev_best].
    destruct (PyFloat.ltb (row_pp r) (pp s)).
    + destruct pbo as [pb|]; [|discriminate].
      simpl. intros H. inversion H; subst. simpl.
      split; [split; [exact Hpass|simpl; congruence]|]. split; [congruence|].
      intros pb' Hpb'. inversion Hpb'; subst. right. simpl.
      destruct (from_sql_inv _ _ _ _ _ Hsql) as (r' & Hk' & Hp' & _).
      rewrite Hk in Hk'. inversion Hk'; subst r'.
      rewrite Hp', HP. discriminate.
    + simpl. intros H. inversion H; subst. simpl.
      split; [split; [exact Hpass|simpl; congruence]|]. split; [congruence|].
      intros pb' Hpb'. subst pbo. right.
      exact (from_sql_unpassed_failed _ _ _ _ _ Hsql).
  - run_step. intros H. inversion H; subst. simpl.
    split; [split; [exact Hpass|simpl; congruence]|]. split; [reflexivity|]. auto.
Qed.

Lemma calc_accuracy_frame (s s' : Score) :
  calc_accuracy s = Ok s' -> s' = set_acc (acc s') s.
Proof.
  unfold calc_accuracy, int_mul_float.
  assert (Hid : s = set_acc (acc s) s) by (destruct s; reflexivity).
  repeat match goal with
         | |- context [if ?c then _ else _] => destruct c
         | |- context [rbind ?r _] => destruct r; cbn [rbind]
         end;
    intros H; inversion H; subst; try reflexivity; exact Hid.
Qed.

Lemma from_submission_unpassed_failed
    (w : World) (data_enc iv osu_ver phash : str) tr (s' : Score) :
  from_submission data_enc iv osu_ver phash w = (tr, Ok (Some s')) ->
  unpassed_failed s'
  /\ (bmap s' = None -> status s' = if passed s' then SUBMITTED else FAILED)
  /\ forall pb, prev_best s' = Some pb -> unpassed_failed pb.
Proof.
  unfold from_submission.
  set (data := submission_fields data_enc iv osu_ver).
  destruct (Nat.eqb (length data) 18); cbn [negb]; [|discriminate].
  destruct (Nat.eqb (length (nth 0 data "")) 32); cbn [negb];
    [|discriminate].
  run_step.
  destruct (logins w (PyStr.rstrip (nth 1 data "")) phash) as [p|].
  2:{ simpl. intros H. inversion H; subst.
      split; [intros _; reflexivity|]. split; [reflexivity|discriminate]. }
  destruct (forallb PyStr.isdecimal (int_fields data)); cbn [negb];
    [|discriminate].
  run_step.
  destruct (ints _) as [counts|e]; [|discriminate]. run_step.
  destruct (PyStr.int (nth 13 data "")) as [mods_|e]; [|discriminate].
  run_step.
  destruct (PyStr.int (nth 15 data "")) as [mode_vn|e]; [|discriminate].
  run_step.
  destruct (GameMode_from_params _ _) as [m|]; [|discriminate].
  run_step.
  match goal with
  | |- context [calc_accuracy ?s0] =>
      set (s1 := s0); destruct (calc_accuracy s1) as [s2|e] eqn:Hacc
  end; [|discriminate].
  apply calc_accuracy_frame in Hacc.
  assert (Hp2 : passed s2 = passed s1) by (rewrite Hacc; reflexivity).
  assert (Hs2 : status s2 = FAILED) by (rewrite Hacc; reflexivity).
  assert (Hpb2 : prev_best s2 = None) by (rewrite Hacc; reflexivity).
  destruct (bmap s2) as [b|] eqn:Hb2.
  - destruct (calc_diff s2 w) as [t3 [d|e]]; [|discriminate].
    cbn beta iota.
    destruct (calc_status (set_pp (fst d) s2) w) as [t4 [s3|e]] eqn:Hst;
      [|discriminate].
    destruct (calc_status_inv _ _ _ _ Hst) as ([Hp3 Hb3] & Hinv3 & Hpb3).
    cbn beta iota.
    destruct (calc_lb_placement s3 w) as [t5 [rk|e]]; [|discriminate].
    simpl. intros H. inversion H; subst s'. split; [|split].
    + exact Hinv3.
    + simpl. rewrite Hb3. simpl. rewrite Hb2. discriminate.
    + intros pb Hpb. destruct (Hpb3 pb Hpb) as [Hold|Hnew]; [|exact Hnew].
      simpl in Hold. congruence.
  - simpl. intros H. inversion H; subst s'. split; [|split].
    + unfold unpassed_failed. simpl. intros Hf. rewrite Hf. reflexivity.
    + reflexivity.
    + simpl. congruence.
Qed.

(** C6. A score object whose play did not pass is [FAILED]:
    [calc_status] assigns [FAILED] to an unpassed play without any
    access to the store; every object [calc_status], [from_submission]
    (with or without a resolved map) or [from_sql] returns satisfies
    the invariant, as does the record it retains as [prev_best]; and
    [from_sql] derives [passed] as [status != 0]. *)
Theorem unpassed_play_is_failed (w : World) :
  unpassed_failed new_score
  /\ (forall s, passed s = false ->
        calc_status s w = ([], Ok (set_status FAILED s)))
  /\ (forall s tr s', calc_status s w = (tr, Ok s') -> unpassed_failed s')
  /\ (forall data_enc iv osu_ver phash tr s',
        from_submission data_enc iv osu_ver phash w = (tr, Ok (Some s')) ->
        unpassed_failed s'
        /\ (bmap s' = None ->
            status s' = if passed s' then SUBMITTED else FAILED)
        /\ forall pb, prev_best s' = Some pb -> unpassed_failed pb)
  /\ (forall scoreid table tr s',
        from_sql scoreid table w = (tr, Ok (Some s')) ->
        unpassed_failed s'
        /\ passed s' = negb (SubmissionStatus_value (status s') =? 0)).
Proof.
  split; [intros _; reflexivity|]. split; [|split; [|split]].
  - intros s. apply calc_status_unpassed.
  - intros s tr s' H. exact (proj1 (proj2 (calc_status_inv _ _ _ _ H))).
  - intros data_enc iv osu_ver phash tr s' H.
    exact (from_submission_unpassed_failed _ _ _ _ _ _ _ H).
  - intros scoreid table tr s' H. split.
    + exact (from_sql_unpassed_failed _ _ _ _ _ H).
    + destruct (from_sql_inv _ _ _ _ _ H) as (r & _ & Hp & Hs & _).
      rewrite Hp. rewrite (SubmissionStatus_of_value _ _ Hs). reflexivity.
Qed.

End Status.

(** ** Accuracy *)

Lemma float_of_int_small (n : Z) :
  0 <= n < 2 ^ 53 -> float_of_int n = Ok (PyFloat.of_Z n).
Proof.
  intros Hn. unfold float_of_int.
  destruct (Z.eq_dec n 0) as [->|Hn0]; [reflexivity|].
  rewrite (of_Z_small n) by lia. reflexivity.
Qed.

Lemma int_mul_float_small (n c : Z) :
  0 <= n < 2 ^ 53 -> 0 <= c < 2 ^ 53 -> n * c < 2 ^ 53 ->
  int_mul_float n (PyFloat.lit c) = Ok (PyFloat.of_Z (n * c)).
Proof.
  intros Hn Hc Hnc. unfold int_mul_float.
  rewrite (float_of_int_small n Hn). cbn [rbind].
  unfold PyFloat.lit. rewrite (mul_of_Z n c Hn Hc Hnc). reflexivity.
Qed.

Lemma zero_is_percentage : is_percentage PyFloat.zero.
Proof. split; vm_compute; reflexivity. Qed.

Lemma lit_100 : PyFloat.lit 100 = S754_finite false 7036874417766400 (-46).
Proof. vm_compute; reflexivity. Qed.

Lemma leb_finite (m M : positive) (e E : Z) :
  e < E \/ (e = E /\ Zpos m <= Zpos M) ->
  PyFloat.leb (S754_finite false m e) (S754_finite false M E) = true.
Proof.
  intros H. unfold PyFloat.leb, SFleb, SFcompare.
  destruct H as [H|[-> H]].
  - apply Z.compare_lt_iff in H. rewrite H. reflexivity.
  - rewrite Z.compare_refl.
    change (PosDef.Pos.compare_cont Eq m M) with (Pos.compare m M).
    assert (H' : (m <= M)%positive) by lia.
    apply Pos.compare_le_iff in H'.
    destruct (Pos.compare m M); try reflexivity.
    exfalso. apply H'. reflexivity.
Qed.

Lemma at_most_100_is_percentage (x : float) :
  at_most_100 x -> is_percentage x.
Proof.
  intros (m & e & -> & H). split; [reflexivity|].
  rewrite lit_100. apply leb_finite.
  destruct H as [H|[H1 H2]]; [left; exact H|right; split; [exact H1|]].
  exact H2.
Qed.

(** The accuracy of [s] hits of weight [300] at most among [t] notes. *)
Lemma ratio_is_percentage (S T : Z) :
  0 <= S -> 0 < T -> S <= 300 * T -> 30000 * T < 2 ^ 53 ->
  is_percentage
    (PyFloat.div (PyFloat.mul (PyFloat.lit 100) (PyFloat.of_Z S))
                 (PyFloat.of_Z (T * 300))).
Proof.
  intros HS HT HST Hbound.
  change (2 ^ 53) with 9007199254740992 in *.
  unfold PyFloat.lit.
  rewrite (mul_of_Z 100 S)
    by (change (2 ^ 53) with 9007199254740992; lia).
  destruct (Z.eq_dec S 0) as [->|HS0].
  - rewrite Z.mul_0_r, of_Z_0.
    rewrite (of_Z_small (T * 300))
      by (change (2 ^ 53) with 9007199254740992; lia).
    exact zero_is_percentage.
  - apply at_most_100_is_percentage, div_of_Z_le_100;
      change (2 ^ 53) with 9007199254740992; lia.
Qed.

Lemma float_of_int_Ok (n : Z) (y : float) :
  float_of_int n = Ok y ->
  y = PyFloat.of_Z n /\ forall sg, y <> S754_infinity sg.
Proof.
  unfold float_of_int.
  destruct (PyFloat.of_Z n) as [sg|sg| |sg m e]; intros H;
    inversion H; subst; split; try reflexivity; intros sg'; discriminate.
Qed.

(** [0 + n * c] is [n * c]: the product is never a negative zero. *)
Lemma add_zero_int_mul (n c : Z) (y : float) :
  0 < c < 2 ^ 53 ->
  float_of_int n = Ok y ->
  PyFloat.add (PyFloat.of_Z 0) (PyFloat.mul y (PyFloat.lit c))
  = PyFloat.mul y (PyFloat.lit c).
Proof.
  intros Hc Hy. apply add_zero_l.
  destruct (float_of_int_Ok n y Hy) as [-> Hinf].
  destruct (mul_of_Z_not_neg_zero n c Hc) as [[sg H]|H].
  - exfalso. exact (Hinf sg H).
  - exact H.
Qed.

Section Accuracy.

Context {I : Imports}.

(** C2, as amended. In the standard mode (vanilla identifier 0)
    [calc_accuracy] sets the accuracy to [100 x (50 n50 + 100 n100 +
    300 n300) / (300 x (n300 + n100 + n50 + nmiss))], in the
    alternate-timing mode (vanilla identifier 1) to [100 x (150 n100 +
    300 n300) / (300 x (n300 + n100 + nmiss))], both evaluated on
    doubles, and to exactly [0.0] when the total of the mode is zero,
    whenever the counts and the total convert to doubles: the accuracy
    of the object returned is the value of the formula, and the call
    raises exactly when the formula has no value, a count or the total
    being too large for a double.  Non-negative counts with a total
    below [2 ^ 53] always convert. *)
Theorem calc_accuracy_formula (s : Score) :
  (as_vanilla (mode s) = 0 ->
   calc_accuracy s =
     let+ a := accuracy_std (n300 s) (n100 s) (n50 s) (nmiss s) in
     Ok (set_acc a s))
  /\ (as_vanilla (mode s) = 1 ->
      calc_accuracy s =
        let+ a := accuracy_taiko (n300 s) (n100 s) (nmiss s) in
        Ok (set_acc a s))
  /\ (forall a b c d : Z,
        a + b + c + d = 0 -> accuracy_std a b c d = Ok PyFloat.zero)
  /\ (forall a b d : Z,
        a + b + d = 0 -> accuracy_taiko a b d = Ok PyFloat.zero)
  /\ (as_vanilla (mode s) = 0 ->
      (forall s', calc_accuracy s = Ok s' ->
         accuracy_std (n300 s) (n100 s) (n50 s) (nmiss s) = Ok (acc s')
         /\ (judged_total s = 0 -> acc s' = PyFloat.zero))
      /\ (forall e, calc_accuracy s = Raise e <->
            accuracy_std (n300 s) (n100 s) (n50 s) (nmiss s) = Raise e))
  /\ (as_vanilla (mode s) = 1 ->
      (forall s', calc_accuracy s = Ok s' ->
         accuracy_taiko (n300 s) (n100 s) (nmiss s) = Ok (acc s')
         /\ (judged_total s = 0 -> acc s' = PyFloat.zero))
      /\ (forall e, calc_accuracy s = Raise e <->
            accuracy_taiko (n300 s) (n100 s) (nmiss s) = Raise e))
  /\ (as_vanilla (mode s) = 0 \/ as_vanilla (mode s) = 1 ->
      0 <= n300 s -> 0 <= n100 s -> 0 <= n50 s -> 0 <= nmiss s ->
      judged_total s < 2 ^ 53 ->
      exists s', calc_accuracy s = Ok s').
Proof.
  assert (H2p : 9007199254740992 = 2 ^ 53) by reflexivity.
  assert (Hstd : as_vanilla (mode s) = 0 ->
            calc_accuracy s =
              let+ a := accuracy_std (n300 s) (n100 s) (n50 s) (nmiss s) in
              Ok (set_acc a s)).
  { intros Hm. unfold calc_accuracy, accuracy_std. rewrite Hm. cbn [Z.eqb].
    destruct (n300 s + n100 s + n50 s + nmiss s =? 0); [reflexivity|].
    unfold int_mul_float.
    destruct (float_of_int (n50 s)) as [y50|e] eqn:E50; [|reflexivity].
    destruct (float_of_int (n100 s)) as [y100|e] eqn:E100; [|reflexivity].
    destruct (float_of_int (n300 s)) as [y300|e] eqn:E300; [|reflexivity].
    destruct (float_of_int (n300 s + n100 s + n50 s + nmiss s))
      as [yt|e] eqn:Et; [|reflexivity].
    cbn [rbind]. unfold sum_floats. cbn [fold_left].
    rewrite (add_zero_int_mul (n50 s) 50 y50) by (rewrite <- ?H2p; lia || exact E50).
    rewrite (mul_comm y50), (mul_comm y100), (mul_comm y300), (mul_comm yt).
    reflexivity. }
  assert (Htaiko : as_vanilla (mode s) = 1 ->
            calc_accuracy s =
              let+ a := accuracy_taiko (n300 s) (n100 s) (nmiss s) in
              Ok (set_acc a s)).
  { intros Hm. unfold calc_accuracy, accuracy_taiko. rewrite Hm. cbn [Z.eqb].
    destruct (n300 s + n100 s + nmiss s =? 0); [reflexivity|].
    unfold int_mul_float.
    destruct (float_of_int (n100 s)) as [y100|e] eqn:E100; [|reflexivity].
    destruct (float_of_int (n300 s)) as [y300|e] eqn:E300; [|reflexivity].
    destruct (float_of_int (n300 s + n100 s + nmiss s))
      as [yt|e] eqn:Et; [|reflexivity].
    cbn [rbind]. unfold sum_floats. cbn [fold_left].
    rewrite (add_zero_int_mul (n100 s) 150 y100) by (rewrite <- ?H2p; lia || exact E100).
    rewrite (mul_comm y100), (mul_comm y300), (mul_comm yt).
    reflexivity. }
  assert (Hz_std : forall a b c d : Z,
            a + b + c + d = 0 -> accuracy_std a b c d = Ok PyFloat.zero).
  { intros a b c d H. unfold accuracy_std. rewrite H. reflexivity. }
  assert (Hz_taiko : forall a b d : Z,
            a + b + d = 0 -> accuracy_taiko a b d = Ok PyFloat.zero).
  { intros a b d H. unfold accuracy_taiko. rewrite H. reflexivity. }
  split; [exact Hstd|]. split; [exact Htaiko|].
  split; [exact Hz_std|]. split; [exact Hz_taiko|].
  split; [|split].
  - intros Hm. rewrite (Hstd Hm). split.
    + intros s'.
      destruct (accuracy_std (n300 s) (n100 s) (n50 s) (nmiss s))
        as [a|e] eqn:Ha; cbn [rbind]; [|discriminate].
      intros H. injection H as <-. split; [reflexivity|].
      unfold judged_total. rewrite Hm. cbn [Z.eqb]. intros Ht.
      rewrite (Hz_std _ _ _ _ Ht) in Ha. injection Ha as <-. reflexivity.
    + intros e.
      destruct (accuracy_std (n300 s) (n100 s) (n50 s) (nmiss s))
        as [a|e']; cbn [rbind]; split; intros H; try discriminate H;
        injection H as <-; reflexivity.
  - intros Hm. rewrite (Htaiko Hm). split.
    + intros s'.
      destruct (accuracy_taiko (n300 s) (n100 s) (nmiss s))
        as [a|e] eqn:Ha; cbn [rbind]; [|discriminate].
      intros H. injection H as <-. split; [reflexivity|].
      unfold judged_total. rewrite Hm. cbn [Z.eqb]. intros Ht.
      rewrite (Hz_taiko _ _ _ Ht) in Ha. injection Ha as <-. reflexivity.
    + intros e.
      destruct (accuracy_taiko (n300 s) (n100 s) (nmiss s))
        as [a|e']; cbn [rbind]; split; intros H; try discriminate H;
        injection H as <-; reflexivity.
  - intros Hmode H300 H100 H50 Hmiss Hbound.
    change (2 ^ 53) with 9007199254740992 in Hbound.
    unfold judged_total in Hbound. unfold calc_accuracy, int_mul_float.
    destruct Hmode as [Hm|Hm]; rewrite Hm in *; cbn [Z.eqb] in *.
    + destruct (n300 s + n100 s + n50 s + nmiss s =? 0);
        [eexists; reflexivity|].
      rewrite !float_of_int_small
        by (change (2 ^ 53) with 9007199254740992; lia).
      cbn [rbind]. eexists. reflexivity.
    + destruct (n300 s + n100 s + nmiss s =? 0); [eexists; reflexivity|].
      rewrite !float_of_int_small
        by (change (2 ^ 53) with 9007199254740992; lia).
      cbn [rbind]. eexists. reflexivity.
Qed.

(** C8, as amended. For non-negative hit counts whose total of judged
    notes, times 30000, stays below [2 ^ 53] (every intermediate value
    of the formula is then an integer a double holds exactly), the
    accuracy [calc_accuracy] computes in the standard or the
    alternate-timing mode lies in [[0.0, 100.0]], and an all-zero tuple
    yields [0.0]. *)
Theorem calc_accuracy_percentage (s : Score) :
  as_vanilla (mode s) = 0 \/ as_vanilla (mode s) = 1 ->
  0 <= n300 s -> 0 <= n100 s -> 0 <= n50 s -> 0 <= nmiss s ->
  30000 * judged_total s < 2 ^ 53 ->
  exists s',
    calc_accuracy s = Ok s'
    /\ s' = set_acc (acc s') s
    /\ is_percentage (acc s')
    /\ (n300 s = 0 -> n100 s = 0 -> n50 s = 0 -> nmiss s = 0 ->
        acc s' = PyFloat.zero).
Proof.
  intros Hmode H300 H100 H50 Hmiss Hbound.
  change (2 ^ 53) with 9007199254740992 in Hbound.
  unfold judged_total in Hbound.
  unfold calc_accuracy.
  destruct Hmode as [Hm|Hm]; rewrite Hm in *; cbn [Z.eqb] in *.
  - destruct (Z.eqb_spec (n300 s + n100 s + n50 s + nmiss s) 0) as [Ht|Ht].
    + eexists. split; [reflexivity|]. split; [reflexivity|].
      split; [exact zero_is_percentage|]. reflexivity.
    + rewrite !int_mul_float_small
        by (change (2 ^ 53) with 9007199254740992; lia).
      cbn [rbind]. eexists. split; [reflexivity|]. split; [reflexivity|].
      cbn [acc set_acc]. split; [|lia].
      unfold sum_floats. cbn [fold_left].
      rewrite !add_of_Z by (change (2 ^ 53) with 9007199254740992; lia).
      apply ratio_is_percentage;
        change (2 ^ 53) with 9007199254740992; lia.
  - destruct (Z.eqb_spec (n300 s + n100 s + nmiss s) 0) as [Ht|Ht].
    + eexists. split; [reflexivity|]. split; [reflexivity|].
      split; [exact zero_is_percentage|]. reflexivity.
    + rewrite !int_mul_float_small
        by (change (2 ^ 53) with 9007199254740992; lia).
      cbn [rbind]. eexists. split; [reflexivity|]. split; [reflexivity|].
      cbn [acc set_acc]. split; [|lia].
      unfold sum_floats. cbn [fold_left].
      rewrite !add_of_Z by (change (2 ^ 53) with 9007199254740992; lia).
      apply ratio_is_percentage;
        change (2 ^ 53) with 9007199254740992; lia.
Qed.

(** The modes with vanilla identifiers 2 and 3: nothing is computed
    and nothing is signalled. *)
Lemma calc_accuracy_unsupported (s : Score) :
  as_vanilla (mode s) = 2 \/ as_vanilla (mode s) = 3 ->
  calc_accuracy s = Ok s.
Proof.
  intros [H|H]; unfold calc_accuracy; rewrite H; reflexivity.
Qed.

End Accuracy.

(** * Examples

    The properties at the concrete world of [Demo], and the inputs on
    which two statements of the specification fail. *)

Section Examples.

Import Demo.

(** C7. In the catch-style and the simultaneous-lane mode (vanilla
    identifiers 2 and 3) [calc_accuracy] returns normally and leaves
    the object as it was, its accuracy still [0.0]: the [NotImplemented]
    of the source is an expression, nothing is raised or flagged. *)
Theorem calc_accuracy_unsupported_silent :
  calc_accuracy (tally VnCatch 300 0 0 0) = Ok (tally VnCatch 300 0 0 0)
  /\ calc_accuracy (tally VnMania 300 0 0 0) = Ok (tally VnMania 300 0 0 0)
  /\ acc (tally VnCatch 300 0 0 0) = PyFloat.zero
  /\ acc (tally VnMania 300 0 0 0) = PyFloat.zero.
Proof.
  split; [apply calc_accuracy_unsupported; left; reflexivity|].
  split; [apply calc_accuracy_unsupported; right; reflexivity|].
  split; reflexivity.
Qed.

(** C8 fails as stated: 7000000000001 hits of 300 and nothing else
    give, in either mode, the double next above 100. *)
Lemma calc_accuracy_above_100 :
  (exists s',
     calc_accuracy (tally VnStd 7000000000001 0 0 0) = Ok s'
     /\ acc s' = S754_finite false 7036874417766401 (-46)
     /\ PyFloat.ltb (PyFloat.lit 100) (acc s') = true
     /\ PyFloat.leb (acc s') (PyFloat.lit 100) = false)
  /\ ~ (forall s : Score,
          as_vanilla (mode s) = 0 \/ as_vanilla (mode s) = 1 ->
          0 <= n300 s -> 0 <= n100 s -> 0 <= n50 s -> 0 <= nmiss s ->
          forall s', calc_accuracy s = Ok s' -> is_percentage (acc s')).
Proof.
  split.
  - eexists. split; [vm_compute; reflexivity|].
    split; [reflexivity|]. split; vm_compute; reflexivity.
  - intros H.
    assert (Hs : is_percentage (S754_finite false 7036874417766401 (-46))).
    { refine (H (tally VnStd 7000000000001 0 0 0) _ _ _ _ _
                (set_acc (S754_finite false 7036874417766401 (-46))
                   (tally VnStd 7000000000001 0 0 0)) _);
        try (vm_compute; congruence).
      left. reflexivity. }
    destruct Hs as [_ Hs]. vm_compute in Hs. discriminate Hs.
Qed.

Lemma calc_accuracy_percentage_witness :
  exists s',
    calc_accuracy (tally VnStd 250 40 5 5) = Ok s'
    /\ is_percentage (acc s').
Proof.
  destruct (calc_accuracy_percentage (tally VnStd 250 40 5 5))
    as (s' & Hrun & _ & Hp & _).
  - left. reflexivity.
  - simpl; lia.
  - simpl; lia.
  - simpl; lia.
  - simpl; lia.
  - vm_compute; reflexivity.
  - exists s'. split; [exact Hrun|exact Hp].
Defined.

Lemma calc_accuracy_formula_witness :
  calc_accuracy (tally VnTaiko 250 40 5 5)
  = (let+ a := accuracy_taiko 250 40 5 in
     Ok (set_acc a (tally VnTaiko 250 40 5 5)))
  /\ exists s',
       calc_accuracy (tally VnTaiko 250 40 5 5) = Ok s'
       /\ accuracy_taiko 250 40 5 = Ok (acc s').
Proof.
  pose proof (calc_accuracy_formula (tally VnTaiko 250 40 5 5))
    as (_ & Hrun & _ & _ & _ & Hacc & Hex).
  split; [exact (Hrun eq_refl)|].
  destruct Hex as [s' Hs'].
  - right. reflexivity.
  - simpl; lia.
  - simpl; lia.
  - simpl; lia.
  - simpl; lia.
  - vm_compute; reflexivity.
  - exists s'. split; [exact Hs'|].
    exact (proj1 (proj1 (Hacc eq_refl) s' Hs')).
Defined.

(** C2 fails as stated: with [2 ^ 1024] hits of 300 the formula has
    the value 100, but the conversion of the count to a double fails:
    [calc_accuracy] raises [OverflowError] and sets no accuracy. *)
Lemma calc_accuracy_formula_overflow :
  calc_accuracy (tally VnStd (2 ^ 1024) 0 0 0) = Raise OverflowError
  /\ ~ (forall s : Score,
          as_vanilla (mode s) = 0 ->
          exists s',
            calc_accuracy s = Ok s'
            /\ accuracy_std (n300 s) (n100 s) (n50 s) (nmiss s)
               = Ok (acc s')).
Proof.
  assert (Hrun : calc_accuracy (tally VnStd (2 ^ 1024) 0 0 0)
                 = Raise OverflowError) by (vm_compute; reflexivity).
  split; [exact Hrun|].
  intros H. destruct (H (tally VnStd (2 ^ 1024) 0 0 0) eq_refl)
    as (s' & Hs' & _).
  rewrite Hrun in Hs'. discriminate Hs'.
Qed.

(** C3 fails as stated: a plaintext of 18 fields with letters in
    field 3, sent by a player who is not logged in, yields a score
    object with an unset player, and nothing is logged; one with a
    checksum of 4 characters yields [None], and nothing is logged. *)
Lemma from_submission_letters_unresolved :
  (let data := submission_fields sub_stranger_letters "" "" in
   length data = 18%nat
   /\ PyStr.isdecimal (nth 3 data "") = false
   /\ from_submission sub_stranger_letters "" "" "" world
      = ([EvMapFromMd5 md5_a; EvGetLogin "bob" ""],
         Ok (Some (set_player None (set_bmap (Some map_a) new_score)))))
  /\ (let data := submission_fields sub_short_md5_letters "" "" in
      length data = 18%nat
      /\ PyStr.isdecimal (nth 3 data "") = false
      /\ from_submission sub_short_md5_letters "" "" "" world
         = ([], Ok None))
  /\ ~ (forall (w : World) (data_enc iv osu_ver phash : str) (i : nat),
          length (submission_fields data_enc iv osu_ver) = 18%nat ->
          In i int_positions ->
          PyStr.isdecimal (nth i (submission_fields data_enc iv osu_ver) "")
          = false ->
          snd (from_submission data_enc iv osu_ver phash w) = Ok None).
Proof.
  split; [|split].
  - repeat split; vm_compute; reflexivity.
  - repeat split; vm_compute; reflexivity.
  - intros H.
    specialize (H world sub_stranger_letters "" "" "" 3%nat).
    assert (Hn : snd (from_submission sub_stranger_letters "" "" "" world)
                 = Ok None).
    { apply H; [reflexivity|simpl; auto|reflexivity]. }
    vm_compute in Hn. discriminate Hn.
Qed.

Lemma from_submission_malformed_witness :
  from_submission sub_17 "" "" "" world
  = ([EvLog "Received an invalid score submission."], Ok None)
  /\ from_submission sub_letters "" "" "" world
     = ([EvMapFromMd5 md5_a; EvGetLogin "alice" "";
         EvLog "Invalid parameter passed into submit-modular."],
        Ok None).
Proof.
  split.
  - apply (proj1 (from_submission_malformed world sub_17 "" "" "")).
    vm_compute. discriminate.
  - vm_cast_no_check
      (proj2 (from_submission_malformed world sub_letters "" "" "")
         3%nat alice eq_refl eq_refl eq_refl
         (or_introl eq_refl) eq_refl).
Defined.

Lemma from_submission_player_unresolved_witness :
  exists s : Score,
    from_submission sub_stranger "" "" "" world
    = ([EvMapFromMd5 md5_a; EvGetLogin "bob" ""], Ok (Some s))
    /\ player s = None.
Proof.
  destruct (from_submission_player_unresolved world sub_stranger "" "" "")
    as (s & Hrun & Hp & _).
  - split; [reflexivity|]. split; [reflexivity|].
    intros i Hi. simpl in Hi.
    repeat (destruct Hi as [<-|Hi]; [reflexivity|]). destruct Hi.
  - reflexivity.
  - exists s. split; [exact Hrun|exact Hp].
Defined.

Lemma from_submission_bad_checksum_witness :
  from_submission sub_short_md5 "" "" "" world = ([], Ok None).
Proof.
  apply (from_submission_bad_checksum world sub_short_md5 "" "" "").
  - reflexivity.
  - vm_compute. discriminate.
Defined.

Lemma calc_lb_placement_rank_witness :
  exists tr,
    calc_lb_placement (play VnStd 220 true) world = (tr, Ok (1 + 1)).
Proof.
  destruct (proj1 (calc_lb_placement_rank world (play VnStd 220 true) map_a
                     eq_refl))
    as (tr & n & Hrun & Hn & _).
  exists tr. rewrite Hrun. subst n. vm_compute. reflexivity.
Defined.

Lemma calc_status_passed_resolution_witness :
  calc_status (play RxStd 220 true) world
  = ([EvFetch "scores_rx" (SelectBest 3 md5_a 0)],
     Ok (set_status BEST (play RxStd 220 true)))
  /\ exists tr s',
       calc_status (play VnStd 220 true) world = (tr, Ok s')
       /\ status s' = BEST.
Proof.
  split.
  - apply (proj1 (calc_status_passed_resolution world (play RxStd 220 true)
                    alice map_a eq_refl eq_refl eq_refl)).
    intros k r Hk. vm_compute in Hk. discriminate Hk.
  - destruct (proj2 (calc_status_passed_resolution world
                       (play VnStd 220 true) alice map_a
                       eq_refl eq_refl eq_refl))
      as (k & r & Hsel & _ & _ & H).
    { exists 11, (row 3 200 500000 2). split; vm_compute; reflexivity. }
    vm_compute in Hsel. inversion Hsel; subst k r.
    destruct (H VnStd eq_refl) as (tr & pb & s' & _ & _ & _ & Hrun & Hb & _).
    exists (EvFetch "scores_vn" (SelectBest 3 md5_a 0) :: tr), s'.
    split; [exact Hrun|]. apply Hb. vm_compute. reflexivity.
Defined.

Lemma calc_status_retains_prev_best_witness :
  exists tr s' pb,
    calc_status (play VnStd 200 true) world = (tr, Ok s')
    /\ status s' = SUBMITTED
    /\ prev_best s' = Some pb /\ status pb = BEST /\ id pb = 11.
Proof.
  destruct (calc_status_retains_prev_best world (play VnStd 200 true)
              alice map_a 11 (row 3 200 500000 2) VnStd
              eq_refl eq_refl eq_refl)
    as (tr & pb & s' & _ & Hrec & Hst & Hrun & _ & Hno);
    try (vm_compute; reflexivity).
  destruct Hno as (_ & Hs & Hpb & _); [vm_compute; reflexivity|].
  exists (EvFetch "scores_vn" (SelectBest 3 md5_a 0) :: tr), s', pb.
  split; [exact Hrun|]. split; [exact Hs|]. split; [exact Hpb|].
  split; [exact Hst|]. exact (proj1 Hrec).
Defined.

Lemma unpassed_play_is_failed_witness :
  calc_status (play VnStd 220 false) world
  = ([], Ok (set_status FAILED (play VnStd 220 false)))
  /\ forall tr s',
       from_submission sub_ok "" "" "" world = (tr, Ok (Some s')) ->
       unpassed_failed s'.
Proof.
  split.
  - apply (proj1 (proj2 (unpassed_play_is_failed world))). reflexivity.
  - intros tr s' H.
    exact (proj1 (proj1 (proj2 (proj2 (proj2 (unpassed_play_is_failed world))))
                    sub_ok "" "" "" tr s' H)).
Defined.

End Examples.

(** * Further properties *)

(** ** The order of doubles *)

Lemma SFcompare_key (x y : spec_float) :
  match SFcompare x y with
  | Some Lt => key_lt x y
  | Some Eq => order_key x = order_key y /\ order_key x <> None
  | Some Gt => key_lt y x
  | None => order_key x = None \/ order_key y = None
  end.
Proof.
  destruct x as [sx|[|]| |[|] mx ex], y as [sy|[|]| |[|] my ey];
    unfold key_lt; simpl; auto; try lia; try (split; [reflexivity|discriminate]).
  - destruct (Z.compare_spec ex ey) as [->|H|H]; try lia.
    change (PosDef.Pos.compare_cont Eq mx my) with (Pos.compare mx my).
    destruct (Pos.compare_spec mx my) as [->|H|H]; simpl; try lia.
    split; [reflexivity|discriminate].
  - destruct (Z.compare_spec ex ey) as [->|H|H]; try lia.
    change (PosDef.Pos.compare_cont Eq mx my) with (Pos.compare mx my).
    destruct (Pos.compare_spec mx my) as [->|H|H]; simpl; try lia.
    split; [reflexivity|discriminate].
Qed.

Lemma lex_lt_irrefl (a : Z * Z * Z) : ~ lex_lt a a.
Proof. destruct a as [[a1 a2] a3]. simpl. lia. Qed.

Lemma lex_lt_asym (a b : Z * Z * Z) : lex_lt a b -> ~ lex_lt b a.
Proof. destruct a as [[a1 a2] a3], b as [[b1 b2] b3]. simpl. lia. Qed.

Lemma lex_lt_trans (a b c : Z * Z * Z) : lex_lt a b -> lex_lt b c -> lex_lt a c.
Proof.
  destruct a as [[a1 a2] a3], b as [[b1 b2] b3], c as [[c1 c2] c3]. simpl. lia.
Qed.

Lemma ltb_key (x y : spec_float) : PyFloat.ltb x y = true <-> key_lt x y.
Proof.
  unfold PyFloat.ltb, SFltb. pose proof (SFcompare_key x y) as H.
  unfold key_lt in *.
  destruct (SFcompare x y) as [[| |]|]; split; intros H'; try discriminate;
    try reflexivity; try exact H; exfalso;
    destruct (order_key x) as [a|], (order_key y) as [b|]; try tauto.
  - destruct H as [H _]. inversion H; subst. exact (lex_lt_irrefl _ H').
  - exact (lex_lt_asym _ _ H H').
  - destruct H; discriminate.
Qed.

Lemma leb_key (x y : spec_float) : PyFloat.leb x y = true <-> key_le x y.
Proof.
  unfold PyFloat.leb, SFleb. pose proof (SFcompare_key x y) as H.
  unfold key_le, key_lt in *.
  destruct (SFcompare x y) as [[| |]|].
  - destruct H as [H Hn]. rewrite <- H.
    destruct (order_key x) as [a|]; [|congruence]. split; auto.
  - destruct (order_key x) as [a|], (order_key y) as [b|]; try tauto.
  - destruct (order_key x) as [a|], (order_key y) as [b|]; try tauto.
    split; [discriminate|]. intros [H'|H']; exfalso.
    + exact (lex_lt_asym _ _ H H').
    + subst. exact (lex_lt_irrefl _ H).
  - split; [discriminate|]. destruct H as [H|H]; rewrite H; [tauto|].
    destruct (order_key x); tauto.
Qed.

Lemma leb_ltb_trans (x y z : spec_float) :
  PyFloat.leb x y = true -> PyFloat.ltb y z = true -> PyFloat.ltb x z = true.
Proof.
  rewrite leb_key, !ltb_key. unfold key_le, key_lt.
  destruct (order_key x) as [a|], (order_key y) as [b|],
    (order_key z) as [c|]; try tauto.
  intros [H|H] H'; [exact (lex_lt_trans _ _ _ H H')|]. subst. exact H'.
Qed.

(** ** Bounds and monotonicity of the placement *)

Section Placement.

Context {I : Imports}.

Lemma filter_length_mono {A} (P Q : A -> bool) (l : list A) :
  (forall a, P a = true -> Q a = true) ->
  (length (List.filter P l) <= length (List.filter Q l))%nat.
Proof.
  intros H. induction l as [|a l IH]; simpl; [lia|].
  destruct (P a) eqn:HP.
  - rewrite (H a HP). simpl. lia.
  - destruct (Q a); simpl; lia.
Qed.

Lemma select_count_mono (P Q : Row -> bool) (t : gmap Z Row) :
  (forall r, P r = true -> Q r = true) ->
  select_count P t <= select_count Q t.
Proof.
  intros H. unfold select_count. apply inj_le.
  apply filter_length_mono. intros [k r]. apply H.
Qed.

Lemma select_count_bounds (P : Row -> bool) (t : gmap Z Row) :
  0 <= select_count P t <= Z.of_nat (size t).
Proof.
  unfold select_count. split; [lia|]. apply inj_le.
  rewrite <- (length_map_to_list t). apply List.filter_length_le.
Qed.

Lemma select_count_0 (P : Row -> bool) (t : gmap Z Row) :
  select_count P t = 0 <-> forall k r, t !! k = Some r -> P r = false.
Proof.
  unfold select_count. split.
  - intros H k r Hk. destruct (P r) eqn:HP; [|reflexivity]. exfalso.
    assert (Hin : In (k, r) (List.filter (fun kr => P (snd kr)) (map_to_list t))).
    { apply List.filter_In. split; [|exact HP].
      apply list_elem_of_In, elem_of_map_to_list. exact Hk. }
    destruct (List.filter _ _); [inversion Hin|simpl in H; lia].
  - intros H.
    assert (Hnil : List.filter (fun kr => P (snd kr)) (map_to_list t) = []).
    { destruct (List.filter _ _) as [|[k r] l] eqn:Hf; [reflexivity|].
      assert (Hin : In (k, r) (List.filter (fun kr => P (snd kr)) (map_to_list t)))
        by (rewrite Hf; left; reflexivity).
      apply List.filter_In in Hin. destruct Hin as [Hin HP].
      apply list_elem_of_In, elem_of_map_to_list in Hin.
      simpl in HP. rewrite (H k r Hin) in HP. discriminate. }
    rewrite Hnil. reflexivity.
Qed.

(** X1. [calc_lb_placement] on a score with a resolved beatmap returns
    a rank between 1 and one more than the number of rows of the
    table, and the rank is 1 exactly when no row of the table
    outranks the score. *)
Theorem calc_lb_placement_bounds (w : World) (s : Score) (b : Beatmap) :
  bmap s = Some b ->
  exists tr rk,
    calc_lb_placement s w = (tr, Ok rk)
    /\ 1 <= rk <= 1 + Z.of_nat (size (db w (sql_table (mode s))))
    /\ (rk = 1 <->
        forall k r, db w (sql_table (mode s)) !! k = Some r ->
                    outranks s b r = false).
Proof.
  intros Hb. rewrite (calc_lb_placement_run w s b Hb).
  eexists _, _. split; [reflexivity|].
  pose proof (select_count_bounds (outranks s b) (db w (sql_table (mode s)))).
  split; [lia|]. rewrite <- select_count_0. lia.
Qed.

(** X2. A score without a resolved beatmap has no placement:
    [calc_lb_placement] raises [AttributeError] on [self.bmap.md5],
    before the store is queried. *)
Theorem calc_lb_placement_unresolved (w : World) (s : Score) :
  bmap s = None -> calc_lb_placement s w = ([], Raise AttributeError).
Proof. intros Hb. unfold calc_lb_placement. rewrite Hb. reflexivity. Qed.

Lemma metric_exceeds_mono (s1 s2 : Score) (r : Row) :
  mode s1 = mode s2 ->
  (ranked_by_pp (mode s1) -> PyFloat.leb (pp s2) (pp s1) = true) ->
  (~ ranked_by_pp (mode s1) -> score s2 <= score s1) ->
  metric_exceeds s1 r = true -> metric_exceeds s2 r = true.
Proof.
  unfold metric_exceeds, ranked_by_pp. intros <- Hpp Hsc.
  destruct (Z.leb_spec (GameMode_value (mode s1)) (GameMode_value rx_std)) as [H|H].
  - apply leb_ltb_trans. apply Hpp. exact H.
  - rewrite !Z.ltb_lt. specialize (Hsc ltac:(lia)). lia.
Qed.

(** X3. Placement is monotone in the ranking metric: of two scores of
    the same mode on the same beatmap, ranked against the same table,
    the one whose metric (performance value, or raw score) is at least
    the other's is placed at least as high. *)
Theorem calc_lb_placement_monotone (w : World) (s1 s2 : Score) (b : Beatmap) :
  bmap s1 = Some b -> bmap s2 = Some b -> mode s1 = mode s2 ->
  (ranked_by_pp (mode s1) -> PyFloat.leb (pp s2) (pp s1) = true) ->
  (~ ranked_by_pp (mode s1) -> score s2 <= score s1) ->
  exists tr1 tr2 rk1 rk2,
    calc_lb_placement s1 w = (tr1, Ok rk1)
    /\ calc_lb_placement s2 w = (tr2, Ok rk2)
    /\ rk1 <= rk2.
Proof.
  intros Hb1 Hb2 Hm Hpp Hsc.
  rewrite (calc_lb_placement_run w s1 b Hb1), (calc_lb_placement_run w s2 b Hb2).
  eexists _, _, _, _. split; [reflexivity|]. split; [reflexivity|].
  rewrite <- Hm.
  apply Z.add_le_mono_l, select_count_mono. intros r.
  unfold outranks. rewrite <- Hm, !andb_true_iff. intros [Hr Hx].
  split; [exact Hr|]. exact (metric_exceeds_mono s1 s2 r Hm Hpp Hsc Hx).
Qed.

End Placement.

(** ** Reconstruction, status and difficulty: edge cases *)

Section Reconstruction.

Context {I : Imports}.

Lemma from_sql_run (w : World) (table : string) (k : Z) tr (pb : Score) :
  from_sql k table w = (tr, Ok (Some pb)) ->
  exists r,
    db w table !! k = Some r
    /\ tr = [EvFetch table (SelectScore k); EvMapFromMd5 (row_map_md5 r);
             EvGetById (row_userid r)]
            ++ match bmap pb with
               | Some b =>
                   [EvFetch (sql_table (mode pb))
                      (CountBetter (bmap_md5 b) (as_vanilla (mode pb))
                         (lb_scoring pb))]
               | None => []
               end
    /\ rank pb = match bmap pb with
                 | Some b => 1 + select_count (outranks pb b)
                                   (db w (sql_table (mode pb)))
                 | None => 0
                 end.
Proof.
  unfold from_sql. run_step.
  destruct (db w table !! k) as [r|]; [|discriminate].
  run_step.
  destruct (SubmissionStatus_of (row_status r)) as [st|e] eqn:Hst;
    [|discriminate].
  run_step.
  destruct (GameMode_from_params (row_mode r) (row_mods r)) as [m|];
    [|discriminate].
  run_step.
  destruct (beatmaps w (row_map_md5 r)) as [b|] eqn:Hb.
  - match goal with
    | |- context [calc_lb_placement ?s] =>
        rewrite (calc_lb_placement_run w s b eq_refl)
    end.
    simpl. intros H. inversion H; subst. exists r. simpl. auto.
  - simpl. intros H. inversion H; subst. exists r. simpl. auto.
Qed.

(** Once the row is found, [from_sql] returns an object or raises
    [ValueError]. *)
Lemma from_sql_outcomes (w : World) (table : string) (k : Z) (r : Row) :
  db w table !! k = Some r ->
  snd (from_sql k table w) = Raise ValueError
  \/ exists pb, snd (from_sql k table w) = Ok (Some pb).
Proof.
  intros Hk. unfold from_sql. run_step. rewrite Hk. run_step.
  destruct (SubmissionStatus_of (row_status r)) as [st|e] eqn:Hst.
  2:{ left. destruct (row_status r) as [|[[?|?|]|[?|?|]|]|?];
        simpl in Hst; inversion Hst; reflexivity. }
  run_step.
  destruct (GameMode_from_params (row_mode r) (row_mods r)) as [m|];
    [|left; reflexivity].
  run_step. right.
  destruct (beatmaps w (row_map_md5 r)) as [b|] eqn:Hb.
  - match goal with
    | |- context [calc_lb_placement ?s] =>
        rewrite (calc_lb_placement_run w s b eq_refl)
    end.
    simpl. eexists. reflexivity.
  - simpl. eexists. reflexivity.
Qed.

(** X4. [from_sql] returns [None] exactly when the table holds no row
    with the given id, and then it has made the one query and no other
    call. *)
Theorem from_sql_absent (w : World) (table : string) (k : Z) :
  (db w table !! k = None ->
   from_sql k table w = ([EvFetch table (SelectScore k)], Ok None))
  /\ (forall tr, from_sql k table w = (tr, Ok None) ->
        db w table !! k = None).
Proof.
  split.
  - intros Hk. unfold from_sql. run_step. rewrite Hk. reflexivity.
  - intros tr H. destruct (db w table !! k) as [r|] eqn:Hk; [|reflexivity].
    exfalso. destruct (from_sql_outcomes w table k r Hk) as [H'|[pb H']];
      rewrite H in H'; discriminate H'.
Qed.

(** X5. A row whose status column is not 0, 1 or 2 cannot be
    reconstructed: [from_sql] raises [ValueError] on
    [SubmissionStatus(s.status)], after the lookups of the beatmap and
    of the player and before any leaderboard query. *)
Theorem from_sql_invalid_status (w : World) (table : string) (k : Z) (r : Row) :
  db w table !! k = Some r ->
  row_status r < 0 \/ 2 < row_status r ->
  from_sql k table w =
    ([EvFetch table (SelectScore k); EvMapFromMd5 (row_map_md5 r);
      EvGetById (row_userid r)],
     Raise ValueError).
Proof.
  intros Hk Hst. unfold from_sql. run_step. rewrite Hk. run_step.
  assert (Hr : SubmissionStatus_of (row_status r) = Raise ValueError).
  { destruct (row_status r) as [|[[?|?|]|[?|?|]|]|?]; try reflexivity; lia. }
  rewrite Hr. reflexivity.
Qed.

(** X6. The rank a reconstructed score carries is the placement of that
    score: with a resolved beatmap, [calc_lb_placement] on the object
    [from_sql] returned gives its [rank] again, the count having been
    taken in the table of the reconstructed mode; without a resolved
    beatmap the rank stays 0 and no leaderboard query is made. *)
Theorem from_sql_rank_stable (w : World) (table : string) (k : Z) tr
    (pb : Score) :
  from_sql k table w = (tr, Ok (Some pb)) ->
  match bmap pb with
  | Some b =>
      calc_lb_placement pb w =
        ([EvFetch (sql_table (mode pb))
            (CountBetter (bmap_md5 b) (as_vanilla (mode pb)) (lb_scoring pb))],
         Ok (rank pb))
      /\ last tr =
           Some (EvFetch (sql_table (mode pb))
                   (CountBetter (bmap_md5 b) (as_vanilla (mode pb))
                      (lb_scoring pb)))
  | None =>
      rank pb = 0
      /\ exists md5 uid,
           tr = [EvFetch table (SelectScore k); EvMapFromMd5 md5; EvGetById uid]
  end.
Proof.
  intros H. destruct (from_sql_run _ _ _ _ _ H) as (r & Hk & Htr & Hrk).
  destruct (bmap pb) as [b|] eqn:Hb.
  - rewrite (calc_lb_placement_run w pb b Hb), Hrk, Htr. split; reflexivity.
  - split; [exact Hrk|]. rewrite Htr. eexists _, _. reflexivity.
Qed.

End Reconstruction.

Section Resolution.

Context {I : Imports}.

Lemma from_sql_lookups (w : World) (table : string) (k : Z) :
  Forall (fun e => is_lookup e = true) (fst (from_sql k table w)).
Proof.
  unfold from_sql. run_step.
  destruct (db w table !! k) as [r|]; [|repeat constructor].
  run_step.
  destruct (SubmissionStatus_of (row_status r)) as [st|e];
    [|repeat constructor].
  run_step.
  destruct (GameMode_from_params (row_mode r) (row_mods r)) as [m|];
    [|repeat constructor].
  run_step.
  destruct (beatmaps w (row_map_md5 r)) as [b|] eqn:Hb.
  - match goal with
    | |- context [calc_lb_placement ?s] =>
        rewrite (calc_lb_placement_run w s b eq_refl)
    end.
    simpl. repeat constructor.
  - simpl. repeat constructor.
Qed.

Lemma calc_status_effect (w : World) (s : Score) tr (s' : Score) :
  calc_status s w = (tr, Ok s') ->
  set_prev_best (prev_best s) (set_status (status s) s') = s
  /\ (status s' = FAILED <-> passed s = false)
  /\ Forall (fun e => is_lookup e = true) tr.
Proof.
  assert (Hid : set_prev_best (prev_best s) (set_status (status s) s) = s)
    by (destruct s; reflexivity).
  unfold calc_status.
  destruct (passed s) eqn:Hpass; cbn [negb].
  - destruct (player s) as [p|]; [|discriminate].
    destruct (bmap s) as [b|] eqn:Hb; [|discriminate].
    run_step.
    destruct (select_first _ _) as [[k r]|] eqn:Hsel.
    2:{ simpl. intros H. inversion H; subst.
        split; [destruct s; reflexivity|].
        split; [simpl; split; discriminate|repeat constructor]. }
    run_step.
    pose proof (from_sql_lookups w (sql_table (mode s)) k) as Hl.
    destruct (from_sql k (sql_table (mode s)) w) as [t1 [pbo|e]] eqn:Hsql;
      [|discriminate].
    simpl in Hl. cbn [pp set_prev_best].
    destruct (PyFloat.ltb (row_pp r) (pp s)).
    + destruct pbo as [pb|]; [|discriminate].
      simpl. intros H. inversion H; subst.
      split; [destruct s; reflexivity|].
      split; [simpl; split; discriminate|].
      constructor; [reflexivity|]. rewrite List.app_nil_r. exact Hl.
    + simpl. intros H. inversion H; subst.
      split; [destruct s; reflexivity|].
      split; [simpl; split; discriminate|].
      constructor; [reflexivity|]. rewrite List.app_nil_r. exact Hl.
  - run_step. intros H. inversion H; subst.
    split; [destruct s; reflexivity|].
    split; [simpl; split; reflexivity|constructor].
Qed.

(** X7. Whatever branch it takes, a run of [calc_status] that returns
    has assigned [status] and [prev_best] and no other attribute, has
    resolved the status to [FAILED] exactly when the play did not pass,
    and has only looked things up: every call it made is a query to the
    store or a lookup of a beatmap or of a player by id, never a call
    to the engine, the log, the login registry or the clock. *)
Theorem calc_status_frame (w : World) (s : Score) tr (s' : Score) :
  calc_status s w = (tr, Ok s') ->
  set_prev_best (prev_best s) (set_status (status s) s') = s
  /\ (status s' = FAILED <-> passed s = false)
  /\ Forall (fun e => is_lookup e = true) tr.
Proof. exact (calc_status_effect w s tr s'). Qed.

Lemma calc_diff_inv (w : World) (s : Score) t (d : float * float) :
  calc_diff s w = (t, Ok d) ->
  (as_vanilla (mode s) <> 0 /\ as_vanilla (mode s) <> 1
   /\ d = (PyFloat.zero, PyFloat.zero) /\ t = [])
  \/ ((as_vanilla (mode s) = 0 \/ as_vanilla (mode s) = 1)
      /\ exists b, bmap s = Some b
                   /\ engine w (bmap_id b) (pp_params_of s) = Some d
                   /\ t = [EvOwoppai (bmap_id b) (pp_params_of s)]).
Proof.
  unfold calc_diff, pp_params_of.
  destruct (Z.eqb_spec (as_vanilla (mode s)) 0) as [H0|H0];
    destruct (Z.eqb_spec (as_vanilla (mode s)) 1) as [H1|H1];
    cbn [orb negb].
  4:{ intros H. inversion H; subst. left. auto. }
  all: destruct (bmap s) as [b|]; run_step; [|discriminate];
    destruct (engine w (bmap_id b) _) as [r|] eqn:He; [|discriminate];
    intros H; inversion H; subst; right; split; [auto|];
    exists b; split; [reflexivity|]; split; [exact He|reflexivity].
Qed.

(** X8. [calc_diff] consults the performance engine only for the
    vanilla modes 0 and 1: for any other mode it returns [(0.0, 0.0)]
    without a call, even when no beatmap is resolved; for the modes 0
    and 1 it makes one call with the modifiers, the combo, the misses,
    the vanilla mode and the accuracy of the score and returns what the
    engine computes, its failure included; and without a resolved
    beatmap it raises [AttributeError] before any call. *)
Theorem calc_diff_engine (w : World) (s : Score) :
  (as_vanilla (mode s) <> 0 -> as_vanilla (mode s) <> 1 ->
   calc_diff s w = ([], Ok (PyFloat.zero, PyFloat.zero)))
  /\ (as_vanilla (mode s) = 0 \/ as_vanilla (mode s) = 1 ->
      match bmap s with
      | Some b =>
          calc_diff s w =
            ([EvOwoppai (bmap_id b) (pp_params_of s)],
             match engine w (bmap_id b) (pp_params_of s) with
             | Some r => Ok r
             | None => Raise EngineError
             end)
      | None => calc_diff s w = ([], Raise AttributeError)
      end).
Proof.
  unfold calc_diff, pp_params_of. split.
  - intros H0 H1.
    apply Z.eqb_neq in H0, H1. rewrite H0, H1. reflexivity.
  - intros H.
    assert (Hm : (as_vanilla (mode s) =? 0) || (as_vanilla (mode s) =? 1) = true).
    { destruct H as [H|H]; rewrite H; reflexivity. }
    rewrite Hm. cbn [negb].
    destruct (bmap s) as [b|]; run_step; [|reflexivity].
    destruct (engine w (bmap_id b) _); reflexivity.
Qed.

End Resolution.

(** ** Python text *)

Lemma count_nonneg (c : BinNums.N) (s : str) : 0 <= PyStr.count c s.
Proof.
  induction s as [|c' s IH]; simpl; [lia|].
  destruct (N.eqb c' c); lia.
Qed.

Lemma split_length (sep : BinNums.N) (s : str) :
  Z.of_nat (length (PyStr.split sep s)) = 1 + PyStr.count sep s.
Proof.
  induction s as [|c s IH]; [reflexivity|].
  cbn [PyStr.split PyStr.count].
  destruct (N.eqb c sep).
  - cbn [length]. lia.
  - pose proof (count_nonneg sep s).
    destruct (PyStr.split sep s) as [|f fs]; cbn [length] in *; lia.
Qed.

Lemma digit_value_range (c : BinNums.N) (d : Z) :
  PyStr.digit_value c = Some d -> 0 <= d <= 9.
Proof.
  unfold PyStr.digit_value.
  destruct (List.find _ PyStr.decimal_zeros) as [z|] eqn:Hf; [|discriminate].
  apply List.find_some in Hf. destruct Hf as [_ Hz].
  apply andb_true_iff in Hz. destruct Hz as [H1 H2].
  apply N.leb_le in H1. apply N.ltb_lt in H2.
  intros H. inversion H. lia.
Qed.

Lemma int_acc_nonneg (s : str) (a : Z) :
  0 <= a -> a <= PyStr.int_acc s a.
Proof.
  revert a. induction s as [|c s IH]; intros a Ha; cbn [PyStr.int_acc];
    [lia|].
  assert (Hd : 0 <= match PyStr.digit_value c with
                    | Some d => d
                    | None => 0
                    end).
  { destruct (PyStr.digit_value c) as [d|] eqn:E; [|lia].
    apply digit_value_range in E. lia. }
  pose proof (IH (10 * a + match PyStr.digit_value c with
                           | Some d => d
                           | None => 0
                           end) ltac:(lia)). lia.
Qed.

Lemma int_value_nonneg (s : str) : 0 <= PyStr.int_value s.
Proof. unfold PyStr.int_value. apply int_acc_nonneg. lia. Qed.

Lemma rstrip_empty (s : str) :
  PyStr.rstrip s = [] -> all_space s = true.
Proof.
  induction s as [|c s IH]; [reflexivity|].
  cbn [PyStr.rstrip all_space].
  destruct (PyStr.rstrip s) as [|d r]; [|discriminate].
  destruct (PyStr.isspace c); [|discriminate].
  intros _. rewrite IH; reflexivity.
Qed.

Lemma rstrip_prefix (s : str) :
  exists t, s = PyStr.rstrip s ++ t /\ all_space t = true.
Proof.
  induction s as [|c s IH]; [exists []; split; reflexivity|].
  cbn [PyStr.rstrip].
  destruct (PyStr.rstrip s) as [|d r] eqn:Hr.
  - destruct (PyStr.isspace c) eqn:Hc.
    + exists (c :: s). split; [reflexivity|].
      cbn [all_space]. rewrite Hc, (rstrip_empty s Hr). reflexivity.
    + exists s. split; [reflexivity|]. exact (rstrip_empty s Hr).
  - destruct IH as (t & Hs & Ht). exists t. split; [|exact Ht].
    simpl. rewrite Hs at 1. reflexivity.
Qed.

(** The text [str.rstrip()] returns does not end in white space. *)
Lemma rstrip_last (s : str) (c : BinNums.N) :
  last (PyStr.rstrip s) = Some c -> PyStr.isspace c = false.
Proof.
  induction s as [|a s IH]; [discriminate|].
  cbn [PyStr.rstrip].
  destruct (PyStr.rstrip s) as [|d r] eqn:Hr.
  - destruct (PyStr.isspace a) eqn:Ha; [discriminate|].
    intros H. inversion H; subst. exact Ha.
  - intros H. apply IH. rewrite <- H. reflexivity.
Qed.

(** The conversions of fields of at most 4300 digits. *)
Lemma int_short (f : str) :
  (length f <= PyStr.int_max_str_digits)%nat ->
  PyStr.int f = Ok (PyStr.int_value f).
Proof.
  intros H. unfold PyStr.int.
  destruct (Nat.ltb_spec PyStr.int_max_str_digits (length f)) as [H'|H'];
    [lia|reflexivity].
Qed.

Lemma int_cases (f : str) :
  PyStr.int f = Raise ValueError
  \/ PyStr.int f = Ok (PyStr.int_value f).
Proof.
  unfold PyStr.int. destruct (Nat.ltb _ _); auto.
Qed.

Lemma ints_cases (fs : list str) :
  ints fs = Raise ValueError
  \/ ints fs = Ok (List.map PyStr.int_value fs).
Proof.
  induction fs as [|f fs IH]; [right; reflexivity|].
  cbn [ints List.map]. destruct (int_cases f) as [H|H]; rewrite H;
    cbn [rbind]; [left; reflexivity|].
  destruct IH as [H'|H']; rewrite H'; cbn [rbind]; auto.
Qed.

Lemma ints_short (fs : list str) :
  forallb (fun f => Nat.leb (length f) PyStr.int_max_str_digits) fs = true ->
  ints fs = Ok (List.map PyStr.int_value fs).
Proof.
  induction fs as [|f fs IH]; [reflexivity|].
  cbn [forallb ints List.map]. rewrite andb_true_iff, Nat.leb_le.
  intros [Hf Hfs]. rewrite (int_short f Hf), (IH Hfs). reflexivity.
Qed.

(** ** The runs of [from_submission] *)

Section Submitting.

Context {I : Imports}.

Lemma bind_run {A B} (m : M A) (k : A -> M B) (w : World) :
  bind m k w =
    match m w with
    | (t1, Ok a) => (t1 ++ fst (k a w), snd (k a w))
    | (t1, Raise e) => (t1, Raise e)
    end.
Proof.
  unfold bind. destruct (m w) as [t1 [a|e]]; [|reflexivity].
  destruct (k a w); reflexivity.
Qed.

(** The run of [from_submission] on a plaintext that passes every
    check. *)
Lemma int_Ok_short (f : str) (n : Z) :
  PyStr.int f = Ok n ->
  Nat.leb (length f) PyStr.int_max_str_digits = true.
Proof.
  unfold PyStr.int.
  destruct (Nat.ltb_spec PyStr.int_max_str_digits (length f)) as [H|H];
    [discriminate|].
  intros _. apply Nat.leb_le. exact H.
Qed.

Lemma ints_Ok_short (fs : list str) (ns : list Z) :
  ints fs = Ok ns ->
  forallb (fun f => Nat.leb (length f) PyStr.int_max_str_digits) fs = true.
Proof.
  revert ns. induction fs as [|f fs IH]; intros ns; [reflexivity|].
  cbn [ints forallb].
  destruct (PyStr.int f) as [n|e] eqn:Hf; cbn [rbind]; [|discriminate].
  destruct (ints fs) as [ns'|e] eqn:Hfs; cbn [rbind]; [|discriminate].
  intros _. rewrite (int_Ok_short f n Hf), (IH ns' eq_refl). reflexivity.
Qed.

(** The three conversions of [from_submission] succeed exactly on
    fields [int] accepts. *)
Lemma conversions_short (data : list str) :
  fields_convert data = true ->
  ints (firstn 8 (skipn 3 data))
  = Ok (List.map PyStr.int_value (firstn 8 (skipn 3 data)))
  /\ PyStr.int (nth 13 data "") = Ok (PyStr.int_value (nth 13 data ""))
  /\ PyStr.int (nth 15 data "") = Ok (PyStr.int_value (nth 15 data "")).
Proof.
  unfold fields_convert, int_fields. rewrite forallb_app. cbn [forallb].
  rewrite !andb_true_iff, !Nat.leb_le. intros (H & H13 & H15 & _).
  split; [exact (ints_short _ H)|]. split; apply int_short; assumption.
Qed.

Lemma conversions_long (data : list str) :
  fields_convert data = false ->
  ints (firstn 8 (skipn 3 data)) = Raise ValueError
  \/ PyStr.int (nth 13 data "") = Raise ValueError
  \/ PyStr.int (nth 15 data "") = Raise ValueError.
Proof.
  intros Hf.
  destruct (ints_cases (firstn 8 (skipn 3 data))) as [H|H]; [auto|].
  destruct (int_cases (nth 13 data "")) as [H13|H13]; [auto|].
  destruct (int_cases (nth 15 data "")) as [H15|H15]; [auto|].
  exfalso.
  assert (Ht : fields_convert data = true).
  { unfold fields_convert, int_fields. rewrite forallb_app. cbn [forallb].
    rewrite !andb_true_iff.
    split; [exact (ints_Ok_short _ _ H)|].
    split; [exact (int_Ok_short _ _ H13)|].
    split; [exact (int_Ok_short _ _ H15)|reflexivity]. }
  congruence.
Qed.

Lemma fields_18 (data : list str) :
  length data = 18%nat ->
  exists d0 d1 d2 d3 d4 d5 d6 d7 d8 d9 d10 d11 d12 d13 d14 d15 d16 d17,
    data = [d0; d1; d2; d3; d4; d5; d6; d7; d8; d9; d10; d11; d12; d13;
            d14; d15; d16; d17].
Proof.
  intros H.
  do 18 (destruct data as [|? data]; [discriminate H|]).
  destruct data; [|discriminate H].
  repeat eexists.
Qed.

(** The run of [from_submission] on a plaintext that passes every
    check. *)
Lemma from_submission_run
    (w : World) (data_enc iv osu_ver phash : str) (p : Player)
    (m : GameMode) :
  let data := submission_fields data_enc iv osu_ver in
  let md5 := nth 0 data "" in
  let pname := PyStr.rstrip (nth 1 data "") in
  length data = 18%nat ->
  length md5 = 32%nat ->
  logins w pname phash = Some p ->
  forallb PyStr.isdecimal (int_fields data) = true ->
  fields_convert data = true ->
  GameMode_from_params (PyStr.int_value (nth 15 data ""))
    (PyStr.int_value (nth 13 data ""))
  = Some m ->
  let r := finish_submission (decoded data (beatmaps w md5) (Some p) m (now w)) w in
  from_submission data_enc iv osu_ver phash w =
    ([EvMapFromMd5 md5; EvGetLogin pname phash; EvTime] ++ fst r, snd r).
Proof.
  intros data md5 pname Hlen Hmd5 Hp Hdec Hconv Hm r.
  destruct (conversions_short data Hconv) as (Hints & H13 & H15).
  unfold from_submission. fold data. clearbody data.
  rewrite Hlen. cbn [Nat.eqb negb].
  fold md5. rewrite Hmd5. cbn [Nat.eqb negb].
  rewrite bind_run. unfold Beatmap_from_md5, ask. cbn beta iota.
  rewrite bind_run. unfold get_login, ask. fold pname. rewrite Hp.
  cbn beta iota. rewrite Hdec. cbn [negb].
  rewrite bind_run. rewrite Hints. unfold lift. cbn beta iota.
  rewrite bind_run. rewrite H13. unfold lift. cbn beta iota.
  rewrite bind_run. rewrite H15. unfold lift. cbn beta iota.
  rewrite bind_run. unfold from_params. rewrite Hm.
  change (ret m w) with (@nil event, Ok m). cbn beta iota.
  rewrite bind_run. unfold time, ask. cbn beta iota. cbn [app fst snd].
  subst r. subst md5 pname.
  destruct (fields_18 data Hlen)
    as (d0 & d1 & d2 & d3 & d4 & d5 & d6 & d7 & d8 & d9 & d10 & d11 & d12
        & d13 & d14 & d15 & d16 & d17 & ->).
  unfold finish_submission, decoded, lift.
  cbn [nth List.map firstn skipn].
  reflexivity.
Qed.

End Submitting.

Section Outcomes.

Context {I : Imports}.

(** The outcomes of [from_submission], in the order of its checks. *)
Lemma from_submission_cases
    (w : World) (data_enc iv osu_ver phash : str) :
  let data := submission_fields data_enc iv osu_ver in
  let md5 := nth 0 data "" in
  let pname := PyStr.rstrip (nth 1 data "") in
  let run := from_submission data_enc iv osu_ver phash w in
  (length data <> 18%nat
   /\ run = ([EvLog "Received an invalid score submission."], Ok None))
  \/ (length data = 18%nat /\ length md5 <> 32%nat
      /\ run = ([], Ok None))
  \/ (length data = 18%nat /\ length md5 = 32%nat
      /\ ((logins w pname phash = None
           /\ run = ([EvMapFromMd5 md5; EvGetLogin pname phash],
                     Ok (Some (set_player None
                                 (set_bmap (beatmaps w md5) new_score)))))
          \/ exists p,
               logins w pname phash = Some p
               /\ ((forallb PyStr.isdecimal (int_fields data) = false
                    /\ run = ([EvMapFromMd5 md5; EvGetLogin pname phash;
                               EvLog "Invalid parameter passed into submit-modular."],
                              Ok None))
                   \/ (forallb PyStr.isdecimal (int_fields data) = true
                       /\ ((fields_convert data = false
                            /\ run = ([EvMapFromMd5 md5; EvGetLogin pname phash],
                                      Raise ValueError))
                           \/ (fields_convert data = true
                               /\ ((GameMode_from_params
                                      (PyStr.int_value (nth 15 data ""))
                                      (PyStr.int_value (nth 13 data "")) = None
                                    /\ run = ([EvMapFromMd5 md5;
                                               EvGetLogin pname phash],
                                              Raise ValueError))
                                   \/ exists m,
                                        GameMode_from_params
                                          (PyStr.int_value (nth 15 data ""))
                                          (PyStr.int_value (nth 13 data ""))
                                        = Some m
                                        /\ let r := finish_submission
                                                      (decoded data
                                                         (beatmaps w md5)
                                                         (Some p) m (now w)) w in
                                           run = ([EvMapFromMd5 md5;
                                                   EvGetLogin pname phash;
                                                   EvTime]
                                                  ++ fst r, snd r)))))))).
Proof.
  intros data md5 pname run.
  destruct (Nat.eqb (length data) 18) eqn:Hlen.
  2:{ left. apply Nat.eqb_neq in Hlen. split; [exact Hlen|].
      subst run. unfold from_submission. fold data.
      apply Nat.eqb_neq in Hlen. rewrite Hlen. reflexivity. }
  right. apply Nat.eqb_eq in Hlen.
  destruct (Nat.eqb (length md5) 32) eqn:Hmd5.
  2:{ left. split; [exact Hlen|]. split; [apply Nat.eqb_neq; exact Hmd5|].
      subst run. unfold from_submission. fold data. rewrite Hlen.
      cbn [Nat.eqb negb]. fold md5. rewrite Hmd5. reflexivity. }
  right. apply Nat.eqb_eq in Hmd5. split; [exact Hlen|]. split; [exact Hmd5|].
  destruct (logins w pname phash) as [p|] eqn:Hp.
  2:{ left. split; [reflexivity|].
      exact (from_submission_unresolved w data_enc iv osu_ver phash Hlen Hmd5 Hp). }
  right. exists p. split; [reflexivity|].
  destruct (forallb PyStr.isdecimal (int_fields data)) eqn:Hdec.
  2:{ left. split; [reflexivity|].
      subst run. unfold from_submission. fold data. rewrite Hlen.
      cbn [Nat.eqb negb]. fold md5. rewrite Hmd5. cbn [Nat.eqb negb].
      run_step. fold pname. rewrite Hp, Hdec. reflexivity. }
  right. split; [reflexivity|].
  destruct (fields_convert data) eqn:Hconv.
  2:{ left. split; [reflexivity|].
      subst run. unfold from_submission. fold data. rewrite Hlen.
      cbn [Nat.eqb negb]. fold md5. rewrite Hmd5. cbn [Nat.eqb negb].
      run_step. fold pname. rewrite Hp, Hdec. cbn [negb].
      destruct (ints_cases (firstn 8 (skipn 3 data))) as [H|H]; rewrite H;
        [reflexivity|].
      destruct (int_cases (nth 13 data "")) as [H13|H13]; rewrite H13;
        [reflexivity|].
      destruct (int_cases (nth 15 data "")) as [H15|H15]; rewrite H15;
        [reflexivity|].
      exfalso.
      destruct (conversions_long data Hconv) as [H'|[H'|H']]; congruence. }
  right. split; [reflexivity|].
  destruct (GameMode_from_params (PyStr.int_value (nth 15 data ""))
              (PyStr.int_value (nth 13 data ""))) as [m|] eqn:Hm.
  2:{ left. split; [reflexivity|].
      destruct (conversions_short data Hconv) as (Hints & H13 & H15).
      subst run. unfold from_submission. fold data. rewrite Hlen.
      cbn [Nat.eqb negb]. fold md5. rewrite Hmd5. cbn [Nat.eqb negb].
      run_step. fold pname. rewrite Hp, Hdec. cbn [negb].
      rewrite Hints, H13, H15, Hm. reflexivity. }
  right. exists m. split; [reflexivity|].
  exact (from_submission_run w data_enc iv osu_ver phash p m
           Hlen Hmd5 Hp Hdec Hconv Hm).
Qed.

(** A run of the last part of [from_submission] that returns. *)
Lemma finish_submission_inv (w : World) (s1 : Score) t (s' : Score) :
  finish_submission s1 w = (t, Ok (Some s')) ->
  exists s2,
    calc_accuracy s1 = Ok s2
    /\ match bmap s1 with
       | None =>
           t = []
           /\ s' = set_status (if passed s1 then SUBMITTED else FAILED)
                     (set_pp PyFloat.zero s2)
       | Some b =>
           exists t3 d t4 s3,
             calc_diff s2 w = (t3, Ok d)
             /\ calc_status (set_pp (fst d) s2) w = (t4, Ok s3)
             /\ s' = set_rank
                       (1 + select_count (outranks s3 b)
                              (db w (sql_table (mode s3)))) s3
             /\ t = t3 ++ t4
                    ++ [EvFetch (sql_table (mode s3))
                          (CountBetter (bmap_md5 b) (as_vanilla (mode s3))
                             (lb_scoring s3))]
       end.
Proof.
  unfold finish_submission. rewrite bind_run. unfold lift.
  destruct (calc_accuracy s1) as [s2|e] eqn:Hacc; [|discriminate].
  cbn beta iota. cbn [app].
  pose proof (calc_accuracy_frame _ _ Hacc) as Hfr.
  assert (Hb : bmap s2 = bmap s1) by (rewrite Hfr; reflexivity).
  assert (Hp : passed s2 = passed s1) by (rewrite Hfr; reflexivity).
  intros H. exists s2. split; [reflexivity|].
  rewrite <- Hb. destruct (bmap s2) as [b|] eqn:Hb2.
  - rewrite bind_run in H.
    destruct (calc_diff s2 w) as [t3 [d|e]] eqn:Hd; [|discriminate].
    rewrite bind_run in H.
    destruct (calc_status (set_pp (fst d) s2) w) as [t4 [s3|e]] eqn:Hst;
      [|discriminate].
    destruct (calc_status_inv _ _ _ _ Hst) as ([_ Hb3] & _).
    cbn [bmap set_pp] in Hb3. rewrite Hb2 in Hb3.
    rewrite bind_run in H. rewrite (calc_lb_placement_run w s3 b Hb3) in H.
    cbn in H. inversion H; subst.
    exists t3, d, t4, s3. split; [reflexivity|]. split; [exact Hst|].
    split; reflexivity.
  - cbn in H. inversion H; subst. rewrite Hp. split; reflexivity.
Qed.

End Outcomes.

(** ** The decoded object *)

(** The attributes of an object built by assignments. *)
Ltac score_fields :=
  cbv beta iota zeta delta
    [set_rank set_prev_best set_status set_pp set_acc set_bmap set_player
     decoded id bmap player pp score max_combo mods acc n300 n100 n50
     nmiss ngeki nkatu grade rank passed perfect status mode play_time
     time_elapsed client_flags prev_best].

Section Decoded.

Context {I : Imports}.

Lemma from_submission_decoded_inv
    (w : World) (data_enc iv osu_ver phash : str) tr (s' : Score) :
  let data := submission_fields data_enc iv osu_ver in
  let md5 := nth 0 data "" in
  let pname := PyStr.rstrip (nth 1 data "") in
  from_submission data_enc iv osu_ver phash w = (tr, Ok (Some s')) ->
  player s' <> None ->
  exists p m t,
    length data = 18%nat /\ length md5 = 32%nat
    /\ logins w pname phash = Some p
    /\ forallb PyStr.isdecimal (int_fields data) = true
    /\ GameMode_from_params (PyStr.int_value (nth 15 data ""))
         (PyStr.int_value (nth 13 data "")) = Some m
    /\ finish_submission (decoded data (beatmaps w md5) (Some p) m (now w)) w
       = (t, Ok (Some s'))
    /\ tr = [EvMapFromMd5 md5; EvGetLogin pname phash; EvTime] ++ t.
Proof.
  cbv zeta. intros Hrun Hpl.
  destruct (from_submission_cases w data_enc iv osu_ver phash)
    as [[_ H]|[(_ & _ & H)|(Hlen & Hmd5 & [[_ H]|(p & Hp & [[_ H]|(Hdec & [[_ H]|(Hconv & [[_ H]|(m & Hm & H)])])])])]];
    rewrite Hrun in H; try discriminate H.
  - inversion H; subst. exfalso. apply Hpl. reflexivity.
  - cbv zeta in H.
    destruct (finish_submission _ w) as [t r] eqn:Hfin. cbn [fst snd] in H.
    inversion H; subst. exists p, m, t. auto 10.
Qed.

Lemma decimal_fields (data : list str) (i : nat) :
  length data = 18%nat ->
  forallb PyStr.isdecimal (int_fields data) = true ->
  In i int_positions -> PyStr.isdecimal (nth i data "") = true.
Proof.
  intros Hlen Hdec Hi. rewrite (int_fields_positions data Hlen) in Hdec.
  rewrite forallb_forall in Hdec. apply Hdec.
  apply in_map_iff. exists i. auto.
Qed.

(** What the computations after the decoding leave of the decoded
    object. *)
Lemma from_submission_decoded_frame
    (w : World) (data_enc iv osu_ver phash : str) tr (s' : Score) :
  let data := submission_fields data_enc iv osu_ver in
  let md5 := nth 0 data "" in
  let pname := PyStr.rstrip (nth 1 data "") in
  from_submission data_enc iv osu_ver phash w = (tr, Ok (Some s')) ->
  player s' <> None ->
  exists p,
    length data = 18%nat
    /\ logins w pname phash = Some p
    /\ forallb PyStr.isdecimal (int_fields data) = true
    /\ GameMode_from_params (PyStr.int_value (nth 15 data ""))
         (PyStr.int_value (nth 13 data "")) = Some (mode s')
    /\ set_rank 0
         (set_prev_best None
            (set_status FAILED
               (set_pp PyFloat.zero (set_acc PyFloat.zero s'))))
       = decoded data (beatmaps w md5) (Some p) (mode s') (now w).
Proof.
  cbv zeta. intros Hrun Hpl.
  destruct (from_submission_decoded_inv w _ _ _ _ _ _ Hrun Hpl)
    as (p & m & t & Hlen & Hmd5 & Hp & Hdec & Hm & Hfin & Htr).
  destruct (finish_submission_inv w _ t s' Hfin) as (s2 & Hacc & Hrest).
  apply calc_accuracy_frame in Hacc.
  exists p. split; [exact Hlen|]. split; [exact Hp|]. split; [exact Hdec|].
  cbn [bmap decoded] in Hrest.
  destruct (beatmaps w _) as [b|].
  - destruct Hrest as (t3 & d & t4 & s3 & _ & Hst & Hs' & _).
    apply calc_status_effect in Hst. destruct Hst as (Hst & _).
    assert (E : s3 = set_prev_best (prev_best s3) (set_status (status s3)
                       (set_pp (fst d) s2))).
    { rewrite <- Hst. destruct s3; reflexivity. }
    rewrite Hs', E, Hacc. split; [exact Hm|]. score_fields. reflexivity.
  - destruct Hrest as (_ & Hs'). rewrite Hs', Hacc.
    split; [exact Hm|]. score_fields. reflexivity.
Qed.

(** X9. Of the object [from_submission] returns for a logged-in player,
    every attribute but [acc], [pp], [status], [prev_best] and [rank]
    is the one read from the plaintext: the later computations leave
    them alone.  In particular a play that is not passed is graded
    [F] whatever grade the client sent, the play time is that of the
    server's clock, and the mode is the one [GameMode.from_params]
    gives for the fields 15 and 13. *)
Theorem from_submission_fields
    (w : World) (data_enc iv osu_ver phash : str) tr (s' : Score) :
  let data := submission_fields data_enc iv osu_ver in
  let md5 := nth 0 data "" in
  let pname := PyStr.rstrip (nth 1 data "") in
  from_submission data_enc iv osu_ver phash w = (tr, Ok (Some s')) ->
  player s' <> None ->
  set_rank 0
    (set_prev_best None
       (set_status FAILED (set_pp PyFloat.zero (set_acc PyFloat.zero s'))))
  = decoded data (beatmaps w md5) (logins w pname phash) (mode s') (now w)
  /\ GameMode_from_params (PyStr.int_value (nth 15 data ""))
       (PyStr.int_value (nth 13 data "")) = Some (mode s')
  /\ (passed s' = false -> grade s' = GradeStr "F")
  /\ play_time s' = now w.
Proof.
  intros data md5 pname Hrun Hpl.
  destruct (from_submission_decoded_frame w _ _ _ _ _ _ Hrun Hpl)
    as (p & _ & Hp & _ & Hm & Hs).
  fold data in Hp, Hm, Hs. fold md5 in Hs. fold pname in Hp.
  rewrite Hp. split; [exact Hs|]. split; [exact Hm|].
  assert (Hpa : passed s' = PyStr.eqb (nth 14 data "") "True")
    by exact (f_equal passed Hs).
  assert (Hg : grade s' = GradeStr (if PyStr.eqb (nth 14 data "") "True"
                                    then nth 12 data "" else "F"))
    by exact (f_equal grade Hs).
  split; [|exact (f_equal play_time Hs)].
  intros Hf. rewrite Hg, <- Hpa, Hf. reflexivity.
Qed.

(** X10. The integers of an object decoded from a submission are
    natural numbers: hit counts, score, combo, modifiers and client
    flags are never negative. *)
Theorem from_submission_nonneg
    (w : World) (data_enc iv osu_ver phash : str) tr (s' : Score) :
  from_submission data_enc iv osu_ver phash w = (tr, Ok (Some s')) ->
  player s' <> None ->
  0 <= n300 s' /\ 0 <= n100 s' /\ 0 <= n50 s' /\ 0 <= nmiss s'
  /\ 0 <= ngeki s' /\ 0 <= nkatu s'
  /\ 0 <= score s' /\ 0 <= max_combo s' /\ 0 <= mods s'
  /\ 0 <= client_flags s'.
Proof.
  intros Hrun Hpl.
  destruct (from_submission_decoded_frame w _ _ _ _ _ _ Hrun Hpl)
    as (p & Hlen & _ & Hdec & _ & Hs).
  set (data := submission_fields data_enc iv osu_ver) in *.
  assert (Hd : forall i, In i int_positions -> 0 <= PyStr.int_value (nth i data ""))
    by (intros i Hi; apply int_value_nonneg).
  apply (f_equal (fun x => (n300 x, n100 x, n50 x, nmiss x, ngeki x, nkatu x,
                            score x, max_combo x, mods x, client_flags x)))
    in Hs.
  cbn in Hs. inversion Hs as [[H300 H100 H50 Hmiss Hgeki Hkatu Hsc Hmc Hmo Hcf]].
  rewrite H300, H100, H50, Hmiss, Hgeki, Hkatu, Hsc, Hmc, Hmo, Hcf.
  repeat split; try (apply Hd; simpl; tauto). apply count_nonneg.
Qed.

(** X11. When the beatmap of a submission is not known, the object
    returned for a logged-in player has the performance value 0.0, no
    rank and no previous best, and neither the store nor the engine
    has been called: the beatmap lookup, the login lookup and the
    clock are the whole trace. *)
Theorem from_submission_unknown_map
    (w : World) (data_enc iv osu_ver phash : str) tr (s' : Score) :
  let data := submission_fields data_enc iv osu_ver in
  let md5 := nth 0 data "" in
  let pname := PyStr.rstrip (nth 1 data "") in
  from_submission data_enc iv osu_ver phash w = (tr, Ok (Some s')) ->
  player s' <> None ->
  bmap s' = None ->
  beatmaps w md5 = None
  /\ tr = [EvMapFromMd5 md5; EvGetLogin pname phash; EvTime]
  /\ pp s' = PyFloat.zero /\ rank s' = 0 /\ prev_best s' = None.
Proof.
  cbv zeta. intros Hrun Hpl Hb.
  destruct (from_submission_decoded_inv w _ _ _ _ _ _ Hrun Hpl)
    as (p & m & t & Hlen & Hmd5 & Hp & Hdec & Hm & Hfin & Htr).
  destruct (finish_submission_inv w _ t s' Hfin) as (s2 & Hacc & Hrest).
  pose proof (calc_accuracy_frame _ _ Hacc) as Hfr.
  cbn [bmap decoded] in Hrest.
  destruct (beatmaps w _) as [b|] eqn:Hbm.
  - exfalso. destruct Hrest as (t3 & d & t4 & s3 & _ & Hst & Hs' & _).
    destruct (calc_status_inv _ _ _ _ Hst) as ([_ Hb3] & _).
    rewrite Hs' in Hb. cbn [bmap set_rank] in Hb. rewrite Hb3 in Hb.
    cbn [bmap set_pp] in Hb. rewrite Hfr in Hb. cbn in Hb. discriminate.
  - destruct Hrest as (-> & Hs'). split; [reflexivity|].
    split; [exact Htr|]. rewrite Hs', Hfr. cbn.
    repeat split.
Qed.

Lemma calc_accuracy_stable (s s2 s' : Score) :
  calc_accuracy s = Ok s2 ->
  mode s' = mode s -> n300 s' = n300 s -> n100 s' = n100 s ->
  n50 s' = n50 s -> nmiss s' = nmiss s -> acc s' = acc s2 ->
  calc_accuracy s' = Ok s'.
Proof.
  intros H Hm H300 H100 H50 Hmiss Hacc. revert H.
  assert (Hid : set_acc (acc s') s' = s') by (destruct s'; reflexivity).
  unfold calc_accuracy, int_mul_float.
  rewrite Hm, H300, H100, H50, Hmiss.
  repeat match goal with
         | |- context [if ?c then _ else _] => destruct c
         | |- context [rbind ?r _] => destruct r; cbn [rbind]
         end;
    try discriminate;
    try match goal with
        | |- Ok (set_acc ?x s) = _ -> _ => generalize x; intros v
        end;
    intros H; inversion H; subst s2; cbn [acc set_acc] in Hacc;
    rewrite <- ?Hacc, ?Hid; reflexivity.
Qed.

(** X12. The accuracy of a decoded score is the accuracy of its hit
    counts: on the object [from_submission] returns for a logged-in
    player, [calc_accuracy] changes nothing. *)
Theorem from_submission_accuracy
    (w : World) (data_enc iv osu_ver phash : str) tr (s' : Score) :
  from_submission data_enc iv osu_ver phash w = (tr, Ok (Some s')) ->
  player s' <> None ->
  calc_accuracy s' = Ok s'.
Proof.
  intros Hrun Hpl.
  destruct (from_submission_decoded_inv w _ _ _ _ _ _ Hrun Hpl)
    as (p & m & t & Hlen & Hmd5 & Hp & Hdec & Hm & Hfin & Htr).
  destruct (finish_submission_inv w _ t s' Hfin) as (s2 & Hacc & Hrest).
  pose proof (calc_accuracy_frame _ _ Hacc) as Hfr.
  cbn [bmap decoded] in Hrest.
  assert (Hs : exists rk pb st ppv,
             s' = set_rank rk (set_prev_best pb (set_status st (set_pp ppv s2)))).
  { destruct (beatmaps w _) as [b|].
    - destruct Hrest as (t3 & d & t4 & s3 & _ & Hst & Hs' & _).
      apply calc_status_effect in Hst. destruct Hst as (Hst & _).
      assert (E : s3 = set_prev_best (prev_best s3) (set_status (status s3)
                         (set_pp (fst d) s2))).
      { rewrite <- Hst. destruct s3; reflexivity. }
      eexists _, (prev_best s3), (status s3), (fst d).
      rewrite Hs'. f_equal. exact E.
    - destruct Hrest as (_ & Hs').
      exists (rank s2), (prev_best s2),
        (if passed (decoded (submission_fields data_enc iv osu_ver) None
                      (Some p) m (now w))
         then SUBMITTED else FAILED), PyFloat.zero.
      rewrite Hs'. destruct s2; reflexivity. }
  destruct Hs as (rk & pb & st & ppv & Hs).
  apply (calc_accuracy_stable _ s2 s' Hacc); rewrite Hs, Hfr; reflexivity.
Qed.

End Decoded.

(** ** The pipeline after the decoding *)

Section Pipeline.

Context {I : Imports}.

(** X13. When the beatmap of a submission is known, the object returned
    for a logged-in player carries the placement of its final state:
    its [rank] is one more than the number of rows that outrank it, the
    count query being the last call made; its performance value is the
    one the engine computed for its modifiers, combo, misses, mode and
    accuracy in the vanilla modes 0 and 1, and 0.0 in every other
    mode. *)
Theorem from_submission_known_map
    (w : World) (data_enc iv osu_ver phash : str) tr (s' : Score)
    (b : Beatmap) :
  let data := submission_fields data_enc iv osu_ver in
  let md5 := nth 0 data "" in
  from_submission data_enc iv osu_ver phash w = (tr, Ok (Some s')) ->
  player s' <> None ->
  bmap s' = Some b ->
  beatmaps w md5 = Some b
  /\ rank s' = 1 + select_count (outranks s' b) (db w (sql_table (mode s')))
  /\ (as_vanilla (mode s') <> 0 -> as_vanilla (mode s') <> 1 ->
      pp s' = PyFloat.zero)
  /\ (as_vanilla (mode s') = 0 \/ as_vanilla (mode s') = 1 ->
      exists stars,
        engine w (bmap_id b) (pp_params_of s') = Some (pp s', stars))
  /\ last tr =
       Some (EvFetch (sql_table (mode s'))
               (CountBetter (bmap_md5 b) (as_vanilla (mode s'))
                  (lb_scoring s'))).
Proof.
  cbv zeta. intros Hrun Hpl Hb.
  destruct (from_submission_decoded_inv w _ _ _ _ _ _ Hrun Hpl)
    as (p & m & t & Hlen & Hmd5 & Hp & Hdec & Hm & Hfin & Htr).
  destruct (finish_submission_inv w _ t s' Hfin) as (s2 & Hacc & Hrest).
  pose proof (calc_accuracy_frame _ _ Hacc) as Hfr.
  cbn [bmap decoded] in Hrest.
  destruct (beatmaps w _) as [b'|] eqn:Hbm.
  2:{ exfalso. destruct Hrest as (_ & Hs'). rewrite Hs', Hfr in Hb.
      discriminate Hb. }
  destruct Hrest as (t3 & d & t4 & s3 & Hd & Hst & Hs' & Ht).
  pose proof (calc_status_effect _ _ _ _ Hst) as (Hst' & _).
  assert (E : s3 = set_prev_best (prev_best s3) (set_status (status s3)
                     (set_pp (fst d) s2))).
  { rewrite <- Hst'. destruct s3; reflexivity. }
  assert (Hb3 : bmap s3 = Some b') by (rewrite E, Hfr; reflexivity).
  assert (Hbb : b' = b).
  { rewrite Hs' in Hb. cbn [bmap set_rank] in Hb. congruence. }
  subst b'.
  assert (Hmode : mode s' = mode s3) by (rewrite Hs'; reflexivity).
  assert (Hlb : lb_scoring s' = lb_scoring s3) by (rewrite Hs'; reflexivity).
  assert (Hpp : pp s' = fst d) by (rewrite Hs', E; reflexivity).
  assert (Hpar : pp_params_of s' = pp_params_of s2)
    by (rewrite Hs', E; reflexivity).
  assert (Hm2 : mode s' = mode s2) by (rewrite Hs', E; reflexivity).
  assert (Hb2 : bmap s2 = Some b) by (rewrite Hfr; reflexivity).
  split; [reflexivity|]. split; [|split; [|split]].
  - rewrite Hmode, Hs'. reflexivity.
  - intros H0 H1. rewrite Hm2 in H0, H1.
    destruct (calc_diff_inv _ _ _ _ Hd) as [(_ & _ & -> & _)|([H|H] & _)];
      [exact Hpp|contradiction|contradiction].
  - intros H. rewrite Hm2 in H.
    destruct (calc_diff_inv _ _ _ _ Hd) as [(H0 & H1 & _)|(_ & b0 & Hb0 & He & _)].
    + destruct H; contradiction.
    + rewrite Hb2 in Hb0. inversion Hb0; subst b0.
      exists (snd d). rewrite Hpar, Hpp, He. destruct d; reflexivity.
  - rewrite Htr, Ht, Hmode, Hlb, !app_assoc. apply last_snoc.
Qed.

Lemma finish_submission_quiet (w : World) (s : Score) :
  bmap s = None -> fst (finish_submission s w) = [].
Proof.
  intros Hb. unfold finish_submission. rewrite bind_run. unfold lift.
  destruct (calc_accuracy s) as [s2|e] eqn:Hacc; [|reflexivity].
  apply calc_accuracy_frame in Hacc.
  assert (Hb2 : bmap s2 = None) by (rewrite Hacc; exact Hb).
  rewrite Hb2. reflexivity.
Qed.

(** X14. [from_submission] reaches the store, the registry of all
    players or the performance engine only for a plaintext of 18
    fields with a checksum of 32 characters and integer fields made
    of decimal digits (of any script) that [int] converts, sent by a
    logged-in player, with a mode [GameMode.from_params] accepts, on a
    beatmap that is known; whatever the outcome of the call, no other
    submission causes a query. *)
Theorem from_submission_guard
    (w : World) (data_enc iv osu_ver phash : str) tr r :
  let data := submission_fields data_enc iv osu_ver in
  let md5 := nth 0 data "" in
  let pname := PyStr.rstrip (nth 1 data "") in
  from_submission data_enc iv osu_ver phash w = (tr, r) ->
  Exists (fun e => is_backend e = true) tr ->
  structurally_valid data
  /\ fields_convert data = true
  /\ logins w pname phash <> None
  /\ GameMode_from_params (PyStr.int_value (nth 15 data ""))
       (PyStr.int_value (nth 13 data "")) <> None
  /\ beatmaps w md5 <> None.
Proof.
  cbv zeta. intros Hrun Hex.
  destruct (from_submission_cases w data_enc iv osu_ver phash)
    as [[_ H]|[(_ & _ & H)|(Hlen & Hmd5 & [[_ H]|(p & Hp & [[_ H]|(Hdec & [[_ H]|(Hconv & [[_ H]|(m & Hm & H)])])])])]];
    rewrite Hrun in H; inversion H as [[Htr Hr]]; clear H.
  1-6: exfalso; rewrite Htr in Hex;
    repeat match goal with
           | H : Exists _ (_ :: _) |- _ =>
               apply Exists_cons in H; destruct H as [H|H];
               [discriminate H|]
           | H : Exists _ [] |- _ => inversion H
           end.
  split; [|split; [|split; [|split]]].
  - split; [exact Hlen|]. split; [exact Hmd5|].
    intros i Hi. exact (decimal_fields _ i Hlen Hdec Hi).
  - exact Hconv.
  - rewrite Hp. discriminate.
  - rewrite Hm. discriminate.
  - intros Hb. rewrite Hb in Htr. rewrite finish_submission_quiet in Htr
      by reflexivity.
    rewrite Htr in Hex.
    repeat match goal with
           | H : Exists _ (_ :: _) |- _ =>
               apply Exists_cons in H; destruct H as [H|H];
               [discriminate H|]
           | H : Exists _ [] |- _ => inversion H
           end.
Qed.

(** X15. [from_submission] takes a plaintext for an invalid submission,
    logging it as such and returning nothing, exactly when the
    plaintext does not hold 17 colons. *)
Theorem from_submission_colons
    (w : World) (data_enc iv osu_ver phash : str) :
  let plain :=
    cbc_decrypt (PyStr.of_string "osu!-scoreburgr---------" ++ osu_ver)
      (b64decode iv) (b64decode data_enc) in
  PyStr.count (PyStr.ord ":") plain <> 17
  <-> from_submission data_enc iv osu_ver phash w
      = ([EvLog "Received an invalid score submission."], Ok None).
Proof.
  cbv zeta.
  pose proof (split_length (PyStr.ord ":")
    (cbc_decrypt (PyStr.of_string "osu!-scoreburgr---------" ++ osu_ver)
       (b64decode iv) (b64decode data_enc))) as Hlen.
  fold (submission_fields data_enc iv osu_ver) in Hlen.
  destruct (from_submission_cases w data_enc iv osu_ver phash)
    as [[Hn H]|[(Hl & _ & H)|(Hl & _ & [[_ H]|(p & _ & [[_ H]|(_ & [[_ H]|(_ & [[_ H]|(m & _ & H)])])])])]];
    rewrite H; (split; [intros Hc|intros Hr]);
    try reflexivity; try lia; try discriminate Hr.
Qed.

End Pipeline.

(** ** Doubles out of range and exact quotients *)

Lemma round_finish_overflow (s : bool) (q e : Z) :
  0 < q -> 971 < e -> round_finish s q e = S754_infinity s.
Proof.
  intros Hq He. unfold round_finish, shr_fexp. rewrite fexp_spec.
  destruct (Zdigits2_bounds q Hq) as (Hd & _).
  unfold shr. cbn [shr_record_of_loc].
  destruct (Z.max (Zdigits2 q + e - 53) (-1074) - e) as [|p|p] eqn:Ek.
  - cbn [shr_m]. destruct q as [|m|m]; try lia.
    destruct (Z.leb_spec e (PyFloat.emax - PyFloat.prec)) as [H|H];
      [|reflexivity].
    unfold PyFloat.emax, PyFloat.prec in H. lia.
  - destruct (iter_shr_1_spec p q ltac:(lia)) as (_ & Hdiv & _).
    destruct (Zdigits2_div_pow2 q (Zpos p) Hq ltac:(lia)) as [Hpos Hdig].
    rewrite Hdiv. destruct (q / 2 ^ Zpos p) as [|m|m]; try lia.
    destruct (Z.leb_spec (e + Zpos p) (PyFloat.emax - PyFloat.prec)) as [H|H];
      [|reflexivity].
    unfold PyFloat.emax, PyFloat.prec in H. lia.
  - cbn [shr_m]. destruct q as [|m|m]; try lia.
    destruct (Z.leb_spec e (PyFloat.emax - PyFloat.prec)) as [H|H];
      [|reflexivity].
    unfold PyFloat.emax, PyFloat.prec in H. lia.
Qed.

Lemma binary_round_aux_overflow (s : bool) (X : positive) (e : Z) :
  1024 < Zpos (digits2_pos X) + e ->
  binary_round_aux PyFloat.prec PyFloat.emax s (Zpos X) e loc_Exact
  = S754_infinity s.
Proof.
  intros Hde. rewrite binary_round_aux_finish.
  unfold shr_fexp. rewrite fexp_spec.
  change (Zdigits2 (Zpos X)) with (Zpos (digits2_pos X)).
  set (d := Zpos (digits2_pos X)) in *.
  assert (Hd : 0 < d) by (unfold d; lia).
  unfold shr. cbn [shr_record_of_loc].
  destruct (Z.max (d + e - 53) (-1074) - e) as [|p|p] eqn:Ek.
  - cbn [shr_m loc_of_shr_record round_nearest_even].
    apply round_finish_overflow; lia.
  - destruct (iter_shr_1_spec p (Zpos X) ltac:(lia)) as (_ & Hdiv & _).
    destruct (Zdigits2_div_pow2 (Zpos X) (Zpos p) ltac:(lia)
                ltac:(change (Zdigits2 (Zpos X)) with d; lia))
      as [Hpos Hdig].
    rewrite Hdiv.
    set (m1 := Zpos X / 2 ^ Zpos p) in *.
    set (l := loc_of_shr_record _).
    destruct (round_nearest_even_bounds m1 l) as [Hb _].
    apply round_finish_overflow; lia.
  - cbn [shr_m loc_of_shr_record round_nearest_even].
    apply round_finish_overflow; lia.
Qed.

Lemma binary_round_overflow (s : bool) (m : positive) (e : Z) :
  1024 < Zpos (digits2_pos m) + e ->
  binary_round PyFloat.prec PyFloat.emax s m e = S754_infinity s.
Proof.
  intros Hde. unfold binary_round.
  set (e' := fexp PyFloat.prec PyFloat.emax (Zpos (digits2_pos m) + e)).
  destruct (Z.le_gt_cases e e') as [Hle|Hgt].
  - rewrite shl_align_ge by exact Hle.
    apply binary_round_aux_overflow. exact Hde.
  - destruct (shl_align_le m e e' ltac:(lia)) as [H1 H2].
    destruct (shl_align m e e') as [mz ez]. cbn [fst snd] in H1, H2.
    subst ez.
    assert (Hdz : Zpos (digits2_pos mz) = Zpos (digits2_pos m) + (e - e')).
    { change (Zpos (digits2_pos mz)) with (Zdigits2 (Zpos mz)).
      rewrite H1. apply digits2_pos_shift. lia. }
    apply binary_round_aux_overflow. lia.
Qed.

Lemma of_Z_overflow (n : Z) :
  2 ^ 1024 <= n -> PyFloat.of_Z n = S754_infinity false.
Proof.
  intros Hn.
  pose proof (pow2_pos 1024 ltac:(lia)) as Hp.
  destruct n as [|m|m]; try lia.
  unfold PyFloat.of_Z, binary_normalize.
  apply binary_round_overflow.
  destruct (digits2_pos_bounds m) as [_ Hhi].
  assert (H : 2 ^ 1024 < 2 ^ Zpos (digits2_pos m)) by lia.
  apply pow2_le_lt in H; lia.
Qed.

Lemma float_of_int_overflow (n : Z) :
  2 ^ 1024 <= n -> float_of_int n = Raise OverflowError.
Proof.
  intros Hn. unfold float_of_int. rewrite (of_Z_overflow n Hn). reflexivity.
Qed.

Lemma float_of_int_Raise (n : Z) (e : exn) :
  float_of_int n = Raise e -> e = OverflowError.
Proof.
  unfold float_of_int. destruct (PyFloat.of_Z n); congruence.
Qed.

Lemma Zdigits2_mul_upper (a b : Z) :
  0 < a -> 0 < b -> Zdigits2 (a * b) <= Zdigits2 a + Zdigits2 b.
Proof.
  intros Ha Hb.
  destruct (Zdigits2_bounds a Ha) as (Hda & _ & Hha).
  destruct (Zdigits2_bounds b Hb) as (Hdb & _ & Hhb).
  destruct (Zdigits2_bounds (a * b) ltac:(nia)) as (Hd & Hl & _).
  assert (H : a * b < 2 ^ (Zdigits2 a + Zdigits2 b)).
  { rewrite Z.pow_add_r by lia. nia. }
  assert (H' : 2 ^ (Zdigits2 (a * b) - 1) < 2 ^ (Zdigits2 a + Zdigits2 b))
    by lia.
  apply pow2_le_lt in H'; lia.
Qed.

(** A quotient that is an integer is computed exactly. *)
Lemma div_of_Z_exact (c b : Z) :
  0 < c -> 0 < b -> c * b < 2 ^ 53 ->
  PyFloat.div (PyFloat.of_Z (c * b)) (PyFloat.of_Z b) = PyFloat.of_Z c.
Proof.
  intros Hc Hb Hcb.
  assert (Ha : 0 < c * b < 2 ^ 53) by nia.
  assert (Hb' : 0 < b < 2 ^ 53) by nia.
  assert (Hc' : 0 < c < 2 ^ 53) by nia.
  rewrite (of_Z_small (c * b) Ha), (of_Z_small b Hb'), (of_Z_small c Hc').
  destruct (mant_spec (c * b) Ha) as [Hma Hdma].
  destruct (mant_spec b Hb') as [Hmb Hdmb].
  destruct (mant_spec c Hc') as [Hmc Hdmc].
  destruct (Zdigits2_small (c * b) Ha) as [Hda0 Hda].
  destruct (Zdigits2_small b Hb') as [Hdb0 Hdb].
  destruct (Zdigits2_small c Hc') as [Hdc0 Hdc].
  pose proof (Zdigits2_mul_lower c b Hc Hb) as Hlow.
  pose proof (Zdigits2_mul_upper c b Hc Hb) as Hup.
  unfold PyFloat.div, SFdiv. cbn [xorb]. unfold SFdiv_core_binary.
  change (Zdigits2 (Zpos (mant (c * b))))
    with (Zpos (digits2_pos (mant (c * b)))).
  change (Zdigits2 (Zpos (mant b))) with (Zpos (digits2_pos (mant b))).
  rewrite Hdma, Hdmb.
  unfold expo in *.
  set (da := Zdigits2 (c * b)) in *. set (db := Zdigits2 b) in *.
  set (dc := Zdigits2 c) in *.
  rewrite fexp_normal by lia.
  replace (Z.min (53 + (da - 53) - (53 + (db - 53)) - 53) (da - 53 - (db - 53)))
    with (da - db - 53) by lia.
  replace (da - 53 - (db - 53) - (da - db - 53)) with 53 by lia.
  cbv iota. rewrite Z.shiftl_mul_pow2 by lia.
  assert (EA : Zpos (mant (c * b)) * 2 ^ 53
               = (c * 2 ^ (53 + db - da)) * Zpos (mant b)).
  { rewrite Hma, Hmb.
    replace (c * 2 ^ (53 + db - da) * (b * 2 ^ (53 - db)))
      with (c * b * (2 ^ (53 + db - da) * 2 ^ (53 - db))) by ring.
    rewrite <- Z.mul_assoc, <- !Z.pow_add_r by lia.
    f_equal. f_equal. lia. }
  pose proof (Z_div_mod (Zpos (mant (c * b)) * 2 ^ 53) (Zpos (mant b))
                ltac:(lia)) as Hdiv.
  destruct (Z.div_eucl (Zpos (mant (c * b)) * 2 ^ 53) (Zpos (mant b)))
    as [q r].
  destruct Hdiv as [Hqr Hr].
  assert (Hq : q = c * 2 ^ (53 + db - da) /\ r = 0).
  { rewrite EA in Hqr.
    assert (Hqq : (c * 2 ^ (53 + db - da) - q) * Zpos (mant b) = r) by lia.
    assert (Hz : c * 2 ^ (53 + db - da) - q = 0) by nia.
    split; nia. }
  destruct Hq as [-> ->].
  assert (Hloc : new_location (Zpos (mant b)) 0 = loc_Exact).
  { unfold new_location. destruct (Z.even (Zpos (mant b))); reflexivity. }
  rewrite Hloc.
  replace (dc - 53) with (da - db - 53 + (dc + db - da)) by lia.
  apply round_exact; [|exact Hdmc|lia|lia].
  rewrite Hmc, <- Z.mul_assoc, <- Z.pow_add_r by lia.
  f_equal. f_equal. lia.
Qed.

(** ** Accuracy: whole values and overflow *)

Section Exactness.

Context {I : Imports}.

Lemma ratio_exact (S T q : Z) :
  0 <= S -> 0 < T -> S <= 300 * T -> 30000 * T < 2 ^ 53 ->
  100 * S = q * (300 * T) ->
  PyFloat.div (PyFloat.mul (PyFloat.lit 100) (PyFloat.of_Z S))
              (PyFloat.of_Z (T * 300))
  = PyFloat.of_Z q.
Proof.
  intros HS HT HST Hbound Hq.
  change (2 ^ 53) with 9007199254740992 in *.
  unfold PyFloat.lit.
  rewrite (mul_of_Z 100 S)
    by (change (2 ^ 53) with 9007199254740992; lia).
  destruct (Z.eq_dec S 0) as [->|HS0].
  - assert (q = 0) by nia. subst q.
    rewrite Z.mul_0_r, of_Z_0.
    rewrite (of_Z_small (T * 300))
      by (change (2 ^ 53) with 9007199254740992; lia).
    reflexivity.
  - assert (Hq0 : 0 < q) by nia.
    replace (100 * S) with (q * (T * 300)) by lia.
    apply div_of_Z_exact; [lia|lia|].
    change (2 ^ 53) with 9007199254740992. lia.
Qed.

(** X16. Whenever the accuracy of a play is a whole number of percent,
    [calc_accuracy] computes exactly that number: for non-negative hit
    counts with [30000 x total] below [2 ^ 53], if [100 x] the weighted
    hits is [q x 300 x total], the accuracy is the double [q].  So a
    play of 300s only has the accuracy 100.0, one of misses only the
    accuracy 0.0. *)
Theorem calc_accuracy_whole (s : Score) (q : Z) :
  as_vanilla (mode s) = 0 \/ as_vanilla (mode s) = 1 ->
  0 <= n300 s -> 0 <= n100 s -> 0 <= n50 s -> 0 <= nmiss s ->
  0 < judged_total s ->
  30000 * judged_total s < 2 ^ 53 ->
  100 * weighted_hits s = q * (300 * judged_total s) ->
  calc_accuracy s = Ok (set_acc (PyFloat.of_Z q) s).
Proof.
  intros Hmode H300 H100 H50 Hmiss Hpos Hbound Hq.
  change (2 ^ 53) with 9007199254740992 in Hbound.
  unfold judged_total, weighted_hits in *.
  unfold calc_accuracy.
  destruct Hmode as [Hm|Hm]; rewrite Hm in *; cbn [Z.eqb] in *.
  - destruct (Z.eqb_spec (n300 s + n100 s + n50 s + nmiss s) 0) as [Ht|Ht];
      [lia|].
    rewrite !int_mul_float_small
      by (change (2 ^ 53) with 9007199254740992; lia).
    cbn [rbind]. f_equal. f_equal.
    unfold sum_floats. cbn [fold_left].
    rewrite !add_of_Z by (change (2 ^ 53) with 9007199254740992; lia).
    apply ratio_exact;
      change (2 ^ 53) with 9007199254740992; lia.
  - destruct (Z.eqb_spec (n300 s + n100 s + nmiss s) 0) as [Ht|Ht]; [lia|].
    rewrite !int_mul_float_small
      by (change (2 ^ 53) with 9007199254740992; lia).
    cbn [rbind]. f_equal. f_equal.
    unfold sum_floats. cbn [fold_left].
    rewrite !add_of_Z by (change (2 ^ 53) with 9007199254740992; lia).
    apply ratio_exact;
      change (2 ^ 53) with 9007199254740992; lia.
Qed.

(** X17. Hit counts have no upper bound: when the number of 300s, the
    number of 100s or the total of judged notes is [2 ^ 1024] or more,
    its conversion to a double fails and [calc_accuracy] raises
    [OverflowError] in the vanilla modes 0 and 1. *)
Theorem calc_accuracy_overflow (s : Score) :
  as_vanilla (mode s) = 0 \/ as_vanilla (mode s) = 1 ->
  judged_total s <> 0 ->
  2 ^ 1024 <= n300 s \/ 2 ^ 1024 <= n100 s \/ 2 ^ 1024 <= judged_total s ->
  calc_accuracy s = Raise OverflowError.
Proof.
  intros Hmode Ht Hbig.
  unfold judged_total in *. unfold calc_accuracy, int_mul_float.
  destruct Hmode as [Hm|Hm]; rewrite Hm in *; cbn [Z.eqb] in *;
    apply Z.eqb_neq in Ht; rewrite Ht.
  - destruct (float_of_int (n50 s)) as [y50|e] eqn:E50;
      [|rewrite (float_of_int_Raise _ _ E50); reflexivity].
    destruct (float_of_int (n100 s)) as [y100|e] eqn:E100;
      [|rewrite (float_of_int_Raise _ _ E100); reflexivity].
    destruct (float_of_int (n300 s)) as [y300|e] eqn:E300;
      [|rewrite (float_of_int_Raise _ _ E300); reflexivity].
    destruct (float_of_int (n300 s + n100 s + n50 s + nmiss s))
      as [yt|e] eqn:Et;
      [|rewrite (float_of_int_Raise _ _ Et); reflexivity].
    exfalso. destruct Hbig as [H|[H|H]];
      apply float_of_int_overflow in H; congruence.
  - destruct (float_of_int (n100 s)) as [y100|e] eqn:E100;
      [|rewrite (float_of_int_Raise _ _ E100); reflexivity].
    destruct (float_of_int (n300 s)) as [y300|e] eqn:E300;
      [|rewrite (float_of_int_Raise _ _ E300); reflexivity].
    destruct (float_of_int (n300 s + n100 s + nmiss s))
      as [yt|e] eqn:Et;
      [|rewrite (float_of_int_Raise _ _ Et); reflexivity].
    exfalso. destruct Hbig as [H|[H|H]];
      apply float_of_int_overflow in H; congruence.
Qed.

Lemma valid_fields_decimal (data : list str) :
  structurally_valid data ->
  forallb PyStr.isdecimal (int_fields data) = true.
Proof.
  intros (Hlen & _ & Hdec). rewrite (int_fields_positions data Hlen).
  apply forallb_forall. intros x Hx. apply in_map_iff in Hx.
  destruct Hx as (i & <- & Hi). exact (Hdec i Hi).
Qed.

(** X18. A structurally valid submission of a logged-in player whose
    integer fields [int] converts (at most 4300 digits each) and that
    claims [2 ^ 1024] or more 300s in a mode of vanilla identifier 0
    or 1 is not turned into a score: once beatmap, player and clock
    have been consulted, [from_submission] raises [OverflowError].
    When an integer field has more than 4300 digits, [int] refuses it
    and [from_submission] raises [ValueError] before the clock is
    read. *)
Theorem from_submission_overflow
    (w : World) (data_enc iv osu_ver phash : str) (p : Player) :
  let data := submission_fields data_enc iv osu_ver in
  let md5 := nth 0 data "" in
  let pname := PyStr.rstrip (nth 1 data "") in
  structurally_valid data ->
  logins w pname phash = Some p ->
  (fields_convert data = false ->
   from_submission data_enc iv osu_ver phash w =
     ([EvMapFromMd5 md5; EvGetLogin pname phash], Raise ValueError))
  /\ (forall m : GameMode,
        fields_convert data = true ->
        GameMode_from_params (PyStr.int_value (nth 15 data ""))
          (PyStr.int_value (nth 13 data "")) = Some m ->
        as_vanilla m = 0 \/ as_vanilla m = 1 ->
        2 ^ 1024 <= PyStr.int_value (nth 3 data "") ->
        from_submission data_enc iv osu_ver phash w =
          ([EvMapFromMd5 md5; EvGetLogin pname phash; EvTime],
           Raise OverflowError)).
Proof.
  cbv zeta. intros Hvalid Hp.
  pose proof (valid_fields_decimal _ Hvalid) as Hdec.
  destruct Hvalid as (Hlen & Hmd5 & Hd). split.
  - intros Hconv.
    destruct (from_submission_cases w data_enc iv osu_ver phash)
      as [[Hn _]|[(_ & Hn & _)|(_ & _ & [[Hn _]|(p' & Hp' & [[Hn _]|(_ & [[_ H]|(Hn & _)])])])]];
      congruence.
  - intros m Hconv Hm Hmode Hbig.
    rewrite (from_submission_run w data_enc iv osu_ver phash p m
               Hlen Hmd5 Hp Hdec Hconv Hm).
    set (data := submission_fields data_enc iv osu_ver) in *.
    set (s1 := decoded data (beatmaps w (nth 0 data "")) (Some p) m (now w)).
    assert (Hacc : calc_accuracy s1 = Raise OverflowError).
    { pose proof (pow2_pos 1024 ltac:(lia)) as Hpow.
      pose proof (int_value_nonneg (nth 4 data "")) as H4.
      pose proof (int_value_nonneg (nth 5 data "")) as H5.
      pose proof (int_value_nonneg (nth 8 data "")) as H8.
      apply calc_accuracy_overflow.
      - exact Hmode.
      - unfold judged_total. cbn [s1 decoded mode n300 n100 n50 nmiss].
        destruct (as_vanilla m =? 0); lia.
      - left. exact Hbig. }
    unfold finish_submission. rewrite bind_run. unfold lift. rewrite Hacc.
    reflexivity.
Qed.

End Exactness.

(** ** The login that is looked up *)

Section Names.

Context {I : Imports}.

Lemma calc_status_lookups (w : World) (s : Score) :
  Forall (fun e => is_lookup e = true) (fst (calc_status s w)).
Proof.
  unfold calc_status.
  destruct (passed s); cbn [negb]; [|constructor].
  destruct (player s) as [p|]; [|constructor].
  destruct (bmap s) as [b|]; [|constructor].
  run_step.
  destruct (select_first _ _) as [[k r]|]; [|repeat constructor].
  run_step.
  pose proof (from_sql_lookups w (sql_table (mode s)) k) as Hl.
  destruct (from_sql k (sql_table (mode s)) w) as [t1 [pbo|e]];
    cbn [fst] in Hl; [|constructor; [reflexivity|exact Hl]].
  cbn [pp set_prev_best].
  destruct (PyFloat.ltb (row_pp r) (pp s)); [destruct pbo as [pb|]|];
    cbn [fst app]; constructor; try reflexivity;
    rewrite List.app_nil_r; exact Hl.
Qed.

Lemma finish_submission_no_login (w : World) (s : Score) :
  Forall (fun e => is_login e = false) (fst (finish_submission s w)).
Proof.
  assert (Hl : forall l, Forall (fun e => is_lookup e = true) l ->
                         Forall (fun e => is_login e = false) l).
  { intros l. apply List.Forall_impl. intros [] H; try reflexivity; discriminate H. }
  unfold finish_submission. rewrite bind_run. unfold lift.
  destruct (calc_accuracy s) as [s2|e]; [|constructor].
  cbn [app]. destruct (bmap s2) as [b|] eqn:Hb; [|constructor].
  rewrite bind_run.
  assert (Hd : Forall (fun e => is_login e = false) (fst (calc_diff s2 w))).
  { unfold calc_diff. destruct (negb _); [constructor|].
    rewrite Hb. run_step. repeat constructor. }
  destruct (calc_diff s2 w) as [t3 [d|e]]; cbn [fst] in *; [|exact Hd].
  apply Forall_app. split; [exact Hd|].
  rewrite bind_run.
  pose proof (calc_status_lookups w (set_pp (fst d) s2)) as Hs.
  destruct (calc_status (set_pp (fst d) s2) w) as [t4 [s3|e]] eqn:Hst;
    cbn [fst] in *; [|exact (Hl _ Hs)].
  apply Forall_app. split; [exact (Hl _ Hs)|].
  destruct (calc_status_inv _ _ _ _ Hst) as ([_ Hb3] & _).
  cbn [bmap set_pp] in Hb3. rewrite Hb in Hb3.
  rewrite bind_run, (calc_lb_placement_run w s3 b Hb3).
  repeat constructor.
Qed.

(** X19. Whatever the outcome of [from_submission], the only login it
    looks up is that of the name in field 1 with its trailing white
    space removed, under the hash it was given: the field is the name
    queried followed by white space only, and the name queried does
    not end in white space. *)
Theorem from_submission_login_name
    (w : World) (data_enc iv osu_ver phash : str) tr r
    (name ph : str) :
  let data := submission_fields data_enc iv osu_ver in
  from_submission data_enc iv osu_ver phash w = (tr, r) ->
  In (EvGetLogin name ph) tr ->
  ph = phash
  /\ (exists t, nth 1 data "" = name ++ t /\ all_space t = true)
  /\ (forall c, last name = Some c -> PyStr.isspace c = false).
Proof.
  cbv zeta. intros Hrun Hin.
  assert (Hev : EvGetLogin name ph
                = EvGetLogin
                    (PyStr.rstrip (nth 1 (submission_fields data_enc iv osu_ver) ""))
                    phash).
  { destruct (from_submission_cases w data_enc iv osu_ver phash)
      as [[_ H]|[(_ & _ & H)|(Hlen & Hmd5 & [[_ H]|(p & Hp & [[_ H]|(Hdec & [[_ H]|(Hconv & [[_ H]|(m & Hm & H)])])])])]];
      rewrite Hrun in H; inversion H as [[Htr Hr]]; clear H;
      rewrite Htr in Hin; cbn [In app] in Hin;
      repeat match goal with
             | H : _ \/ _ |- _ => destruct H as [H|H]
             | H : False |- _ => destruct H
             | H : _ = EvGetLogin _ _ |- _ =>
                 first [discriminate H | symmetry; exact H]
             end.
    exfalso.
    pose proof (finish_submission_no_login w
      (decoded (submission_fields data_enc iv osu_ver)
         (beatmaps w (nth 0 (submission_fields data_enc iv osu_ver) ""))
         (Some p) m (now w))) as Hno.
    rewrite List.Forall_forall in Hno. specialize (Hno _ Hin).
    discriminate Hno. }
  inversion Hev; subst name ph.
  split; [reflexivity|]. split; [apply rstrip_prefix|].
  intros c. apply rstrip_last.
Qed.

End Names.

(** ** Status resolution without a player or a beatmap *)

Section Unset.

Context {I : Imports}.

(** X20. [calc_status] on a passed play whose player or beatmap is
    unset fails on the missing attribute: it raises [AttributeError]
    before the store is queried. *)
Theorem calc_status_attribute_error (w : World) (s : Score) :
  passed s = true ->
  player s = None \/ bmap s = None ->
  calc_status s w = ([], Raise AttributeError).
Proof.
  intros Hpass H. unfold calc_status. rewrite Hpass. cbn [negb].
  destruct (player s) as [p|]; [|reflexivity].
  destruct H as [H|H]; [discriminate|]. rewrite H. reflexivity.
Qed.

End Unset.

(** * Further examples

    The further properties at the concrete worlds of [Demo] and
    [Cases]. *)

Section FurtherExamples.

Import Demo.
Import Cases.

Lemma calc_lb_placement_bounds_witness :
  exists tr rk,
    calc_lb_placement (play VnStd 220 true) world = (tr, Ok rk)
    /\ 1 <= rk <= 1 + Z.of_nat (size scores_vn).
Proof.
  destruct (calc_lb_placement_bounds world (play VnStd 220 true) map_a eq_refl)
    as (tr & rk & Hrun & Hb & _).
  exists tr, rk. split; [exact Hrun|exact Hb].
Defined.

Lemma calc_lb_placement_unresolved_witness :
  calc_lb_placement new_score world = ([], Raise AttributeError).
Proof.
  apply (calc_lb_placement_unresolved world new_score). reflexivity.
Defined.

Lemma calc_lb_placement_monotone_witness :
  exists tr1 tr2 rk1 rk2,
    calc_lb_placement (play VnStd 220 true) world = (tr1, Ok rk1)
    /\ calc_lb_placement (play VnStd 150 true) world = (tr2, Ok rk2)
    /\ rk1 <= rk2.
Proof.
  apply (calc_lb_placement_monotone world (play VnStd 220 true)
           (play VnStd 150 true) map_a).
  - reflexivity.
  - reflexivity.
  - reflexivity.
  - intros _. vm_compute. reflexivity.
  - intros _. simpl. lia.
Defined.

Lemma from_sql_absent_witness :
  from_sql 99 "scores_vn" world
  = ([EvFetch "scores_vn" (SelectScore 99)], Ok None).
Proof.
  apply (proj1 (from_sql_absent world "scores_vn" 99)).
  vm_compute. reflexivity.
Defined.

Lemma from_sql_invalid_status_witness :
  from_sql 20 "scores_vn" world_bad
  = ([EvFetch "scores_vn" (SelectScore 20); EvMapFromMd5 md5_a; EvGetById 3],
     Raise ValueError).
Proof.
  apply (from_sql_invalid_status world_bad "scores_vn" 20 (row 3 100 1000 7)).
  - vm_compute. reflexivity.
  - right. simpl. lia.
Defined.

Lemma from_sql_rank_stable_witness :
  exists tr pb,
    from_sql 11 "scores_vn" world = (tr, Ok (Some pb))
    /\ exists tr', calc_lb_placement pb world = (tr', Ok (rank pb)).
Proof.
  eexists _, _. split; [vm_compute; reflexivity|].
  match goal with
  | |- exists tr', calc_lb_placement ?pb world = _ =>
      pose proof (from_sql_rank_stable world "scores_vn" 11 _ pb
                    ltac:(vm_compute; reflexivity)) as H
  end.
  cbn [bmap] in H. eexists. exact (proj1 H).
Defined.

Lemma calc_status_frame_witness :
  exists tr s',
    calc_status (play VnStd 220 true) world = (tr, Ok s')
    /\ set_prev_best None (set_status FAILED s') = play VnStd 220 true
    /\ Forall (fun e => is_lookup e = true) tr.
Proof.
  eexists _, _. split; [vm_compute; reflexivity|].
  match goal with
  | |- _ /\ Forall _ ?tr =>
      pose proof (calc_status_frame world (play VnStd 220 true) tr _
                    ltac:(vm_compute; reflexivity)) as (H1 & _ & H3)
  end.
  split; [exact H1|exact H3].
Defined.

Lemma calc_diff_engine_witness :
  calc_diff (play VnMania 220 true) world
  = ([], Ok (PyFloat.zero, PyFloat.zero))
  /\ calc_diff (play VnStd 220 true) world
     = ([EvOwoppai 75 (pp_params_of (play VnStd 220 true))],
        Ok (PyFloat.lit (2 * 300), PyFloat.lit 5)).
Proof.
  split.
  - apply (proj1 (calc_diff_engine world (play VnMania 220 true)));
      simpl; lia.
  - exact (proj2 (calc_diff_engine world (play VnStd 220 true))
             (or_introl eq_refl)).
Defined.

Lemma calc_status_attribute_error_witness :
  calc_status (set_player None (play VnStd 220 true)) world
  = ([], Raise AttributeError).
Proof.
  apply (calc_status_attribute_error world
           (set_player None (play VnStd 220 true))).
  - reflexivity.
  - left. reflexivity.
Defined.

Lemma calc_accuracy_whole_witness :
  calc_accuracy (tally VnStd 300 0 0 0)
  = Ok (set_acc (PyFloat.of_Z 100) (tally VnStd 300 0 0 0)).
Proof.
  apply (calc_accuracy_whole (tally VnStd 300 0 0 0) 100).
  - left. reflexivity.
  - simpl; lia.
  - simpl; lia.
  - simpl; lia.
  - simpl; lia.
  - vm_compute; reflexivity.
  - vm_compute; reflexivity.
  - vm_compute; reflexivity.
Defined.

Lemma calc_accuracy_overflow_witness :
  calc_accuracy (tally VnStd (2 ^ 1024) 0 0 0) = Raise OverflowError.
Proof.
  apply (calc_accuracy_overflow (tally VnStd (2 ^ 1024) 0 0 0)).
  - left. reflexivity.
  - vm_compute; discriminate.
  - left. vm_compute; discriminate.
Defined.

Lemma from_submission_fields_witness :
  exists tr s',
    from_submission sub_unknown "" "" "" world = (tr, Ok (Some s'))
    /\ grade s' = GradeStr "F" /\ play_time s' = 1600000100.
Proof.
  eexists _, _. split; [vm_compute; reflexivity|].
  match goal with
  | |- grade ?s' = _ /\ _ =>
      pose proof (from_submission_fields world sub_unknown "" "" "" _ s'
                    ltac:(vm_compute; reflexivity)
                    ltac:(vm_compute; discriminate))
        as (_ & _ & Hg & Ht)
  end.
  split; [apply Hg; reflexivity|exact Ht].
Defined.

Lemma from_submission_nonneg_witness :
  exists tr s',
    from_submission sub_ok "" "" "" world = (tr, Ok (Some s'))
    /\ 0 <= n300 s' /\ 0 <= client_flags s'.
Proof.
  eexists _, _. split; [vm_compute; reflexivity|].
  match goal with
  | |- 0 <= n300 ?s' /\ _ =>
      pose proof (from_submission_nonneg world sub_ok "" "" "" _ s'
                    ltac:(vm_compute; reflexivity)
                    ltac:(vm_compute; discriminate))
        as (H300 & _ & _ & _ & _ & _ & _ & _ & _ & Hcf)
  end.
  split; [exact H300|exact Hcf].
Defined.

Lemma from_submission_unknown_map_witness :
  exists tr s',
    from_submission sub_unknown "" "" "" world = (tr, Ok (Some s'))
    /\ tr = [EvMapFromMd5 "ffffffffffffffffffffffffffffffff";
             EvGetLogin "alice" ""; EvTime]
    /\ pp s' = PyFloat.zero /\ rank s' = 0.
Proof.
  eexists _, _. split; [vm_compute; reflexivity|].
  match goal with
  | |- ?tr = _ /\ pp ?s' = _ /\ _ =>
      pose proof (from_submission_unknown_map world sub_unknown "" "" "" tr s'
                    ltac:(vm_compute; reflexivity)
                    ltac:(vm_compute; discriminate)
                    ltac:(vm_compute; reflexivity))
        as (_ & _ & Hpp & Hrk & _)
  end.
  split; [reflexivity|]. split; [exact Hpp|exact Hrk].
Defined.

Lemma from_submission_accuracy_witness :
  exists tr s',
    from_submission sub_ok "" "" "" world = (tr, Ok (Some s'))
    /\ calc_accuracy s' = Ok s'.
Proof.
  eexists _, _. split; [vm_compute; reflexivity|].
  match goal with
  | |- calc_accuracy ?s' = _ =>
      exact (from_submission_accuracy world sub_ok "" "" "" _ s'
               ltac:(vm_compute; reflexivity)
               ltac:(vm_compute; discriminate))
  end.
Defined.

Lemma from_submission_known_map_witness :
  exists tr s',
    from_submission sub_ok "" "" "" world = (tr, Ok (Some s'))
    /\ rank s' = 1 + select_count (outranks s' map_a) scores_vn.
Proof.
  eexists _, _. split; [vm_compute; reflexivity|].
  match goal with
  | |- rank ?s' = _ =>
      pose proof (from_submission_known_map world sub_ok "" "" "" _ s' map_a
                    ltac:(vm_compute; reflexivity)
                    ltac:(vm_compute; discriminate)
                    ltac:(vm_compute; reflexivity))
        as (_ & Hrk & _)
  end.
  exact Hrk.
Defined.

Lemma from_submission_guard_witness :
  exists tr r,
    from_submission sub_ok "" "" "" world = (tr, r)
    /\ Exists (fun e => is_backend e = true) tr
    /\ structurally_valid (submission_fields sub_ok "" "")
    /\ beatmaps world (nth 0 (submission_fields sub_ok "" "") "") <> None.
Proof.
  eexists _, _. split; [vm_compute; reflexivity|].
  match goal with
  | |- Exists _ ?tr /\ _ =>
      assert (Hex : Exists (fun e => is_backend e = true) tr)
        by (repeat first [ apply List.Exists_cons_hd; reflexivity
                         | apply List.Exists_cons_tl ]);
      assert (Hrun : from_submission sub_ok "" "" "" world = (tr, _))
        by (vm_compute; reflexivity)
  end.
  pose proof (from_submission_guard world sub_ok "" "" "" _ _ Hrun Hex) as H.
  cbv zeta in H. destruct H as (Hv & _ & _ & _ & Hb).
  split; [exact Hex|]. split; [exact Hv|exact Hb].
Defined.

Lemma from_submission_colons_witness :
  from_submission sub_17 "" "" "" world
  = ([EvLog "Received an invalid score submission."], Ok None).
Proof.
  apply (proj1 (from_submission_colons world sub_17 "" "" "")).
  vm_compute. discriminate.
Defined.

Lemma from_submission_overflow_witness :
  from_submission sub_huge "" "" "" world
  = ([EvMapFromMd5 md5_a; EvGetLogin "alice" ""; EvTime],
     Raise OverflowError)
  /\ from_submission sub_long "" "" "" world
     = ([EvMapFromMd5 md5_a; EvGetLogin "alice" ""], Raise ValueError).
Proof.
  assert (Hhuge : structurally_valid (submission_fields sub_huge "" "")).
  { split; [vm_compute; reflexivity|]. split; [vm_compute; reflexivity|].
    intros i Hi. simpl in Hi.
    repeat (destruct Hi as [<-|Hi]; [vm_compute; reflexivity|]). destruct Hi. }
  assert (Hlong : structurally_valid (submission_fields sub_long "" "")).
  { split; [vm_compute; reflexivity|]. split; [vm_compute; reflexivity|].
    intros i Hi. simpl in Hi.
    repeat (destruct Hi as [<-|Hi]; [vm_compute; reflexivity|]). destruct Hi. }
  split.
  - rewrite (proj2 (from_submission_overflow (I := imports) world sub_huge
                      "" "" "" alice Hhuge eq_refl) VnStd).
    + vm_compute. reflexivity.
    + vm_compute. reflexivity.
    + vm_compute. reflexivity.
    + left. reflexivity.
    + vm_compute. discriminate.
  - rewrite (proj1 (from_submission_overflow (I := imports) world sub_long
                      "" "" "" alice Hlong eq_refl)).
    + vm_compute. reflexivity.
    + vm_compute. reflexivity.
Defined.

Lemma from_submission_login_name_witness :
  (exists t,
     nth 1 (submission_fields sub_ok "" "") "" = PyStr.of_string "alice" ++ t
     /\ all_space t = true)
  /\ forall c, last (PyStr.of_string "alice") = Some c ->
               PyStr.isspace c = false.
Proof.
  eassert (Hrun : from_submission sub_ok "" "" "" world = (_, _))
    by (vm_compute; reflexivity).
  pose proof (from_submission_login_name world sub_ok "" "" "" _ _ "alice" ""
                Hrun ltac:(right; left; reflexivity)) as H.
  cbv zeta in H. destruct H as (_ & H1 & H2).
  split; [exact H1|exact H2].
Defined.

(** A count written with a decimal digit of another script is
    decimal: the submission is decoded, with 3 hits of 300, and
    resolved as any other. *)
Lemma from_submission_unicode_digit :
  PyStr.isdecimal (nth 3 (submission_fields sub_arabic "" "") "") = true
  /\ exists tr s',
       from_submission sub_arabic "" "" "" world = (tr, Ok (Some s'))
       /\ n300 s' = 3 /\ status s' = BEST
       /\ Exists (fun e => is_backend e = true) tr.
Proof.
  split; [vm_compute; reflexivity|].
  eexists _, _. split; [vm_compute; reflexivity|].
  split; [reflexivity|]. split; [reflexivity|].
  repeat first [ apply List.Exists_cons_hd; reflexivity
               | apply List.Exists_cons_tl ].
Qed.

End FurtherExamples.
